(** * Training utilities of [utils.py]: evaluation loops, early stopping and
    the training drivers, embedded in Rocq.

    Python floats are IEEE-754 binary64 numbers and are modelled by Rocq's
    primitive floats; Python integers are [Z].  The objects of the tensor
    framework (model, optimizer, scheduler, tensors) are opaque: they are
    the fields of the class [Torch], and every call made on them is threaded
    through an explicit world state. *)

From Stdlib Require Import ZArith List Bool Lia Floats Uint63.
Import ListNotations.

Set Warnings "-inexact-float".

Local Open Scope Z_scope.

(** ** Early stopping *)

(** The attributes shared by the two early-stopping classes. *)
Record EarlyStoppingState : Type := mkEarlyStopping {
  patience : Z;
  counter : Z;
  best_score : float;
  val_loss_min : float;
  early_stop : bool
}.

Definition set_counter (self : EarlyStoppingState) (c : Z) : EarlyStoppingState :=
  mkEarlyStopping (patience self) c (best_score self) (val_loss_min self)
                  (early_stop self).

Definition set_best_score (self : EarlyStoppingState) (b : float) : EarlyStoppingState :=
  mkEarlyStopping (patience self) (counter self) b (val_loss_min self)
                  (early_stop self).

Definition set_early_stop (self : EarlyStoppingState) (b : bool) : EarlyStoppingState :=
  mkEarlyStopping (patience self) (counter self) (best_score self)
                  (val_loss_min self) b.

(** Python's [a > b] on floats is [b < a]. *)
Definition float_gt (a b : float) : bool := PrimFloat.ltb b a.
Definition float_lt (a b : float) : bool := PrimFloat.ltb a b.

(** [class EarlyStopping]: the loss-minimising policy. *)
Module EarlyStopping.

Definition init (patience : Z) : EarlyStoppingState :=
  {| patience := patience;
     counter := 0;
     best_score := infinity;
     val_loss_min := infinity;
     early_stop := false |}.

Definition call (self : EarlyStoppingState) (val_loss : float) : EarlyStoppingState :=
  if float_gt val_loss (best_score self) then
    let self := set_counter self (counter self + 1) in
    if counter self >=? patience self then set_early_stop self true else self
  else
    let self := set_best_score self val_loss in
    set_counter self 0.

End EarlyStopping.

(** What the module writes to standard output, one constructor per [print]
    statement (the formatted text is not modelled, its arguments are). *)
Inductive Printed : Type :=
| PrintLog (epoch : Z) (train_loss val_loss : float)
| PrintLogUnet (epoch : Z) (train_loss val_loss : float)
    (accuracy : spec_float) (dice : float)
| PrintStop (epoch : Z) (best : float)
| PrintCounter (counter : Z)
| PrintBestDice (best : float).

(** [class EarlyStoppingForUnet]: the Dice-maximising policy.  [call_print]
    is [__call__] together with the line it prints. *)
Module EarlyStoppingForUnet.

Definition init (patience : Z) : EarlyStoppingState :=
  {| patience := patience;
     counter := 0;
     best_score := 0%float;
     val_loss_min := infinity;
     early_stop := false |}.

Definition call_print (self : EarlyStoppingState) (dice : float)
    : EarlyStoppingState * Printed :=
  if float_lt dice (best_score self) then
    let self := set_counter self (counter self + 1) in
    let out := PrintCounter (counter self) in
    if counter self >=? patience self
    then (set_early_stop self true, out)
    else (self, out)
  else
    let self := set_best_score self dice in
    let self := set_counter self 0 in
    (self, PrintBestDice (best_score self)).

Definition call (self : EarlyStoppingState) (dice : float) : EarlyStoppingState :=
  fst (call_print self dice).

End EarlyStoppingForUnet.

(** One call per score, in order. *)
Definition feed (call : EarlyStoppingState -> float -> EarlyStoppingState)
    (self : EarlyStoppingState) (scores : list float) : EarlyStoppingState :=
  fold_left call scores self.

(** The stop flag as read after each successive call. *)
Fixpoint stop_flags (call : EarlyStoppingState -> float -> EarlyStoppingState)
    (self : EarlyStoppingState) (scores : list float) : list bool :=
  match scores with
  | [] => []
  | s :: rest => let self := call self s in early_stop self :: stop_flags call self rest
  end.

(** ** Numbers of the tensor framework *)

(** A zero-dimensional [int64] tensor is its value; arithmetic wraps. *)
Definition wrap64 (z : Z) : Z := (z + 2 ^ 63) mod 2 ^ 64 - 2 ^ 63.
Definition long_add (a b : Z) : Z := wrap64 (a + b).
Definition long_mul (a b : Z) : Z := wrap64 (a * b).

(** A zero-dimensional [float32] tensor is an IEEE-754 binary32 number
    (the framework's default floating-point type). *)
Definition f32 : Type := spec_float.
Definition f32_prec : Z := 24.
Definition f32_emax : Z := 128.

Definition f32_of_long (z : Z) : f32 := binary_normalize f32_prec f32_emax z 0 false.

(** A Python float operand of a [float32] operation is rounded to binary32. *)
Definition f32_of_float (x : float) : f32 :=
  match Prim2SF x with
  | S754_finite s m e =>
      binary_normalize f32_prec f32_emax (if s then Z.neg m else Z.pos m) e s
  | v => v
  end.

Definition f32_add (a b : f32) : f32 := SFadd f32_prec f32_emax a b.
Definition f32_div (a b : f32) : f32 := SFdiv f32_prec f32_emax a b.

(** [t.item()] and [float(t)] of a [float32] tensor: every binary32 number
    is a binary64 number. *)
Definition f32_item (v : f32) : float := SF2Prim v.

(** [len(data_loader)] as a Python float operand ([len] is below [2^63]). *)
Definition float_of_len (n : Z) : float := of_uint63 (Uint63.of_Z n).

(** [dice] is first the Python float [0.] and then a [float32] tensor. *)
Inductive DiceValue : Type :=
| DiceFloat (v : float)
| DiceTensor (v : f32).

(** ** Exceptions *)

Inductive PyError : Type :=
| ZeroDivisionError
| UnboundLocalError
| AttributeError.

Inductive result (A : Type) : Type :=
| Ok (a : A)
| Raise (e : PyError).
Arguments Ok {A} a.
Arguments Raise {A} e.

Inductive dtype : Type := float32 | long.

(** ** The tensor framework and the world the module runs in *)

(** The interface of the framework objects the module calls.  They are
    opaque: models, optimizers, schedulers and tensors are whatever the
    caller passes in. *)
Class Torch : Type := {
  Tensor : Type;
  Model : Type;
  Optimizer : Type;
  Scheduler : Type;
  Device : Type;

  (** [torch.nn.Module]: [model.eval()], [model.train()], [model.to(device)]
      and the forward pass [model(x)], which receives the current gradient
      mode and may update the module (its buffers). *)
  module_eval : Model -> Model;
  module_train : Model -> Model;
  module_to : Device -> Model -> Model;
  module_call : bool -> Model -> Tensor -> Model * Tensor;

  (** Tensor operations used by the module. *)
  tensor_to : Device -> option dtype -> Tensor -> Tensor;
  squeeze : Z -> Tensor -> Tensor;
  item : Tensor -> float;
  argmax : Tensor -> Z -> Tensor;
  tensor_eq : Tensor -> Tensor -> Tensor;
  tensor_mul : Tensor -> Tensor -> Tensor;
  tensor_add : Tensor -> Tensor -> Tensor;
  tensor_sum : Tensor -> Z;
  numel : Tensor -> Z;

  (** Autograd and optimisation: [loss.backward()] stores gradients in the
      module, [optimizer.zero_grad()] and [optimizer.step()] act on the
      module's parameters, [scheduler.step(metric)] acts on the optimizer. *)
  backward : Tensor -> Model -> Model;
  zero_grad : Optimizer -> Model -> Optimizer * Model;
  optimizer_step : Optimizer -> Model -> Optimizer * Model;
  scheduler_step : Scheduler -> float -> Optimizer -> Scheduler * Optimizer
}.

Section Utils.

Context {T : Torch}.

(** The calls made on the framework objects, in program order. *)
Inductive Call : Type :=
| CallEval
| CallTrain
| CallTo (device : Device)
| CallForward (x : Tensor)
| CallZeroGrad
| CallBackward (loss : Tensor)
| CallOptimizerStep
| CallSchedulerStep (metric : float).

Record World : Type := mkWorld {
  model : Model;
  optimizer : Optimizer;
  scheduler : option Scheduler;
  grad_enabled : bool;
  calls : list Call;
  stdout : list Printed
}.

(** Computations: a world transformer that returns a value or raises. *)
Definition M (A : Type) : Type := World -> result A * World.

Definition ret {A} (a : A) : M A := fun w => (Ok a, w).
Definition raise {A} (e : PyError) : M A := fun w => (Raise e, w).
Definition bind {A B} (m : M A) (f : A -> M B) : M B :=
  fun w => match m w with
           | (Ok a, w') => f a w'
           | (Raise e, w') => (Raise e, w')
           end.

Notation "x <- m ;; k" := (bind m (fun x => k))
  (at level 61, m at next level, right associativity).
Notation "m ;; k" := (bind m (fun _ => k))
  (at level 61, right associativity).

Definition record_call (c : Call) (w : World) : World :=
  mkWorld (model w) (optimizer w) (scheduler w) (grad_enabled w)
          (calls w ++ [c]) (stdout w).

Definition print (p : Printed) : M unit :=
  fun w => (Ok tt, mkWorld (model w) (optimizer w) (scheduler w)
                           (grad_enabled w) (calls w) (stdout w ++ [p])).

Definition set_model (m : Model) (w : World) : World :=
  mkWorld m (optimizer w) (scheduler w) (grad_enabled w) (calls w) (stdout w).

Definition set_grad_enabled (g : bool) (w : World) : World :=
  mkWorld (model w) (optimizer w) (scheduler w) g (calls w) (stdout w).

Definition model_eval : M unit :=
  fun w => (Ok tt, record_call CallEval (set_model (module_eval (model w)) w)).

Definition model_train : M unit :=
  fun w => (Ok tt, record_call CallTrain (set_model (module_train (model w)) w)).

Definition model_to (device : Device) : M unit :=
  fun w => (Ok tt, record_call (CallTo device)
                     (set_model (module_to device (model w)) w)).

Definition model_call (x : Tensor) : M Tensor :=
  fun w => let '(m, out) := module_call (grad_enabled w) (model w) x in
           (Ok out, record_call (CallForward x) (set_model m w)).

Definition loss_backward (loss : Tensor) : M unit :=
  fun w => (Ok tt, record_call (CallBackward loss)
                     (set_model (backward loss (model w)) w)).

Definition optimizer_zero_grad : M unit :=
  fun w => let '(o, m) := zero_grad (optimizer w) (model w) in
           (Ok tt, record_call CallZeroGrad
                     (mkWorld m o (scheduler w) (grad_enabled w) (calls w) (stdout w))).

Definition optimizer_do_step : M unit :=
  fun w => let '(o, m) := optimizer_step (optimizer w) (model w) in
           (Ok tt, record_call CallOptimizerStep
                     (mkWorld m o (scheduler w) (grad_enabled w) (calls w) (stdout w))).

(** [if scheduler is not None: scheduler.step(metric)]. *)
Definition scheduler_notify (metric : float) : M unit :=
  fun w => match scheduler w with
           | None => (Ok tt, w)
           | Some s =>
               let '(s', o) := scheduler_step s metric (optimizer w) in
               (Ok tt, record_call (CallSchedulerStep metric)
                         (mkWorld (model w) o (Some s') (grad_enabled w)
                                  (calls w) (stdout w)))
           end.

(** [with torch.no_grad():] the previous mode is restored on exit, also
    when the block raises. *)
Definition with_no_grad {A} (body : M A) : M A :=
  fun w => let prev := grad_enabled w in
           let '(r, w') := body (set_grad_enabled false w) in
           (r, set_grad_enabled prev w').

(** [for b in l: s = body(b, s)]. *)
Fixpoint for_each {B S} (l : list B) (body : B -> S -> M S) (s : S) : M S :=
  match l with
  | [] => ret s
  | b :: rest => s' <- body b s ;; for_each rest body s'
  end.

(** A loop whose body may [break]: the body returns [true] to leave. *)
Fixpoint for_each_break {B S} (l : list B) (body : B -> S -> M (S * bool)) (s : S)
    : M S :=
  match l with
  | [] => ret s
  | b :: rest =>
      r <- body b s ;;
      if snd r then ret (fst r) else for_each_break rest body (fst r)
  end.

(** [range(n)]. *)
Definition range (n : Z) : list Z := map Z.of_nat (seq 0 (Z.to_nat n)).

Definition len {B} (l : list B) : Z := Z.of_nat (length l).

(** [a / n] for a Python number [a] and an integer [n]. *)
Definition py_div (a : float) (n : Z) : M float :=
  if n =? 0 then raise ZeroDivisionError else ret (a / float_of_len n)%float.

(** [a % n] on integers. *)
Definition py_mod (a n : Z) : M Z :=
  if n =? 0 then raise ZeroDivisionError else ret (a mod n).

Definition DataLoader : Type := list (Tensor * Tensor).

(** *** [evaluate] *)

(** [total_loss] starts as the integer [0]; added to a float it behaves
    as [0.0], and divided by zero it raises like a float does. *)
Definition evaluate (criterion : Tensor -> Tensor -> Tensor)
    (data_loader : DataLoader) (device : Device) : M float :=
  model_eval ;;
  let total_loss := 0%float in
  total_loss <- with_no_grad
    (for_each data_loader
       (fun '(x, y) total_loss =>
          let x := tensor_to device None x in
          let y := tensor_to device None y in
          output <- model_call x ;;
          ret (total_loss + item (criterion output y))%float)
       total_loss) ;;
  py_div total_loss (len data_loader).

(** *** [evaluate_unet] *)

Record UnetLocals : Type := mkUnetLocals {
  intersection : Z;
  denom : Z;
  total : Z;
  dice : DiceValue;
  correct : option Z;
  total_loss : float
}.

Definition evaluate_unet_body (criterion : Tensor -> Tensor -> Tensor)
    (device : Device) (batch : Tensor * Tensor) (l : UnetLocals) : M UnetLocals :=
  let '(x, y) := batch in
  let correct := 0 in
  let intersection := 0 in
  let denom := 0 in
  let total := 0 in
  let x := tensor_to device (Some float32) x in
  let y := squeeze 1 (tensor_to device (Some long) y) in
  scores <- model_call x ;;
  let total_loss := (total_loss l + item (criterion scores y))%float in
  let predictions := argmax scores 1 in
  let correct := long_add correct (tensor_sum (tensor_eq predictions y)) in
  let total := total + numel predictions in
  let intersection := long_add intersection (tensor_sum (tensor_mul predictions y)) in
  let denom := long_add denom (tensor_sum (tensor_add predictions y)) in
  let dice := f32_div (f32_of_long (long_mul 2 intersection))
                      (f32_add (f32_of_long denom) (f32_of_float 1e-8)) in
  ret (mkUnetLocals intersection denom total (DiceTensor dice) (Some correct)
                    total_loss).

(** [dice.item()]: a Python float has no [item]. *)
Definition dice_item (d : DiceValue) : M float :=
  match d with
  | DiceFloat _ => raise AttributeError
  | DiceTensor v => ret (f32_item v)
  end.

(** [correct/total]: a tensor divided by a Python integer. *)
Definition correct_over_total (correct : option Z) (total : Z) : M f32 :=
  match correct with
  | None => raise UnboundLocalError
  | Some c => ret (f32_div (f32_of_long c) (f32_of_long total))
  end.

Definition evaluate_unet (criterion : Tensor -> Tensor -> Tensor)
    (data_loader : DataLoader) (device : Device) : M (float * f32 * float) :=
  let l := mkUnetLocals 0 0 0 (DiceFloat 0%float) None 0%float in
  model_eval ;;
  model_to device ;;
  l <- with_no_grad (for_each data_loader (evaluate_unet_body criterion device) l) ;;
  loss <- py_div (total_loss l) (len data_loader) ;;
  accuracy <- correct_over_total (correct l) (total l) ;;
  d <- dice_item (dice l) ;;
  ret (loss, accuracy, d).

(** The segmentation evaluator as the specification words it: correct
    pixels, total pixels, intersection and union-sum are accumulated across
    all batches of the pass.  It differs from [evaluate_unet_body] only in
    continuing from the running counters instead of restarting at zero. *)
Definition accumulating_unet_body (criterion : Tensor -> Tensor -> Tensor)
    (device : Device) (batch : Tensor * Tensor) (l : UnetLocals) : M UnetLocals :=
  let '(x, y) := batch in
  let correct := match correct l with Some c => c | None => 0 end in
  let x := tensor_to device (Some float32) x in
  let y := squeeze 1 (tensor_to device (Some long) y) in
  scores <- model_call x ;;
  let total_loss := (total_loss l + item (criterion scores y))%float in
  let predictions := argmax scores 1 in
  let correct := long_add correct (tensor_sum (tensor_eq predictions y)) in
  let total := total l + numel predictions in
  let intersection :=
    long_add (intersection l) (tensor_sum (tensor_mul predictions y)) in
  let denom := long_add (denom l) (tensor_sum (tensor_add predictions y)) in
  let dice := f32_div (f32_of_long (long_mul 2 intersection))
                      (f32_add (f32_of_long denom) (f32_of_float 1e-8)) in
  ret (mkUnetLocals intersection denom total (DiceTensor dice) (Some correct)
                    total_loss).

Definition accumulating_evaluate_unet (criterion : Tensor -> Tensor -> Tensor)
    (data_loader : DataLoader) (device : Device) : M (float * f32 * float) :=
  let l := mkUnetLocals 0 0 0 (DiceFloat 0%float) None 0%float in
  model_eval ;;
  model_to device ;;
  l <- with_no_grad (for_each data_loader (accumulating_unet_body criterion device) l) ;;
  loss <- py_div (total_loss l) (len data_loader) ;;
  accuracy <- correct_over_total (correct l) (total l) ;;
  d <- dice_item (dice l) ;;
  ret (loss, accuracy, d).

(** The calls an evaluation pass may make: no backward pass, no
    optimizer or scheduler step. *)
Definition inference_call (c : Call) : bool :=
  match c with
  | CallEval | CallTo _ | CallForward _ => true
  | _ => false
  end.

(** The calls one batch of [train_unet_with_scheduler] makes when a
    scheduler is supplied, given the input as moved to the device and the
    loss tensor of the batch. *)
Definition scheduled_batch_calls (step : Tensor * Tensor) : list Call :=
  let '(x, batch_loss) := step in
  [CallForward x; CallZeroGrad; CallBackward batch_loss; CallOptimizerStep;
   CallSchedulerStep (item batch_loss)].

(** *** [train] *)

Definition print_log (epoch : Z) (train_loss val_loss : float) : M unit :=
  print (PrintLog epoch train_loss val_loss).

Definition print_log_unet (epoch : Z) (train_loss val_loss : float)
    (accuracy : f32) (dice : float) : M unit :=
  print (PrintLogUnet epoch train_loss val_loss accuracy dice).

(** The locals of [train] that outlive an epoch; [epoch] is the loop
    variable, unbound before the first iteration. *)
Record TrainLocals : Type := mkTrainLocals {
  epoch_train_errors : list float;
  epoch_val_errors : list float;
  early_stopping : EarlyStoppingState;
  epoch : option Z
}.

Definition train_batch (criterion : Tensor -> Tensor -> Tensor) (device : Device)
    (batch : Tensor * Tensor) (train_loss : float) : M float :=
  let '(x, y) := batch in
  let x := tensor_to device None x in
  let y := tensor_to device None y in
  optimizer_zero_grad ;;
  output <- model_call x ;;
  let batch_loss := criterion output y in
  loss_backward batch_loss ;;
  optimizer_do_step ;;
  ret (train_loss + item batch_loss)%float.

(** One iteration of [for epoch in range(epochs)]; the boolean tells
    whether the iteration ended in [break]. *)
Definition train_epoch (criterion : Tensor -> Tensor -> Tensor)
    (train_loader val_loader : DataLoader) (device : Device)
    (do_early_stopping : bool)
    (log_fn : option (Z -> float -> float -> M unit)) (log_every : Z)
    (epoch : Z) (l : TrainLocals) : M (TrainLocals * bool) :=
  model_train ;;
  let train_loss := 0%float in
  train_loss <- for_each train_loader (train_batch criterion device) train_loss ;;
  train_loss <- py_div train_loss (len train_loader) ;;
  let epoch_train_errors := epoch_train_errors l ++ [train_loss] in
  val_loss <- evaluate criterion val_loader device ;;
  let epoch_val_errors := epoch_val_errors l ++ [val_loss] in
  let early_stopping :=
    if do_early_stopping
    then EarlyStopping.call (early_stopping l) val_loss
    else early_stopping l in
  match log_fn with
  | Some log_fn =>
      r <- py_mod (epoch + 1) log_every ;;
      if r =? 0 then log_fn epoch train_loss val_loss else ret tt
  | None => ret tt
  end ;;
  let l := mkTrainLocals epoch_train_errors epoch_val_errors early_stopping
                         (Some epoch) in
  if do_early_stopping && early_stop early_stopping then
    print (PrintStop epoch (best_score early_stopping)) ;;
    ret (l, true)
  else ret (l, false).

(** [train] up to its [return] statement. *)
Definition train_run (criterion : Tensor -> Tensor -> Tensor)
    (train_loader val_loader : DataLoader) (device : Device)
    (do_early_stopping : bool) (patience epochs : Z)
    (log_fn : option (Z -> float -> float -> M unit)) (log_every : Z)
    : M TrainLocals :=
  let l := mkTrainLocals [] [] (EarlyStopping.init patience) None in
  for_each_break (range epochs)
    (train_epoch criterion train_loader val_loader device do_early_stopping
                 log_fn log_every) l.

Definition train (criterion : Tensor -> Tensor -> Tensor)
    (train_loader val_loader : DataLoader) (device : Device)
    (do_early_stopping : bool) (patience epochs : Z)
    (log_fn : option (Z -> float -> float -> M unit)) (log_every : Z)
    : M (list float * list float) :=
  l <- train_run criterion train_loader val_loader device do_early_stopping
                 patience epochs log_fn log_every ;;
  ret (epoch_train_errors l, epoch_val_errors l).

(** *** [train_unet] and [train_unet_with_scheduler] *)

Record UnetTrainLocals : Type := mkUnetTrainLocals {
  u_epoch_train_errors : list float;
  u_epoch_val_errors : list float;
  u_epoch_dice_values : list float;
  u_epoc_acc : list float;
  u_early_stopping : EarlyStoppingState;
  u_epoch : option Z
}.

(** The accumulators of one epoch's batch loop. *)
Record UnetBatchLocals : Type := mkUnetBatchLocals {
  train_loss : float;
  train_correct_num : Z;
  train_total : Z
}.

Definition train_unet_batch (criterion : Tensor -> Tensor -> Tensor)
    (device : Device) (batch : Tensor * Tensor) (a : UnetBatchLocals)
    : M UnetBatchLocals :=
  let '(x, y) := batch in
  let x := tensor_to device (Some float32) x in
  let y := squeeze 1 (tensor_to device (Some long) y) in
  output <- model_call x ;;
  let batch_loss := criterion output y in
  optimizer_zero_grad ;;
  loss_backward batch_loss ;;
  optimizer_do_step ;;
  let train_predictions := argmax output 1 in
  let train_correct_num :=
    long_add (train_correct_num a) (tensor_sum (tensor_eq train_predictions y)) in
  let train_total := train_total a + numel train_predictions in
  let train_loss := (train_loss a + item batch_loss)%float in
  ret (mkUnetBatchLocals train_loss train_correct_num train_total).

Definition train_unet_with_scheduler_batch (criterion : Tensor -> Tensor -> Tensor)
    (device : Device) (batch : Tensor * Tensor) (a : UnetBatchLocals)
    : M UnetBatchLocals :=
  let '(x, y) := batch in
  let x := tensor_to device (Some float32) x in
  let y := squeeze 1 (tensor_to device (Some long) y) in
  output <- model_call x ;;
  let batch_loss := criterion output y in
  optimizer_zero_grad ;;
  loss_backward batch_loss ;;
  optimizer_do_step ;;
  scheduler_notify (item batch_loss) ;;
  let train_predictions := argmax output 1 in
  let train_correct_num :=
    long_add (train_correct_num a) (tensor_sum (tensor_eq train_predictions y)) in
  let train_total := train_total a + numel train_predictions in
  let train_loss := (train_loss a + item batch_loss)%float in
  ret (mkUnetBatchLocals train_loss train_correct_num train_total).

(** The part of an epoch after the batch loop, common to both functions. *)
Definition train_unet_epoch_end (criterion : Tensor -> Tensor -> Tensor)
    (train_loader val_loader : DataLoader) (device : Device)
    (do_early_stopping : bool)
    (log_fn : option (Z -> float -> float -> f32 -> float -> M unit))
    (log_every : Z) (epoch : Z) (l : UnetTrainLocals) (a : UnetBatchLocals)
    : M (UnetTrainLocals * bool) :=
  train_loss <- py_div (train_loss a) (len train_loader) ;;
  let epoch_train_errors := u_epoch_train_errors l ++ [train_loss] in
  let train_acc :=
    f32_item (f32_div (f32_of_long (train_correct_num a))
                      (f32_of_long (train_total a))) in
  let epoc_acc := u_epoc_acc l ++ [train_acc] in
  r <- evaluate_unet criterion val_loader device ;;
  let '(val_loss, accuracy, dice) := r in
  let epoch_val_errors := u_epoch_val_errors l ++ [val_loss] in
  let epoch_dice_values := u_epoch_dice_values l ++ [dice] in
  early_stopping <-
    (if do_early_stopping then
       let '(es, out) := EarlyStoppingForUnet.call_print (u_early_stopping l) dice in
       print out ;; ret es
     else ret (u_early_stopping l)) ;;
  match log_fn with
  | Some log_fn =>
      r <- py_mod (epoch + 1) log_every ;;
      if r =? 0 then log_fn epoch train_loss val_loss accuracy dice else ret tt
  | None => ret tt
  end ;;
  let l := mkUnetTrainLocals epoch_train_errors epoch_val_errors epoch_dice_values
                             epoc_acc early_stopping (Some epoch) in
  if do_early_stopping && early_stop early_stopping then
    print (PrintStop epoch (best_score early_stopping)) ;;
    ret (l, true)
  else ret (l, false).

Definition train_unet_epoch (criterion : Tensor -> Tensor -> Tensor)
    (train_loader val_loader : DataLoader) (device : Device)
    (do_early_stopping : bool)
    (log_fn : option (Z -> float -> float -> f32 -> float -> M unit))
    (log_every : Z) (epoch : Z) (l : UnetTrainLocals)
    : M (UnetTrainLocals * bool) :=
  model_train ;;
  a <- for_each train_loader (train_unet_batch criterion device)
         (mkUnetBatchLocals 0%float 0 0) ;;
  train_unet_epoch_end criterion train_loader val_loader device do_early_stopping
                       log_fn log_every epoch l a.

Definition train_unet_with_scheduler_epoch (criterion : Tensor -> Tensor -> Tensor)
    (train_loader val_loader : DataLoader) (device : Device)
    (do_early_stopping : bool)
    (log_fn : option (Z -> float -> float -> f32 -> float -> M unit))
    (log_every : Z) (epoch : Z) (l : UnetTrainLocals)
    : M (UnetTrainLocals * bool) :=
  model_train ;;
  a <- for_each train_loader (train_unet_with_scheduler_batch criterion device)
         (mkUnetBatchLocals 0%float 0 0) ;;
  train_unet_epoch_end criterion train_loader val_loader device do_early_stopping
                       log_fn log_every epoch l a.

Definition unet_locals_init (patience : Z) : UnetTrainLocals :=
  mkUnetTrainLocals [] [] [] [] (EarlyStoppingForUnet.init patience) None.

Definition train_unet_run (criterion : Tensor -> Tensor -> Tensor)
    (train_loader val_loader : DataLoader) (device : Device)
    (do_early_stopping : bool) (patience epochs : Z)
    (log_fn : option (Z -> float -> float -> f32 -> float -> M unit))
    (log_every : Z) : M UnetTrainLocals :=
  for_each_break (range epochs)
    (train_unet_epoch criterion train_loader val_loader device do_early_stopping
                      log_fn log_every)
    (unet_locals_init patience).

Definition train_unet (criterion : Tensor -> Tensor -> Tensor)
    (train_loader val_loader : DataLoader) (device : Device)
    (do_early_stopping : bool) (patience epochs : Z)
    (log_fn : option (Z -> float -> float -> f32 -> float -> M unit))
    (log_every : Z) : M (list float * list float * list float) :=
  l <- train_unet_run criterion train_loader val_loader device do_early_stopping
                      patience epochs log_fn log_every ;;
  ret (u_epoch_train_errors l, u_epoch_val_errors l, u_epoch_dice_values l).

Definition train_unet_with_scheduler_run (criterion : Tensor -> Tensor -> Tensor)
    (train_loader val_loader : DataLoader) (device : Device)
    (do_early_stopping : bool) (patience epochs : Z)
    (log_fn : option (Z -> float -> float -> f32 -> float -> M unit))
    (log_every : Z) : M UnetTrainLocals :=
  for_each_break (range epochs)
    (train_unet_with_scheduler_epoch criterion train_loader val_loader device
                                     do_early_stopping log_fn log_every)
    (unet_locals_init patience).

Definition train_unet_with_scheduler (criterion : Tensor -> Tensor -> Tensor)
    (train_loader val_loader : DataLoader) (device : Device)
    (do_early_stopping : bool) (patience epochs : Z)
    (log_fn : option (Z -> float -> float -> f32 -> float -> M unit))
    (log_every : Z) : M (list float * list float * list float) :=
  l <- train_unet_with_scheduler_run criterion train_loader val_loader device
         do_early_stopping patience epochs log_fn log_every ;;
  ret (u_epoch_train_errors l, u_epoch_val_errors l, u_epoch_dice_values l).

(** *** Predicates on computations and traces *)

(** [m] returns (it does not raise) from every world, with a value that
    satisfies [Q]. *)
Definition returns {A} (m : M A) (Q : A -> Prop) : Prop :=
  forall w, exists a w', m w = (Ok a, w') /\ Q a.

(** [m] keeps the world property [I], whether it returns or raises. *)
Definition preserves {A} (I : World -> Prop) (m : M A) : Prop :=
  forall w, I w -> I (snd (m w)).

(** A trace in which optimizer and scheduler are only ever called in the
    group [scheduled_batch_calls]: every optimizer step is followed at once
    by one scheduler step, whose metric is the value of the loss that was
    just back-propagated. *)
Inductive scheduled : list Call -> Prop :=
| scheduled_nil : scheduled []
| scheduled_other (c : Call) (cs : list Call) :
    c = CallTrain \/ inference_call c = true ->
    scheduled cs -> scheduled (c :: cs)
| scheduled_group (step : Tensor * Tensor) (cs : list Call) :
    scheduled cs -> scheduled (scheduled_batch_calls step ++ cs).

(** The world still has its scheduler, and the calls made since the log
    was [before] form a scheduled trace. *)
Definition notifying (before : list Call) (w : World) : Prop :=
  (exists s, scheduler w = Some s)
  /\ exists cs, calls w = before ++ cs /\ scheduled cs.

End Utils.

(** ** A small concrete framework

    Label tensors are flat lists of integers, a loss is a scalar float, the
    network adds its single integer parameter to every entry of its input
    (the input already holds one label per pixel), and the optimizer
    subtracts the stored gradient, scaled by the learning rate, from that
    parameter.  It is used to run the module on explicit inputs. *)

Inductive ToyTensor : Type :=
| Labels (l : list Z)
| Scalar (v : float).

Record ToyModel : Type := mkToyModel {
  toy_parameters : Z;
  toy_grad : Z;
  toy_training : bool
}.

Definition toy_values (t : ToyTensor) : list Z :=
  match t with
  | Labels l => l
  | Scalar _ => []
  end.

Fixpoint zip_with (f : Z -> Z -> Z) (a b : list Z) : list Z :=
  match a, b with
  | p :: a', q :: b' => f p q :: zip_with f a' b'
  | _, _ => []
  end.

Definition toy_pointwise (f : Z -> Z -> Z) (a b : ToyTensor) : ToyTensor :=
  Labels (zip_with f (toy_values a) (toy_values b)).

Definition toy_forward (m : ToyModel) (x : ToyTensor) : ToyTensor :=
  match x with
  | Labels l => Labels (map (Z.add (toy_parameters m)) l)
  | Scalar v => Scalar v
  end.

Definition toy_item (t : ToyTensor) : float :=
  match t with
  | Scalar v => v
  | Labels _ => 0%float
  end.

Definition toy : Torch := {|
  Tensor := ToyTensor;
  Model := ToyModel;
  Optimizer := Z;
  Scheduler := list float;
  Device := unit;
  module_eval := fun m => mkToyModel (toy_parameters m) (toy_grad m) false;
  module_train := fun m => mkToyModel (toy_parameters m) (toy_grad m) true;
  module_to := fun _ m => m;
  module_call := fun _ m x => (m, toy_forward m x);
  tensor_to := fun _ _ x => x;
  squeeze := fun _ x => x;
  item := toy_item;
  argmax := fun t _ => t;
  tensor_eq := toy_pointwise (fun p q => if p =? q then 1 else 0);
  tensor_mul := toy_pointwise Z.mul;
  tensor_add := toy_pointwise Z.add;
  tensor_sum := fun t => fold_left Z.add (toy_values t) 0;
  numel := fun t => Z.of_nat (length (toy_values t));
  backward := fun _ m => mkToyModel (toy_parameters m) (toy_grad m + 1) (toy_training m);
  zero_grad := fun o m => (o, mkToyModel (toy_parameters m) 0 (toy_training m));
  optimizer_step := fun o m =>
    (o, mkToyModel (toy_parameters m - o * toy_grad m) (toy_grad m) (toy_training m));
  scheduler_step := fun s metric o => (s ++ [metric], o)
|}.

(** A world whose model has parameter 0 and whose optimizer has learning
    rate 1. *)
Definition toy_world (sched : option (list float)) : @World toy :=
  @mkWorld toy (mkToyModel 0 0 true) 1 sched true [] [].

(** The sum of the absolute differences between output and target. *)
Definition toy_abs_loss (out y : ToyTensor) : ToyTensor :=
  Scalar (float_of_len
            (fold_left Z.add
               (zip_with (fun p q => Z.abs (p - q)) (toy_values out) (toy_values y)) 0)).

(** A criterion that yields the same loss for every batch. *)
Definition toy_constant_loss (c : float) : ToyTensor -> ToyTensor -> ToyTensor :=
  fun _ _ => Scalar c.

Definition toy_batch (predicted target : list Z) : ToyTensor * ToyTensor :=
  (Labels predicted, Labels target).

(** Two batches of four pixels: the first predicts no pixel correctly, the
    second predicts all four. *)
Definition two_batches : list (ToyTensor * ToyTensor) :=
  [toy_batch [1; 0; 0; 0] [0; 1; 1; 1]; toy_batch [1; 1; 1; 1] [1; 1; 1; 1]].

(** ** Notions used in the statements *)

(** What an evaluation pass may change in the world: the module's mode,
    device and buffers, and the log of calls, which grows by inference calls
    only.  The parameters (as observed by [parameters]), the optimizer and
    the scheduler stay as they were. *)
Definition frame {T : Torch} {Params : Type} (parameters : Model -> Params)
    (w0 w : World) : Prop :=
  parameters (model w) = parameters (model w0)
  /\ optimizer w = optimizer w0
  /\ scheduler w = scheduler w0
  /\ exists cs, calls w = calls w0 ++ cs /\ forallb inference_call cs = true.


(** The counter is never negative, and while the flag is unset it stays
    below the patience (below 1 when the patience is not positive). *)
Definition counter_in_range (self : EarlyStoppingState) : Prop :=
  0 <= counter self
  /\ (early_stop self = false -> counter self < Z.max (patience self) 1).

(** A patience below 1 acts as patience 1: the states differ in the
    [patience] field only. *)
Definition same_but_patience (a b : EarlyStoppingState) : Prop :=
  counter a = counter b /\ best_score a = best_score b
  /\ early_stop a = early_stop b.

(** The accuracy and the Dice coefficient that the statistics of one batch
    give, as [evaluate_unet] computes them from counters that start at 0:
    [scores] is the model's output on the batch and [y] its target. *)
Definition batch_accuracy {T : Torch} (scores y : Tensor) : f32 :=
  let predictions := argmax scores 1 in
  f32_div (f32_of_long (long_add 0 (tensor_sum (tensor_eq predictions y))))
          (f32_of_long (0 + numel predictions)).

Definition batch_dice {T : Torch} (scores y : Tensor) : float :=
  let predictions := argmax scores 1 in
  let intersection := long_add 0 (tensor_sum (tensor_mul predictions y)) in
  let denom := long_add 0 (tensor_sum (tensor_add predictions y)) in
  f32_item (f32_div (f32_of_long (long_mul 2 intersection))
                    (f32_add (f32_of_long denom) (f32_of_float 1e-8))).

(** [step] pairs the input of the training batch [b], as converted and
    moved to the device, with the loss of that batch: the criterion applied
    to an output of the model on that input and to the target of [b]. *)
Definition batch_step {T : Torch} (criterion : Tensor -> Tensor -> Tensor)
    (device : Device) (b step : Tensor * Tensor) : Prop :=
  fst step = tensor_to device (Some float32) (fst b)
  /\ exists (g : bool) (m : Model),
       snd step = criterion (snd (module_call g m (fst step)))
                            (squeeze 1 (tensor_to device (Some long) (snd b))).

(** The calls of one completed epoch of [train_unet_with_scheduler] when a
    scheduler is supplied: [model.train()], the five calls of each batch,
    then the calls of [evaluate_unet] on the validation loader. *)
Definition scheduled_epoch_calls {T : Torch} (device : Device)
    (val_loader : DataLoader) (steps : list (Tensor * Tensor)) : list Call :=
  CallTrain :: flat_map scheduled_batch_calls steps
  ++ CallEval :: CallTo device
     :: map (fun b => CallForward (tensor_to device (Some float32) (fst b))) val_loader.

(** The scheduler after a sequence of notifications [scheduler.step(metric)],
    each given with its metric and the optimizer the scheduler acts on. *)
Definition notified {T : Torch} (s : Scheduler) (notes : list (float * Optimizer))
    : Scheduler :=
  fold_left (fun s n => fst (scheduler_step s (fst n) (snd n))) notes s.

(** [notes] are the notifications that belong to the batches [steps]: one
    per batch, in order, whose metric is the value of the batch's loss and
    whose optimizer is the one an optimizer step has just returned. *)
Definition notes_of {T : Torch} (steps : list (Tensor * Tensor))
    (notes : list (float * Optimizer)) : Prop :=
  Forall2 (fun step n =>
             fst n = item (snd step)
             /\ exists o m, snd n = fst (optimizer_step o m))
          steps notes.

(** The mean training loss of an epoch whose batches are [steps]. *)
Definition epoch_mean_loss {T : Torch} (train_loader : DataLoader)
    (steps : list (Tensor * Tensor)) : float :=
  (fold_left (fun acc step => acc + item (snd step)) steps 0
   / float_of_len (len train_loader))%float.

(** The lines the default callback [print_log] writes for consecutive
    epochs, the first of which has index [epoch] and whose history entries
    (training loss, validation loss) are [entries]: one line for each epoch
    whose number, counted from 1, is a multiple of [log_every]. *)
Fixpoint log_lines (log_every : Z) (epoch : Z) (entries : list (float * float))
    : list Printed :=
  match entries with
  | [] => []
  | (train_loss, val_loss) :: rest =>
      (if (epoch + 1) mod log_every =? 0
       then [PrintLog epoch train_loss val_loss] else [])
      ++ log_lines log_every (epoch + 1) rest
  end.

(** ** Proof tools *)

(** Float arithmetic is only ever evaluated on closed terms. *)
Arguments f32_of_long : simpl never.
Arguments f32_of_float : simpl never.
Arguments f32_add : simpl never.
Arguments f32_div : simpl never.
Arguments f32_item : simpl never.
Arguments float_of_len : simpl never.
Arguments long_add : simpl never.
Arguments long_mul : simpl never.
Arguments PrimFloat.add : simpl never.
Arguments PrimFloat.div : simpl never.

(** Splits a hypothesis [bind m k w = (Ok r, w')] into the run of [m] and
    the run of [k]. *)
Ltac bind_inv H :=
  unfold bind in H;
  match type of H with
  | (match ?m ?w with _ => _ end) = _ =>
      let a := fresh "a" in
      let e := fresh "e" in
      let w1 := fresh "w" in
      let E := fresh "E" in
      destruct (m w) as [[a | e] w1] eqn:E; [| discriminate H]
  | (let (_, _) := ?m ?w in _) = _ =>
      let a := fresh "a" in
      let e := fresh "e" in
      let w1 := fresh "w" in
      let E := fresh "E" in
      destruct (m w) as [[a | e] w1] eqn:E; [| discriminate H]
  end.

(** * Properties *)

(** ** Computations *)

Section ComputationFacts.

Context {T : Torch}.

Lemma returns_ret {A} (a : A) (Q : A -> Prop) : Q a -> returns (ret a) Q.
Proof. intros H w. exists a, w. split; [reflexivity | exact H]. Qed.

Lemma returns_bind {A B} (m : M A) (f : A -> M B) (Q : A -> Prop) (R : B -> Prop) :
  returns m Q -> (forall a, Q a -> returns (f a) R) -> returns (bind m f) R.
Proof.
  intros Hm Hf w. destruct (Hm w) as (a & w1 & E & HQ).
  destruct (Hf a HQ w1) as (b & w2 & E2 & HR).
  exists b, w2. unfold bind. rewrite E. split; assumption.
Qed.

Lemma returns_weaken {A} (m : M A) (Q R : A -> Prop) :
  returns m Q -> (forall a, Q a -> R a) -> returns m R.
Proof.
  intros Hm HQR w. destruct (Hm w) as (a & w1 & E & HQ).
  exists a, w1. split; [exact E | apply HQR, HQ].
Qed.

Lemma returns_for_each {B S} (l : list B) (body : B -> S -> M S) (J : S -> Prop) :
  (forall b s, J s -> returns (body b s) J) ->
  forall s, J s -> returns (for_each l body s) J.
Proof.
  intros Hbody. induction l as [| b rest IH]; intros s HJ; cbn [for_each].
  - apply returns_ret, HJ.
  - eapply returns_bind; [apply Hbody, HJ | exact IH].
Qed.

(** A loop over at least one element ends in a state its body produced. *)
Lemma returns_for_each_nonempty {B S} (l : list B) (body : B -> S -> M S)
    (Q : S -> Prop) (s : S) :
  l <> [] -> (forall b s, returns (body b s) Q) -> returns (for_each l body s) Q.
Proof.
  intros Hl Hbody. destruct l as [| b rest]; [contradiction |].
  cbn [for_each]. eapply returns_bind; [apply Hbody |].
  intros s1 H1. apply returns_for_each; [| exact H1].
  intros b' s' _. apply Hbody.
Qed.

Lemma returns_for_each_break {B S} (l : list B) (body : B -> S -> M (S * bool)) :
  (forall b s, returns (body b s) (fun _ => True)) ->
  forall s, returns (for_each_break l body s) (fun _ => True).
Proof.
  intros Hbody. induction l as [| b rest IH]; intros s; cbn [for_each_break].
  - apply returns_ret, I.
  - eapply returns_bind; [apply Hbody |].
    intros [s1 stop] _. cbn [fst snd]. destruct stop; [apply returns_ret, I | apply IH].
Qed.

Lemma returns_with_no_grad {A} (body : M A) (Q : A -> Prop) :
  returns body Q -> returns (with_no_grad body) Q.
Proof.
  intros Hb w. destruct (Hb (set_grad_enabled false w)) as (a & w1 & E & HQ).
  exists a, (set_grad_enabled (grad_enabled w) w1).
  unfold with_no_grad. rewrite E. split; [reflexivity | exact HQ].
Qed.

Lemma returns_model_call (x : Tensor) : returns (model_call x) (fun _ => True).
Proof.
  intros w. unfold model_call.
  destruct (module_call (grad_enabled w) (model w) x) as [m out].
  do 2 eexists. split; [reflexivity | exact I].
Qed.

Lemma returns_optimizer_zero_grad : returns optimizer_zero_grad (fun _ => True).
Proof.
  intros w. unfold optimizer_zero_grad.
  destruct (zero_grad (optimizer w) (model w)) as [o m].
  do 2 eexists. split; [reflexivity | exact I].
Qed.

Lemma returns_optimizer_do_step : returns optimizer_do_step (fun _ => True).
Proof.
  intros w. unfold optimizer_do_step.
  destruct (optimizer_step (optimizer w) (model w)) as [o m].
  do 2 eexists. split; [reflexivity | exact I].
Qed.

Lemma returns_py_div (a : float) (n : Z) :
  n <> 0 -> returns (py_div a n) (fun _ => True).
Proof.
  intros Hn w. unfold py_div. destruct (Z.eqb_spec n 0) as [E | _]; [contradiction |].
  do 2 eexists. split; [reflexivity | exact I].
Qed.

Lemma returns_py_mod (a n : Z) : n <> 0 -> returns (py_mod a n) (fun _ => True).
Proof.
  intros Hn w. unfold py_mod. destruct (Z.eqb_spec n 0) as [E | _]; [contradiction |].
  do 2 eexists. split; [reflexivity | exact I].
Qed.

Lemma len_nonempty {B} (l : list B) : l <> [] -> len l <> 0.
Proof. destruct l; [contradiction |]. intros _. unfold len. cbn [length]. lia. Qed.

Lemma preserves_ret {A} (I : World -> Prop) (a : A) : preserves I (ret a).
Proof. intros w H. exact H. Qed.

Lemma preserves_raise {A} (I : World -> Prop) (e : PyError) : preserves I (@raise _ A e).
Proof. intros w H. exact H. Qed.

Lemma preserves_bind {A B} (I : World -> Prop) (m : M A) (f : A -> M B) :
  preserves I m -> (forall a, preserves I (f a)) -> preserves I (bind m f).
Proof.
  intros Hm Hf w H. unfold bind. specialize (Hm w H).
  destruct (m w) as [[a | e] w1]; cbn [snd] in *; [apply Hf, Hm | exact Hm].
Qed.

Lemma preserves_for_each {B S} (I : World -> Prop) (l : list B) (body : B -> S -> M S) :
  (forall b s, preserves I (body b s)) -> forall s, preserves I (for_each l body s).
Proof.
  intros Hbody. induction l as [| b rest IH]; intros s; cbn [for_each].
  - apply preserves_ret.
  - apply preserves_bind; [apply Hbody | exact IH].
Qed.

Lemma preserves_for_each_break {B S} (I : World -> Prop) (l : list B)
    (body : B -> S -> M (S * bool)) :
  (forall b s, preserves I (body b s)) ->
  forall s, preserves I (for_each_break l body s).
Proof.
  intros Hbody. induction l as [| b rest IH]; intros s; cbn [for_each_break].
  - apply preserves_ret.
  - apply preserves_bind; [apply Hbody |].
    intros [s1 stop]. cbn [fst snd]. destruct stop; [apply preserves_ret | apply IH].
Qed.

(** An invariant of locals and world that every completed iteration keeps
    holds when the loop returns. *)
Lemma for_each_break_inv {B S} (l : list B) (body : B -> S -> M (S * bool))
    (Inv : S -> World -> Prop) :
  (forall b s w s' stop w',
     Inv s w -> body b s w = (Ok (s', stop), w') -> Inv s' w') ->
  forall s w s' w',
    Inv s w -> for_each_break l body s w = (Ok s', w') -> Inv s' w'.
Proof.
  intros Hbody. induction l as [| b rest IH]; intros s w s' w' HI Hrun;
    cbn [for_each_break] in Hrun.
  - injection Hrun as <- <-. exact HI.
  - unfold bind in Hrun.
    destruct (body b s w) as [[[s1 stop] | e] w1] eqn:E; [| discriminate Hrun].
    pose proof (Hbody _ _ _ _ _ _ HI E) as H1.
    cbn [fst snd] in Hrun. destruct stop.
    + injection Hrun as <- <-. exact H1.
    + exact (IH _ _ _ _ H1 Hrun).
Qed.

Lemma preserves_py_div (I : World -> Prop) (a : float) (n : Z) : preserves I (py_div a n).
Proof. unfold py_div. destruct (n =? 0); [apply preserves_raise | apply preserves_ret]. Qed.

Lemma preserves_py_mod (I : World -> Prop) (a n : Z) : preserves I (py_mod a n).
Proof. unfold py_mod. destruct (n =? 0); [apply preserves_raise | apply preserves_ret]. Qed.

End ComputationFacts.

(** ** Early stopping *)

Section EarlyStoppingFacts.

Local Open Scope float_scope.

(** No float is above [+infinity], not even NaN. *)
Lemma nothing_above_infinity (s : float) : float_gt s infinity = false.
Proof.
  unfold float_gt. rewrite FloatAxioms.ltb_spec.
  change (Prim2SF infinity) with (S754_infinity false).
  unfold SFltb, SFcompare.
  destruct (Prim2SF s) as [sg | sg | | sg m e]; try destruct sg; reflexivity.
Qed.

Lemma loss_call_keeps_stop (self : EarlyStoppingState) (s : float) :
  early_stop self = true -> early_stop (EarlyStopping.call self s) = true.
Proof.
  intros H. unfold EarlyStopping.call.
  destruct (float_gt s (best_score self)); cbn.
  - destruct (counter self + 1 >=? patience self)%Z; cbn; auto.
  - exact H.
Qed.

Lemma dice_call_keeps_stop (self : EarlyStoppingState) (s : float) :
  early_stop self = true -> early_stop (EarlyStoppingForUnet.call self s) = true.
Proof.
  intros H. unfold EarlyStoppingForUnet.call, EarlyStoppingForUnet.call_print.
  destruct (float_lt s (best_score self)); cbn.
  - destruct (counter self + 1 >=? patience self)%Z; cbn; auto.
  - exact H.
Qed.

Lemma feed_keeps_stop (call : EarlyStoppingState -> float -> EarlyStoppingState) :
  (forall self s, early_stop self = true -> early_stop (call self s) = true) ->
  forall scores self,
    early_stop self = true -> early_stop (feed call self scores) = true.
Proof.
  intros Hcall scores. unfold feed.
  induction scores as [| s rest IH]; intros self H; cbn.
  - exact H.
  - apply IH, Hcall, H.
Qed.

End EarlyStoppingFacts.

(** C2, as the code behaves: with patience 2 the scores 5, 4, 3, 3, 3 never
    set the stop flag of the loss policy, because a score equal to the best
    one takes the improvement branch and resets the counter. *)
Lemma loss_ties_never_stop :
  early_stop (feed EarlyStopping.call (EarlyStopping.init 2) [5; 4; 3; 3; 3]%float)
  = false.
Proof. vm_compute. reflexivity. Qed.

(** C2 (amended): with patience 2 the loss policy keeps the flag unset after
    each of the five calls on 5, 4, 3, 3, 3; on 5, 4, 3, 4, 4, whose last two
    scores are strictly above the best score 3, the flag is set exactly after
    the fifth call. *)
Theorem loss_policy_patience_two :
  stop_flags EarlyStopping.call (EarlyStopping.init 2) [5; 4; 3; 3; 3]%float
  = [false; false; false; false; false]
  /\ stop_flags EarlyStopping.call (EarlyStopping.init 2) [5; 4; 3; 4; 4]%float
     = [false; false; false; false; true].
Proof. split; vm_compute; reflexivity. Qed.

(** C3, as the code behaves: with patience 2 the scores 0.1, 0.3, 0.3, 0.3
    never set the stop flag of the Dice policy. *)
Lemma dice_ties_never_stop :
  early_stop (feed EarlyStoppingForUnet.call (EarlyStoppingForUnet.init 2)
                   [0.1; 0.3; 0.3; 0.3]%float)
  = false.
Proof. vm_compute. reflexivity. Qed.

(** C3 (amended): with patience 2 the Dice policy keeps the flag unset after
    each of the four calls on 0.1, 0.3, 0.3, 0.3; on 0.1, 0.3, 0.2, 0.2, whose
    last two scores are strictly below the best score 0.3, the flag is set
    exactly after the fourth call. *)
Theorem dice_policy_patience_two :
  stop_flags EarlyStoppingForUnet.call (EarlyStoppingForUnet.init 2)
             [0.1; 0.3; 0.3; 0.3]%float
  = [false; false; false; false]
  /\ stop_flags EarlyStoppingForUnet.call (EarlyStoppingForUnet.init 2)
                [0.1; 0.3; 0.2; 0.2]%float
     = [false; false; false; true].
Proof. split; vm_compute; reflexivity. Qed.

(** C5: for both policies, a stop flag that is set stays set through any
    further sequence of calls, whatever the scores. *)
Theorem early_stop_is_permanent (self : EarlyStoppingState) (scores : list float) :
  early_stop self = true ->
  early_stop (feed EarlyStopping.call self scores) = true
  /\ early_stop (feed EarlyStoppingForUnet.call self scores) = true.
Proof.
  intros H. split.
  - apply feed_keeps_stop; [exact loss_call_keeps_stop | exact H].
  - apply feed_keeps_stop; [exact dice_call_keeps_stop | exact H].
Qed.

(** A policy stopped by the scores 1, 2 with patience 1, then fed the
    improving scores 0.5, 0.25 and 3. *)
Lemma early_stop_is_permanent_witness :
  let stopped := feed EarlyStopping.call (EarlyStopping.init 1) [1; 2]%float in
  early_stop stopped = true
  /\ early_stop (feed EarlyStopping.call stopped [0.5; 0.25; 3]%float) = true
  /\ early_stop (feed EarlyStoppingForUnet.call stopped [0.5; 0.25; 3]%float) = true.
Proof.
  split; [reflexivity |].
  apply (early_stop_is_permanent
           (feed EarlyStopping.call (EarlyStopping.init 1) [1; 2]%float)
           [0.5; 0.25; 3]%float).
  reflexivity.
Defined.

(** C7, as the code behaves: a negative first score is below the Dice
    policy's initial best score 0, so the first call counts as a
    non-improvement (and stops at once when patience is 1). *)
Lemma dice_first_call_negative :
  let e := EarlyStoppingForUnet.call (EarlyStoppingForUnet.init 1) (-0.5)%float in
  best_score e = 0%float /\ counter e = 1 /\ early_stop e = true.
Proof. vm_compute. repeat split; reflexivity. Qed.

(** C7 (amended): on a fresh policy the first call records the score as
    the best one, leaves the counter at 0 and the flag unset, for every
    score in the loss variant and for every score that is not below 0 in
    the Dice variant.  In the Dice variant every first score below 0 counts
    as a non-improvement: the best score stays 0, the counter becomes 1, and
    the flag is set at once exactly when the patience is 1 or less. *)
Theorem first_call_is_improvement (p : Z) (s : float) :
  (let e := EarlyStopping.call (EarlyStopping.init p) s in
   best_score e = s /\ counter e = 0 /\ early_stop e = false)
  /\ (float_lt s 0%float = false ->
      let e := EarlyStoppingForUnet.call (EarlyStoppingForUnet.init p) s in
      best_score e = s /\ counter e = 0 /\ early_stop e = false)
  /\ (float_lt s 0%float = true ->
      let e := EarlyStoppingForUnet.call (EarlyStoppingForUnet.init p) s in
      best_score e = 0%float /\ counter e = 1 /\ early_stop e = (p <=? 1)).
Proof.
  split; [| split].
  - unfold EarlyStopping.call. cbn [EarlyStopping.init best_score].
    rewrite nothing_above_infinity. cbn. repeat split.
  - intros H.
    unfold EarlyStoppingForUnet.call, EarlyStoppingForUnet.call_print.
    cbn [EarlyStoppingForUnet.init best_score]. rewrite H. cbn. repeat split.
  - intros H.
    unfold EarlyStoppingForUnet.call, EarlyStoppingForUnet.call_print.
    cbn [EarlyStoppingForUnet.init best_score]. rewrite H.
    cbv zeta.
    cbn [set_counter counter patience EarlyStoppingForUnet.init Z.add].
    rewrite Z.geb_leb.
    destruct (p <=? 1); cbn; repeat split.
Qed.

(** A first score of 0.25 on policies of patience 0, and a first Dice
    score of -0.5 on policies of patience 1 and 2. *)
Lemma first_call_is_improvement_witness :
  float_lt 0.25%float 0%float = false
  /\ float_lt (-0.5)%float 0%float = true
  /\ (let e := EarlyStopping.call (EarlyStopping.init 0) 0.25%float in
      best_score e = 0.25%float /\ counter e = 0 /\ early_stop e = false)
  /\ (let e := EarlyStoppingForUnet.call (EarlyStoppingForUnet.init 0) 0.25%float in
      best_score e = 0.25%float /\ counter e = 0 /\ early_stop e = false)
  /\ (let e := EarlyStoppingForUnet.call (EarlyStoppingForUnet.init 1) (-0.5)%float in
      best_score e = 0%float /\ counter e = 1 /\ early_stop e = true)
  /\ (let e := EarlyStoppingForUnet.call (EarlyStoppingForUnet.init 2) (-0.5)%float in
      best_score e = 0%float /\ counter e = 1 /\ early_stop e = false).
Proof.
  split; [reflexivity |]. split; [reflexivity |].
  split; [exact (proj1 (first_call_is_improvement 0 0.25%float)) |].
  split; [exact (proj1 (proj2 (first_call_is_improvement 0 0.25%float)) eq_refl) |].
  split.
  - exact (proj2 (proj2 (first_call_is_improvement 1 (-0.5)%float)) eq_refl).
  - exact (proj2 (proj2 (first_call_is_improvement 2 (-0.5)%float)) eq_refl).
Defined.

(** ** The evaluators *)

Section EvaluatorFacts.

Context {T : Torch}.

Lemma for_each_app {B S} (l1 l2 : list B) (body : B -> S -> M S) (s : S) (w : World) :
  for_each (l1 ++ l2) body s w
  = bind (for_each l1 body s) (for_each l2 body) w.
Proof.
  revert s w. induction l1 as [| b l1 IH]; intros s w; cbn.
  - reflexivity.
  - unfold bind. destruct (body b s w) as [[s' | e] w']; [| reflexivity].
    rewrite IH. reflexivity.
Qed.

(** The batch loop of [evaluate_unet] does not raise. *)
Lemma evaluate_unet_loop_ok (criterion : Tensor -> Tensor -> Tensor) (device : Device)
    (data_loader : DataLoader) (l : UnetLocals) (w : World) :
  exists l', fst (for_each data_loader (evaluate_unet_body criterion device) l w) = Ok l'.
Proof.
  revert l w. induction data_loader as [| [x y] rest IH]; intros l w; cbn.
  - eexists; reflexivity.
  - unfold bind, model_call.
    destruct (module_call _ _ _) as [m out]. cbn. apply IH.
Qed.

End EvaluatorFacts.

(** C10: on a data source with no batch, [evaluate] raises
    [ZeroDivisionError] at its final division, and so does [evaluate_unet]
    (before it reads [correct] or [dice]). *)
Theorem evaluate_empty_loader_raises {T : Torch}
    (criterion : Tensor -> Tensor -> Tensor) (device : Device) (w : World) :
  fst (evaluate criterion [] device w) = Raise ZeroDivisionError
  /\ fst (evaluate_unet criterion [] device w) = Raise ZeroDivisionError.
Proof. split; reflexivity. Qed.

(** Each batch restarts the counters of [evaluate_unet]: what a batch leaves
    in the locals depends on the earlier batches through [total_loss] only. *)
Lemma evaluate_unet_body_restarts {T : Torch}
    (criterion : Tensor -> Tensor -> Tensor) (device : Device)
    (batch : Tensor * Tensor) (l : UnetLocals) (w : World) :
  evaluate_unet_body criterion device batch l w
  = evaluate_unet_body criterion device batch
      (mkUnetLocals 0 0 0 (DiceFloat 0%float) None (total_loss l)) w.
Proof. destruct batch as [x y]. reflexivity. Qed.

(** On a single batch the two evaluators agree: the restart only matters
    from the second batch on. *)
Lemma evaluate_unet_single_batch {T : Torch}
    (criterion : Tensor -> Tensor -> Tensor) (device : Device)
    (batch : Tensor * Tensor) (w : World) :
  evaluate_unet criterion [batch] device w
  = accumulating_evaluate_unet criterion [batch] device w.
Proof. destruct batch as [x y]. reflexivity. Qed.

(** C1, at a two-batch input: [evaluate_unet] returns accuracy 4/4 and Dice
    8/8, the figures of the last batch, where accumulation over the pass
    gives accuracy 4/8 and Dice 8/(12 + 1e-8). *)
Theorem evaluate_unet_reports_last_batch :
  fst (@evaluate_unet toy (toy_constant_loss 0.5) two_batches tt (toy_world None))
  = Ok (0.5%float, f32_of_long 1, 1%float)
  /\ fst (@accumulating_evaluate_unet toy (toy_constant_loss 0.5) two_batches tt
            (toy_world None))
     = Ok (0.5%float, f32_div (f32_of_long 4) (f32_of_long 8),
           f32_item (f32_div (f32_of_long 8)
                             (f32_add (f32_of_long 12) (f32_of_float 1e-8))))
  /\ f32_item (f32_div (f32_of_long 4) (f32_of_long 8)) = 0.5%float
  /\ PrimFloat.ltb
       (f32_item (f32_div (f32_of_long 8)
                          (f32_add (f32_of_long 12) (f32_of_float 1e-8))))
       0.7%float = true.
Proof. repeat split; vm_compute; reflexivity. Qed.

(** ** The evaluators leave the parameters alone *)

Section EvaluatorFrame.

Context {T : Torch}.

(** A snapshot of the model's parameters, and the framework's contract for
    it: switching mode, moving to a device, and a forward pass without
    gradient tracking do not write to the parameters. *)
Variable Params : Type.
Variable parameters : Model -> Params.
Hypothesis eval_keeps : forall m, parameters (module_eval m) = parameters m.
Hypothesis to_keeps : forall d m, parameters (module_to d m) = parameters m.
Hypothesis forward_keeps :
  forall m x, parameters (fst (module_call false m x)) = parameters m.

Lemma frame_refl (w : World) : frame parameters w w.
Proof.
  repeat split. exists []. split; [symmetry; apply app_nil_r | reflexivity].
Qed.

Lemma frame_trans (w0 w1 w2 : World) :
  frame parameters w0 w1 -> frame parameters w1 w2 -> frame parameters w0 w2.
Proof.
  intros (Hp1 & Ho1 & Hs1 & cs1 & Hc1 & Hi1) (Hp2 & Ho2 & Hs2 & cs2 & Hc2 & Hi2).
  repeat split; try congruence.
  exists (cs1 ++ cs2). split.
  - rewrite Hc2, Hc1, app_assoc. reflexivity.
  - rewrite forallb_app, Hi1, Hi2. reflexivity.
Qed.

(** The forward pass inside [with torch.no_grad()]. *)
Lemma model_call_frame (x : Tensor) (w : World) :
  grad_enabled w = false ->
  let w' := snd (model_call x w) in
  frame parameters w w' /\ grad_enabled w' = false
  /\ exists out, fst (model_call x w) = Ok out.
Proof.
  intros Hg. unfold model_call. rewrite Hg.
  pose proof (forward_keeps (model w) x) as Hf.
  destruct (module_call false (model w) x) as [m out]. cbn in *.
  repeat split; auto.
  - exists [CallForward x]. split; reflexivity.
  - exists out. reflexivity.
Qed.

(** A loop whose body keeps the frame and the gradient mode keeps them. *)
Lemma for_each_frame {B S} (body : B -> S -> M S) (l : list B) :
  (forall b s w, grad_enabled w = false ->
     frame parameters w (snd (body b s w))
     /\ grad_enabled (snd (body b s w)) = false) ->
  forall s w, grad_enabled w = false ->
    frame parameters w (snd (for_each l body s w)).
Proof.
  intros Hbody. induction l as [| b rest IH]; intros s w Hg; cbn [for_each].
  - apply frame_refl.
  - unfold bind. destruct (Hbody b s w Hg) as [Hf Hg'].
    destruct (body b s w) as [[s' | e] w']; cbn [snd] in *.
    + eapply frame_trans; [exact Hf | apply IH, Hg'].
    + exact Hf.
Qed.

Lemma with_no_grad_frame {A} (body : M A) (w : World) :
  frame parameters (set_grad_enabled false w) (snd (body (set_grad_enabled false w))) ->
  frame parameters w (snd (with_no_grad body w)).
Proof.
  unfold with_no_grad. destruct (body (set_grad_enabled false w)) as [r w'].
  cbn. intros H. exact H.
Qed.

Lemma evaluate_body_frame (criterion : Tensor -> Tensor -> Tensor) (device : Device)
    (b : Tensor * Tensor) (s : float) (w : World) :
  grad_enabled w = false ->
  let body := fun '(x, y) total_loss =>
    let x := tensor_to device None x in
    let y := tensor_to device None y in
    bind (model_call x)
         (fun output => ret (total_loss + item (criterion output y))%float) in
  frame parameters w (snd (body b s w)) /\ grad_enabled (snd (body b s w)) = false.
Proof.
  intros Hg. destruct b as [x y]. cbv zeta. unfold bind.
  destruct (model_call_frame (tensor_to device None x) w Hg) as (Hf & Hg' & out & Hout).
  destruct (model_call (tensor_to device None x) w) as [r w']. cbn in *. subst r.
  cbn. split; assumption.
Qed.

Lemma evaluate_unet_body_frame (criterion : Tensor -> Tensor -> Tensor)
    (device : Device) (b : Tensor * Tensor) (l : UnetLocals) (w : World) :
  grad_enabled w = false ->
  frame parameters w (snd (evaluate_unet_body criterion device b l w))
  /\ grad_enabled (snd (evaluate_unet_body criterion device b l w)) = false.
Proof.
  intros Hg. destruct b as [x y]. unfold evaluate_unet_body, bind.
  destruct (model_call_frame (tensor_to device (Some float32) x) w Hg)
    as (Hf & Hg' & out & Hout).
  destruct (model_call (tensor_to device (Some float32) x) w) as [r w'].
  cbn in *. subst r. cbn. split; assumption.
Qed.

Lemma model_eval_frame (w : World) : frame parameters w (snd (model_eval w)).
Proof.
  unfold frame. cbn. split; [apply eval_keeps |]. do 2 (split; [reflexivity |]).
  exists [CallEval]. split; reflexivity.
Qed.

Lemma model_to_frame (device : Device) (w : World) :
  frame parameters w (snd (model_to device w)).
Proof.
  unfold frame. cbn. split; [apply to_keeps |]. do 2 (split; [reflexivity |]).
  exists [CallTo device]. split; reflexivity.
Qed.

Lemma evaluate_frame (criterion : Tensor -> Tensor -> Tensor)
    (data_loader : DataLoader) (device : Device) (w : World) :
  frame parameters w (snd (evaluate criterion data_loader device w)).
Proof.
  unfold evaluate, bind at 1.
  pose proof (model_eval_frame w) as H0.
  destruct (model_eval w) as [[[] | e] w0]; cbn [snd] in *; [| exact H0].
  eapply frame_trans; [exact H0 |]. clear H0 w.
  unfold bind.
  match goal with
  | |- context [with_no_grad ?b w0] =>
      pose proof (with_no_grad_frame b w0) as H1;
      destruct (with_no_grad b w0) as [[s | e] w1]
  end; cbn [snd] in *.
  - assert (Hf : frame parameters w0 w1).
    { apply H1. apply for_each_frame; [| reflexivity].
      intros b s' w Hg. apply (evaluate_body_frame criterion device b s' w Hg). }
    unfold py_div. destruct (len data_loader =? 0); exact Hf.
  - apply H1. apply for_each_frame; [| reflexivity].
    intros b s' w Hg. apply (evaluate_body_frame criterion device b s' w Hg).
Qed.

Lemma py_div_world (a : float) (n : Z) (w : World) : snd (py_div a n w) = w.
Proof. unfold py_div. destruct (n =? 0); reflexivity. Qed.

Lemma correct_over_total_world (c : option Z) (t : Z) (w : World) :
  snd (correct_over_total c t w) = w.
Proof. destruct c; reflexivity. Qed.

Lemma dice_item_world (d : DiceValue) (w : World) : snd (dice_item d w) = w.
Proof. destruct d; reflexivity. Qed.

(** After the batch loop [evaluate_unet] only computes its results. *)
Lemma evaluate_unet_tail_world (l : UnetLocals) (n : Z) (w : World) :
  snd (bind (py_div (total_loss l) n)
         (fun loss => bind (correct_over_total (correct l) (total l))
            (fun accuracy => bind (dice_item (dice l))
               (fun d => ret (loss, accuracy, d)))) w) = w.
Proof.
  unfold bind.
  pose proof (py_div_world (total_loss l) n w) as H1.
  destruct (py_div (total_loss l) n w) as [[loss | e] w1]; cbn [snd] in *; [| exact H1].
  subst w1.
  pose proof (correct_over_total_world (correct l) (total l) w) as H2.
  destruct (correct_over_total (correct l) (total l) w) as [[acc | e] w2];
    cbn [snd] in *; [| exact H2].
  subst w2.
  pose proof (dice_item_world (dice l) w) as H3.
  destruct (dice_item (dice l) w) as [[d | e] w3]; cbn [snd] in *; exact H3.
Qed.

Lemma evaluate_unet_frame (criterion : Tensor -> Tensor -> Tensor)
    (data_loader : DataLoader) (device : Device) (w : World) :
  frame parameters w (snd (evaluate_unet criterion data_loader device w)).
Proof.
  unfold evaluate_unet.
  unfold bind at 1. cbn [model_eval].
  eapply frame_trans; [apply (model_eval_frame w) |].
  cbn [snd model_eval].
  set (w0 := record_call CallEval (set_model (module_eval (model w)) w)).
  unfold bind at 1. cbn [model_to].
  eapply frame_trans; [apply (model_to_frame device w0) |].
  cbn [snd model_to].
  set (w1 := record_call (CallTo device) (set_model (module_to device (model w0)) w0)).
  unfold bind at 1.
  match goal with
  | |- context [with_no_grad ?b w1] =>
      pose proof (with_no_grad_frame b w1) as H1;
      destruct (with_no_grad b w1) as [[l | e] w2]
  end; cbn [snd] in *.
  - rewrite evaluate_unet_tail_world.
    apply H1. apply for_each_frame; [| reflexivity].
    intros b s' w' Hg. apply evaluate_unet_body_frame, Hg.
  - apply H1. apply for_each_frame; [| reflexivity].
    intros b s' w' Hg. apply evaluate_unet_body_frame, Hg.
Qed.

End EvaluatorFrame.

(** C6: whenever switching mode, moving to a device and a forward pass
    without gradient tracking do not write to the parameters, neither
    [evaluate] nor [evaluate_unet] changes them, whether the call returns or
    raises: the snapshot after equals the snapshot before, the optimizer and
    the scheduler are untouched, and every call made is an inference call
    (no backward pass, no optimizer step). *)
Theorem evaluator_keeps_parameters {T : Torch} {Params : Type}
    (parameters : Model -> Params)
    (criterion : Tensor -> Tensor -> Tensor) (data_loader : DataLoader)
    (device : Device) (w : World) :
  (forall m, parameters (module_eval m) = parameters m) ->
  (forall d m, parameters (module_to d m) = parameters m) ->
  (forall m x, parameters (fst (module_call false m x)) = parameters m) ->
  frame parameters w (snd (evaluate criterion data_loader device w))
  /\ frame parameters w (snd (evaluate_unet criterion data_loader device w)).
Proof.
  intros He Ht Hf. split.
  - apply evaluate_frame; assumption.
  - apply evaluate_unet_frame; assumption.
Qed.

(** The concrete framework meets the contract; the pass runs on two
    batches. *)
Lemma evaluator_keeps_parameters_witness :
  (forall m : @Model toy, toy_parameters (module_eval m) = toy_parameters m)
  /\ (forall (d : @Device toy) (m : @Model toy),
        toy_parameters (module_to d m) = toy_parameters m)
  /\ (forall (m : @Model toy) (x : @Tensor toy),
        toy_parameters (fst (module_call false m x)) = toy_parameters m)
  /\ @frame toy Z toy_parameters (toy_world None)
       (snd (@evaluate toy (toy_constant_loss 0.5) two_batches tt (toy_world None)))
  /\ @frame toy Z toy_parameters (toy_world None)
       (snd (@evaluate_unet toy (toy_constant_loss 0.5) two_batches tt (toy_world None))).
Proof.
  split; [intros m; reflexivity |].
  split; [intros d m; reflexivity |].
  split; [intros m x; reflexivity |].
  apply (@evaluator_keeps_parameters toy Z toy_parameters
           (toy_constant_loss 0.5) two_batches tt (toy_world None)).
  - intros m; reflexivity.
  - intros d m; reflexivity.
  - intros m x; reflexivity.
Defined.

(** ** The calls an evaluation pass makes *)

Section EvaluatorTraceFacts.

Context {T : Torch}.

Lemma for_each_ext {B S} (l : list B) (f g : B -> S -> M S) :
  (forall b s w, f b s w = g b s w) ->
  forall s w, for_each l f s w = for_each l g s w.
Proof.
  intros H. induction l as [| b rest IH]; intros s w; cbn [for_each].
  - reflexivity.
  - unfold bind. rewrite H. destruct (g b s w) as [[s' | e] w']; [apply IH | reflexivity].
Qed.

(** A loop whose body is one forward pass followed by a pure update. *)
Lemma forward_loop_world {S} (input : Tensor * Tensor -> Tensor)
    (update : Tensor * Tensor -> S -> Tensor -> S)
    (data_loader : DataLoader) (s : S) (w : World) :
  exists s' w',
    for_each data_loader
      (fun b s => bind (model_call (input b)) (fun out => ret (update b s out))) s w
    = (Ok s', w')
    /\ calls w' = calls w ++ map (fun b => CallForward (input b)) data_loader
    /\ grad_enabled w' = grad_enabled w
    /\ optimizer w' = optimizer w
    /\ scheduler w' = scheduler w
    /\ stdout w' = stdout w.
Proof.
  revert s w.
  induction data_loader as [| b rest IH]; intros s w; cbn [for_each map].
  - exists s, w. rewrite app_nil_r. repeat split.
  - destruct (module_call (grad_enabled w) (model w) (input b)) as [m out] eqn:Em.
    destruct (IH (update b s out) (record_call (CallForward (input b)) (set_model m w)))
      as (s' & w' & Hrun & Hc & Hg & Ho & Hs & Hp).
    exists s', w'. split.
    + unfold bind at 1. unfold bind at 1. unfold model_call at 1. rewrite Em.
      cbn [ret]. exact Hrun.
    + rewrite Hc, Hg, Ho, Hs, Hp. cbn. rewrite <- app_assoc. repeat split.
Qed.

Lemma evaluate_world (criterion : Tensor -> Tensor -> Tensor)
    (data_loader : DataLoader) (device : Device) (w : World) :
  exists r w',
    evaluate criterion data_loader device w = (r, w')
    /\ calls w'
       = calls w ++ CallEval
           :: map (fun b => CallForward (tensor_to device None (fst b))) data_loader
    /\ grad_enabled w' = grad_enabled w.
Proof.
  unfold evaluate. unfold bind at 1. cbn [model_eval].
  set (w0 := record_call CallEval (set_model (module_eval (model w)) w)).
  unfold bind at 1. unfold with_no_grad.
  match goal with
  | |- context [for_each data_loader ?body ?s0 ?wx] =>
      rewrite (for_each_ext data_loader body
                 (fun b s =>
                    bind (model_call (tensor_to device None (fst b)))
                         (fun out =>
                            ret (s + item (criterion out (tensor_to device None (snd b))))%float))
                 (fun b s w => match b with (x, y) => eq_refl end));
      pose proof (forward_loop_world
                    (fun b => tensor_to device None (fst b))
                    (fun b s out =>
                       (s + item (criterion out (tensor_to device None (snd b))))%float)
                    data_loader s0 wx) as H
  end.
  destruct H as (s' & w1 & Hrun & Hc & _). rewrite Hrun.
  pose proof (py_div_world s' (len data_loader)
                (set_grad_enabled (grad_enabled w0) w1)) as Hd.
  destruct (py_div s' (len data_loader) (set_grad_enabled (grad_enabled w0) w1))
    as [r w2].
  cbn [snd] in Hd. subst w2.
  exists r, (set_grad_enabled (grad_enabled w0) w1).
  split; [reflexivity |]. cbn [calls grad_enabled set_grad_enabled].
  rewrite Hc. subst w0. cbn. rewrite <- app_assoc. split; reflexivity.
Qed.

Lemma evaluate_unet_world (criterion : Tensor -> Tensor -> Tensor)
    (data_loader : DataLoader) (device : Device) (w : World) :
  exists r w',
    evaluate_unet criterion data_loader device w = (r, w')
    /\ calls w'
       = calls w ++ CallEval :: CallTo device
           :: map (fun b => CallForward (tensor_to device (Some float32) (fst b)))
                  data_loader
    /\ grad_enabled w' = grad_enabled w.
Proof.
  unfold evaluate_unet. unfold bind at 1. cbn [model_eval].
  set (w0 := record_call CallEval (set_model (module_eval (model w)) w)).
  unfold bind at 1. cbn [model_to].
  set (w1 := record_call (CallTo device) (set_model (module_to device (model w0)) w0)).
  unfold bind at 1. unfold with_no_grad.
  pose (update := fun (b : Tensor * Tensor) (l : UnetLocals) (out : Tensor) =>
                    let y := squeeze 1 (tensor_to device (Some long) (snd b)) in
                    let predictions := argmax out 1 in
                    let intersection :=
                      long_add 0 (tensor_sum (tensor_mul predictions y)) in
                    let denom := long_add 0 (tensor_sum (tensor_add predictions y)) in
                    mkUnetLocals intersection denom (0 + numel predictions)
                      (DiceTensor
                         (f32_div (f32_of_long (long_mul 2 intersection))
                            (f32_add (f32_of_long denom) (f32_of_float 1e-8))))
                      (Some (long_add 0 (tensor_sum (tensor_eq predictions y))))
                      (total_loss l + item (criterion out y))%float).
  rewrite (for_each_ext data_loader (evaluate_unet_body criterion device)
             (fun b l =>
                bind (model_call (tensor_to device (Some float32) (fst b)))
                     (fun out => ret (update b l out)))
             (fun b l w => match b with (x, y) => eq_refl end)).
  match goal with
  | |- context [for_each data_loader ?body ?s0 ?wx] =>
      pose proof (forward_loop_world
                    (fun b => tensor_to device (Some float32) (fst b))
                    update data_loader s0 wx) as H
  end.
  destruct H as (s' & w2 & Hrun & Hc & _). rewrite Hrun.
  pose proof (evaluate_unet_tail_world s' (len data_loader)
                (set_grad_enabled (grad_enabled w1) w2)) as Hd.
  unfold bind in Hd |- *.
  destruct (py_div (total_loss s') (len data_loader)
              (set_grad_enabled (grad_enabled w1) w2)) as [[loss | e] w3];
    cbn [snd] in Hd.
  - destruct (correct_over_total (correct s') (total s') w3) as [[acc | e] w4];
      cbn [snd] in Hd.
    + destruct (dice_item (dice s') w4) as [[d | e] w5]; cbn [snd ret] in Hd |- *;
        subst; eexists _, _; (split; [reflexivity |]);
        cbn [calls grad_enabled set_grad_enabled]; rewrite Hc; subst w1 w0; cbn;
        rewrite <- !app_assoc; split; reflexivity.
    + subst; eexists _, _; (split; [reflexivity |]);
        cbn [calls grad_enabled set_grad_enabled]; rewrite Hc; subst w1 w0; cbn;
        rewrite <- !app_assoc; split; reflexivity.
  - subst; eexists _, _; (split; [reflexivity |]);
      cbn [calls grad_enabled set_grad_enabled]; rewrite Hc; subst w1 w0; cbn;
      rewrite <- !app_assoc; split; reflexivity.
Qed.

End EvaluatorTraceFacts.

(** ** The histories returned by the training drivers *)

Section TrainFacts.

Context {T : Torch}.

(** A loop over [range(n)] whose body may break.  [P k] holds of the state
    before iteration [k] as long as no break occurred, [Q k] of the state
    left by a break in iteration [k]. *)
Lemma for_each_break_seq {S} (body : Z -> S -> M (S * bool))
    (P : nat -> S -> Prop) (Q : nat -> S -> Prop) :
  (forall k s w s' b w',
     P k s -> body (Z.of_nat k) s w = (Ok (s', b), w') ->
     if b then Q k s' else P (Datatypes.S k) s') ->
  forall n start s0 w s w',
    P start s0 ->
    for_each_break (map Z.of_nat (seq start n)) body s0 w = (Ok s, w') ->
    P (start + n)%nat s \/ exists k, (start <= k < start + n)%nat /\ Q k s.
Proof.
  intros Hbody. induction n as [| n IH]; intros start s0 w s w' HP Hrun.
  - cbn in Hrun. injection Hrun as <- <-. left. rewrite Nat.add_0_r. exact HP.
  - cbn [seq map for_each_break] in Hrun.
    unfold bind in Hrun.
    destruct (body (Z.of_nat start) s0 w) as [[[s1 b] | e] w1] eqn:E;
      [| discriminate Hrun].
    pose proof (Hbody _ _ _ _ _ _ HP E) as Hstep.
    cbn [fst snd] in Hrun. destruct b.
    + injection Hrun as <- <-. right. exists start. split; [lia | exact Hstep].
    + destruct (IH _ _ _ _ _ Hstep Hrun) as [HP' | (k & Hk & HQ)].
      * left. replace (start + Datatypes.S n)%nat with (Datatypes.S start + n)%nat by lia.
        exact HP'.
      * right. exists k. split; [lia | exact HQ].
Qed.

(** What one epoch of [train] does to the locals when it completes. *)
Lemma train_epoch_locals (criterion : Tensor -> Tensor -> Tensor)
    (train_loader val_loader : DataLoader) (device : Device)
    (do_early_stopping : bool)
    (log_fn : option (Z -> float -> float -> M unit)) (log_every : Z)
    (epoch_ : Z) (l l' : TrainLocals) (b : bool) (w w' : World) :
  train_epoch criterion train_loader val_loader device do_early_stopping
              log_fn log_every epoch_ l w = (Ok (l', b), w') ->
  (exists train_loss, epoch_train_errors l' = epoch_train_errors l ++ [train_loss])
  /\ (exists val_loss, epoch_val_errors l' = epoch_val_errors l ++ [val_loss])
  /\ epoch l' = Some epoch_
  /\ b = do_early_stopping && early_stop (early_stopping l').
Proof.
  intros H. unfold train_epoch in H.
  bind_inv H. bind_inv H. bind_inv H. bind_inv H. bind_inv H.
  match type of H with
  | (if ?c then _ else _) _ = _ => destruct c eqn:Hc
  end.
  - bind_inv H. cbn in H. injection H as <- <- <-. cbn.
    repeat split; eauto.
  - cbn in H. injection H as <- <- <-. cbn.
    repeat split; eauto.
Qed.

(** The histories of [train] at its [return] statement. *)
Lemma train_run_lengths (criterion : Tensor -> Tensor -> Tensor)
    (train_loader val_loader : DataLoader) (device : Device)
    (do_early_stopping : bool) (patience_ epochs : Z)
    (log_fn : option (Z -> float -> float -> M unit)) (log_every : Z)
    (l : TrainLocals) (w w' : World) :
  0 <= epochs ->
  train_run criterion train_loader val_loader device do_early_stopping
            patience_ epochs log_fn log_every w = (Ok l, w') ->
  len (epoch_train_errors l) = len (epoch_val_errors l)
  /\ (do_early_stopping && early_stop (early_stopping l) = false ->
      len (epoch_train_errors l) = epochs)
  /\ (do_early_stopping && early_stop (early_stopping l) = true ->
      exists stop_epoch,
        epoch l = Some stop_epoch /\ 0 <= stop_epoch < epochs
        /\ len (epoch_train_errors l) = stop_epoch + 1).
Proof.
  intros Hpos Hrun. unfold train_run, range in Hrun.
  pose (P := fun (k : nat) (s : TrainLocals) =>
               length (epoch_train_errors s) = k
               /\ length (epoch_val_errors s) = k
               /\ do_early_stopping && early_stop (early_stopping s) = false).
  pose (Q := fun (k : nat) (s : TrainLocals) =>
               length (epoch_train_errors s) = Datatypes.S k
               /\ length (epoch_val_errors s) = Datatypes.S k
               /\ epoch s = Some (Z.of_nat k)
               /\ do_early_stopping && early_stop (early_stopping s) = true).
  assert (Hbody : forall k s w0 s' b w0',
             P k s ->
             train_epoch criterion train_loader val_loader device do_early_stopping
                         log_fn log_every (Z.of_nat k) s w0 = (Ok (s', b), w0') ->
             if b then Q k s' else P (Datatypes.S k) s').
  { intros k s w0 s' b w0' (Ht & Hv & _) Hstep.
    apply train_epoch_locals in Hstep.
    destruct Hstep as ((tl & Htl) & (vl & Hvl) & He & Hb).
    destruct b; unfold P, Q; rewrite Htl, Hvl, !length_app; cbn [length];
      repeat split; auto; lia. }
  assert (HP0 : P 0%nat (mkTrainLocals [] [] (EarlyStopping.init patience_) None)).
  { unfold P. cbn. repeat split. apply andb_false_r. }
  destruct (for_each_break_seq _ P Q Hbody _ _ _ _ _ _ HP0 Hrun)
    as [HP | (k & Hk & HQ)]; cbn [Nat.add] in *.
  - destruct HP as (Ht & Hv & Hf). unfold len.
    split; [congruence |]. split.
    + intros _. rewrite Ht. cbn. lia.
    + intros Hstop. congruence.
  - destruct HQ as (Ht & Hv & He & Hs). unfold len.
    split; [congruence |]. split.
    + intros Hf. congruence.
    + intros _. exists (Z.of_nat k). split; [exact He |]. rewrite Ht. lia.
Qed.

(** What the end of an epoch of the U-Net drivers does to the locals. *)
Lemma train_unet_epoch_end_locals (criterion : Tensor -> Tensor -> Tensor)
    (train_loader val_loader : DataLoader) (device : Device)
    (do_early_stopping : bool)
    (log_fn : option (Z -> float -> float -> f32 -> float -> M unit))
    (log_every : Z) (epoch_ : Z) (l l' : UnetTrainLocals) (a : UnetBatchLocals)
    (b : bool) (w w' : World) :
  train_unet_epoch_end criterion train_loader val_loader device do_early_stopping
                       log_fn log_every epoch_ l a w = (Ok (l', b), w') ->
  (exists v, u_epoch_train_errors l' = u_epoch_train_errors l ++ [v])
  /\ (exists v, u_epoch_val_errors l' = u_epoch_val_errors l ++ [v])
  /\ (exists v, u_epoch_dice_values l' = u_epoch_dice_values l ++ [v])
  /\ u_epoch l' = Some epoch_
  /\ b = do_early_stopping && early_stop (u_early_stopping l').
Proof.
  intros H. unfold train_unet_epoch_end in H.
  bind_inv H. bind_inv H. destruct a1 as [[val_loss accuracy] dice_].
  bind_inv H. bind_inv H.
  match type of H with
  | (if ?c then _ else _) _ = _ => destruct c eqn:Hc
  end.
  - bind_inv H. cbn in H. injection H as <- <- <-. cbn.
    repeat split; eauto.
  - cbn in H. injection H as <- <- <-. cbn.
    repeat split; eauto.
Qed.

Lemma train_unet_epoch_locals (criterion : Tensor -> Tensor -> Tensor)
    (train_loader val_loader : DataLoader) (device : Device)
    (do_early_stopping : bool)
    (log_fn : option (Z -> float -> float -> f32 -> float -> M unit))
    (log_every : Z) (epoch_ : Z) (l l' : UnetTrainLocals)
    (b : bool) (w w' : World) :
  train_unet_epoch criterion train_loader val_loader device do_early_stopping
                   log_fn log_every epoch_ l w = (Ok (l', b), w')
  \/ train_unet_with_scheduler_epoch criterion train_loader val_loader device
       do_early_stopping log_fn log_every epoch_ l w = (Ok (l', b), w') ->
  (exists v, u_epoch_train_errors l' = u_epoch_train_errors l ++ [v])
  /\ (exists v, u_epoch_val_errors l' = u_epoch_val_errors l ++ [v])
  /\ (exists v, u_epoch_dice_values l' = u_epoch_dice_values l ++ [v])
  /\ u_epoch l' = Some epoch_
  /\ b = do_early_stopping && early_stop (u_early_stopping l').
Proof.
  intros [H | H].
  - unfold train_unet_epoch in H. bind_inv H. bind_inv H.
    eapply train_unet_epoch_end_locals, H.
  - unfold train_unet_with_scheduler_epoch in H. bind_inv H. bind_inv H.
    eapply train_unet_epoch_end_locals, H.
Qed.

(** The histories of the U-Net drivers at their [return] statement, for
    any loop over [range(epochs)] made of such epochs. *)
Lemma unet_run_lengths (body : Z -> UnetTrainLocals -> M (UnetTrainLocals * bool))
    (do_early_stopping : bool) (patience_ epochs : Z)
    (l : UnetTrainLocals) (w w' : World) :
  (forall e s s' b w0 w0',
     body e s w0 = (Ok (s', b), w0') ->
     (exists v, u_epoch_train_errors s' = u_epoch_train_errors s ++ [v])
     /\ (exists v, u_epoch_val_errors s' = u_epoch_val_errors s ++ [v])
     /\ (exists v, u_epoch_dice_values s' = u_epoch_dice_values s ++ [v])
     /\ u_epoch s' = Some e
     /\ b = do_early_stopping && early_stop (u_early_stopping s')) ->
  0 <= epochs ->
  for_each_break (range epochs) body (unet_locals_init patience_) w = (Ok l, w') ->
  (len (u_epoch_train_errors l) = len (u_epoch_val_errors l)
   /\ len (u_epoch_val_errors l) = len (u_epoch_dice_values l))
  /\ (do_early_stopping && early_stop (u_early_stopping l) = false ->
      len (u_epoch_train_errors l) = epochs)
  /\ (do_early_stopping && early_stop (u_early_stopping l) = true ->
      exists stop_epoch,
        u_epoch l = Some stop_epoch /\ 0 <= stop_epoch < epochs
        /\ len (u_epoch_train_errors l) = stop_epoch + 1).
Proof.
  intros Hepoch Hpos Hrun. unfold range in Hrun.
  pose (P := fun (k : nat) (s : UnetTrainLocals) =>
               length (u_epoch_train_errors s) = k
               /\ length (u_epoch_val_errors s) = k
               /\ length (u_epoch_dice_values s) = k
               /\ do_early_stopping && early_stop (u_early_stopping s) = false).
  pose (Q := fun (k : nat) (s : UnetTrainLocals) =>
               length (u_epoch_train_errors s) = Datatypes.S k
               /\ length (u_epoch_val_errors s) = Datatypes.S k
               /\ length (u_epoch_dice_values s) = Datatypes.S k
               /\ u_epoch s = Some (Z.of_nat k)
               /\ do_early_stopping && early_stop (u_early_stopping s) = true).
  assert (Hbody : forall k s w0 s' b w0',
             P k s -> body (Z.of_nat k) s w0 = (Ok (s', b), w0') ->
             if b then Q k s' else P (Datatypes.S k) s').
  { intros k s w0 s' b w0' (Ht & Hv & Hd & _) Hstep.
    apply Hepoch in Hstep.
    destruct Hstep as ((tl & Htl) & (vl & Hvl) & (dl & Hdl) & He & Hb).
    destruct b; unfold P, Q; rewrite Htl, Hvl, Hdl, !length_app; cbn [length];
      repeat split; auto; lia. }
  assert (HP0 : P 0%nat (unet_locals_init patience_)).
  { unfold P. cbn. repeat split. apply andb_false_r. }
  destruct (for_each_break_seq _ P Q Hbody _ _ _ _ _ _ HP0 Hrun)
    as [HP | (k & Hk & HQ)]; cbn [Nat.add] in *.
  - destruct HP as (Ht & Hv & Hd & Hf). unfold len.
    split; [split; congruence |]. split.
    + intros _. rewrite Ht. cbn. lia.
    + intros Hstop. congruence.
  - destruct HQ as (Ht & Hv & Hd & He & Hs). unfold len.
    split; [split; congruence |]. split.
    + intros Hf. congruence.
    + intros _. exists (Z.of_nat k). split; [exact He |]. rewrite Ht. lia.
Qed.

(** *** The drivers return on non-empty loaders *)

Lemma returns_model_eval : returns model_eval (fun _ => True).
Proof. intros w. do 2 eexists. split; [reflexivity | exact I]. Qed.

Lemma returns_model_train : returns model_train (fun _ => True).
Proof. intros w. do 2 eexists. split; [reflexivity | exact I]. Qed.

Lemma returns_model_to (device : Device) : returns (model_to device) (fun _ => True).
Proof. intros w. do 2 eexists. split; [reflexivity | exact I]. Qed.

Lemma returns_loss_backward (loss : Tensor) : returns (loss_backward loss) (fun _ => True).
Proof. intros w. do 2 eexists. split; [reflexivity | exact I]. Qed.

Lemma returns_print (p : Printed) : returns (print p) (fun _ => True).
Proof. intros w. do 2 eexists. split; [reflexivity | exact I]. Qed.

Lemma returns_evaluate (criterion : Tensor -> Tensor -> Tensor)
    (data_loader : DataLoader) (device : Device) :
  data_loader <> [] ->
  returns (evaluate criterion data_loader device) (fun _ => True).
Proof.
  intros Hl. unfold evaluate.
  eapply returns_bind; [apply returns_model_eval | intros _ _].
  eapply returns_bind.
  - apply returns_with_no_grad.
    apply (returns_for_each data_loader _ (fun _ => True)); [| exact I].
    intros [x y] s _.
    eapply returns_bind; [apply returns_model_call | intros out _].
    apply returns_ret, I.
  - intros total _. apply returns_py_div, len_nonempty, Hl.
Qed.

Lemma returns_evaluate_unet (criterion : Tensor -> Tensor -> Tensor)
    (data_loader : DataLoader) (device : Device) :
  data_loader <> [] ->
  returns (evaluate_unet criterion data_loader device) (fun _ => True).
Proof.
  intros Hl. unfold evaluate_unet.
  eapply returns_bind; [apply returns_model_eval | intros _ _].
  eapply returns_bind; [apply returns_model_to | intros _ _].
  eapply returns_bind.
  - apply returns_with_no_grad.
    apply (returns_for_each_nonempty data_loader _
             (fun l => (exists c, correct l = Some c) /\ exists v, dice l = DiceTensor v));
      [exact Hl |].
    intros [x y] l. unfold evaluate_unet_body.
    eapply returns_bind; [apply returns_model_call | intros out _].
    apply returns_ret. cbn [correct dice]. split; eexists; reflexivity.
  - intros l [[c Hc] [v Hv]].
    eapply returns_bind; [apply returns_py_div, len_nonempty, Hl | intros loss _].
    rewrite Hc, Hv. cbn [correct_over_total dice_item].
    apply (returns_bind _ _ (fun _ => True)); [apply returns_ret, I | intros acc _].
    apply (returns_bind _ _ (fun _ => True)); [apply returns_ret, I | intros d _].
    apply returns_ret, I.
Qed.

Lemma returns_train_batch (criterion : Tensor -> Tensor -> Tensor) (device : Device)
    (b : Tensor * Tensor) (s : float) :
  returns (train_batch criterion device b s) (fun _ => True).
Proof.
  destruct b as [x y]. unfold train_batch.
  eapply returns_bind; [apply returns_optimizer_zero_grad | intros _ _].
  eapply returns_bind; [apply returns_model_call | intros out _].
  eapply returns_bind; [apply returns_loss_backward | intros _ _].
  eapply returns_bind; [apply returns_optimizer_do_step | intros _ _].
  apply returns_ret, I.
Qed.

(** [train] returns when both loaders have a batch and logging is off, or
    the logging interval is non-zero and the callback returns. *)
Lemma train_returns (criterion : Tensor -> Tensor -> Tensor)
    (train_loader val_loader : DataLoader) (device : Device)
    (do_early_stopping : bool) (patience_ epochs : Z)
    (log_fn : option (Z -> float -> float -> M unit)) (log_every : Z) :
  train_loader <> [] -> val_loader <> [] ->
  match log_fn with
  | None => True
  | Some f => log_every <> 0 /\ forall e a b, returns (f e a b) (fun _ => True)
  end ->
  returns (train criterion train_loader val_loader device do_early_stopping
                 patience_ epochs log_fn log_every) (fun _ => True).
Proof.
  intros Ht Hv Hlog. unfold train, train_run.
  eapply returns_bind; [| intros l _; apply returns_ret, I].
  apply returns_for_each_break. intros e l. unfold train_epoch.
  eapply returns_bind; [apply returns_model_train | intros _ _].
  eapply returns_bind.
  { apply (returns_for_each train_loader _ (fun _ => True)); [| exact I].
    intros b s _. apply returns_train_batch. }
  intros total _.
  eapply returns_bind; [apply returns_py_div, len_nonempty, Ht | intros tl _].
  eapply returns_bind; [apply returns_evaluate, Hv | intros vl _].
  apply (returns_bind _ _ (fun _ => True)).
  { destruct log_fn as [f |]; [| apply returns_ret, I].
    destruct Hlog as [Hne Hf].
    eapply returns_bind; [apply returns_py_mod, Hne | intros r _].
    destruct (r =? 0); [apply Hf | apply returns_ret, I]. }
  intros _ _.
  match goal with
  | |- returns (if ?c then _ else _) _ => destruct c
  end.
  - eapply returns_bind; [apply returns_print | intros _ _]. apply returns_ret, I.
  - apply returns_ret, I.
Qed.

Lemma returns_scheduler_notify (metric : float) :
  returns (scheduler_notify metric) (fun _ => True).
Proof.
  intros w. unfold scheduler_notify. destruct (scheduler w) as [sc |].
  - destruct (scheduler_step sc metric (optimizer w)) as [s' o].
    do 2 eexists. split; [reflexivity | exact I].
  - do 2 eexists. split; [reflexivity | exact I].
Qed.

Lemma returns_train_unet_batch (criterion : Tensor -> Tensor -> Tensor)
    (device : Device) (b : Tensor * Tensor) (a : UnetBatchLocals) :
  returns (train_unet_batch criterion device b a) (fun _ => True)
  /\ returns (train_unet_with_scheduler_batch criterion device b a) (fun _ => True).
Proof.
  destruct b as [x y]. split.
  - unfold train_unet_batch.
    eapply returns_bind; [apply returns_model_call | intros out _].
    eapply returns_bind; [apply returns_optimizer_zero_grad | intros _ _].
    eapply returns_bind; [apply returns_loss_backward | intros _ _].
    eapply returns_bind; [apply returns_optimizer_do_step | intros _ _].
    apply returns_ret, I.
  - unfold train_unet_with_scheduler_batch.
    eapply returns_bind; [apply returns_model_call | intros out _].
    eapply returns_bind; [apply returns_optimizer_zero_grad | intros _ _].
    eapply returns_bind; [apply returns_loss_backward | intros _ _].
    eapply returns_bind; [apply returns_optimizer_do_step | intros _ _].
    eapply returns_bind; [apply returns_scheduler_notify | intros _ _].
    apply returns_ret, I.
Qed.

Lemma returns_train_unet_epoch_end (criterion : Tensor -> Tensor -> Tensor)
    (train_loader val_loader : DataLoader) (device : Device)
    (do_early_stopping : bool)
    (log_fn : option (Z -> float -> float -> f32 -> float -> M unit))
    (log_every : Z) (epoch_ : Z) (l : UnetTrainLocals) (a : UnetBatchLocals) :
  train_loader <> [] -> val_loader <> [] ->
  match log_fn with
  | None => True
  | Some f => log_every <> 0 /\ forall e a b c d, returns (f e a b c d) (fun _ => True)
  end ->
  returns (train_unet_epoch_end criterion train_loader val_loader device
             do_early_stopping log_fn log_every epoch_ l a) (fun _ => True).
Proof.
  intros Ht Hv Hlog. unfold train_unet_epoch_end.
  eapply returns_bind; [apply returns_py_div, len_nonempty, Ht | intros tl _].
  eapply returns_bind; [apply returns_evaluate_unet, Hv | intros [[vl acc] d] _].
  apply (returns_bind _ _ (fun _ => True)).
  { destruct do_early_stopping; [| apply returns_ret, I].
    destruct (EarlyStoppingForUnet.call_print (u_early_stopping l) d) as [es out].
    eapply returns_bind; [apply returns_print | intros _ _]. apply returns_ret, I. }
  intros es _.
  apply (returns_bind _ _ (fun _ => True)).
  { destruct log_fn as [f |]; [| apply returns_ret, I].
    destruct Hlog as [Hne Hf].
    eapply returns_bind; [apply returns_py_mod, Hne | intros r _].
    destruct (r =? 0); [apply Hf | apply returns_ret, I]. }
  intros _ _.
  match goal with
  | |- returns (if ?c then _ else _) _ => destruct c
  end.
  - eapply returns_bind; [apply returns_print | intros _ _]. apply returns_ret, I.
  - apply returns_ret, I.
Qed.

(** [train_unet] and [train_unet_with_scheduler] return under the same
    conditions. *)
Lemma train_unet_returns (criterion : Tensor -> Tensor -> Tensor)
    (train_loader val_loader : DataLoader) (device : Device)
    (do_early_stopping : bool) (patience_ epochs : Z)
    (log_fn : option (Z -> float -> float -> f32 -> float -> M unit))
    (log_every : Z) :
  train_loader <> [] -> val_loader <> [] ->
  match log_fn with
  | None => True
  | Some f => log_every <> 0 /\ forall e a b c d, returns (f e a b c d) (fun _ => True)
  end ->
  returns (train_unet criterion train_loader val_loader device do_early_stopping
                      patience_ epochs log_fn log_every) (fun _ => True)
  /\ returns (train_unet_with_scheduler criterion train_loader val_loader device
                do_early_stopping patience_ epochs log_fn log_every) (fun _ => True).
Proof.
  intros Ht Hv Hlog. split.
  - unfold train_unet, train_unet_run.
    eapply returns_bind; [| intros l _; apply returns_ret, I].
    apply returns_for_each_break. intros e l. unfold train_unet_epoch.
    eapply returns_bind; [apply returns_model_train | intros _ _].
    eapply returns_bind.
    { apply (returns_for_each train_loader _ (fun _ => True)); [| exact I].
      intros b s _. apply returns_train_unet_batch. }
    intros a _. apply returns_train_unet_epoch_end; assumption.
  - unfold train_unet_with_scheduler, train_unet_with_scheduler_run.
    eapply returns_bind; [| intros l _; apply returns_ret, I].
    apply returns_for_each_break. intros e l. unfold train_unet_with_scheduler_epoch.
    eapply returns_bind; [apply returns_model_train | intros _ _].
    eapply returns_bind.
    { apply (returns_for_each train_loader _ (fun _ => True)); [| exact I].
      intros b s _. apply returns_train_unet_batch. }
    intros a _. apply returns_train_unet_epoch_end; assumption.
Qed.

End TrainFacts.



(** ** The scheduler in [train_unet_with_scheduler] *)

Section SchedulerFacts.

Context {T : Torch}.

(** One batch with a scheduler: the five calls, in order, and the loss
    added to [train_loss] is the metric the scheduler receives. *)
Lemma scheduled_batch (criterion : Tensor -> Tensor -> Tensor) (device : Device)
    (x y : Tensor) (a : UnetBatchLocals) (w : World) (s : Scheduler) :
  scheduler w = Some s ->
  let x' := tensor_to device (Some float32) x in
  let y' := squeeze 1 (tensor_to device (Some long) y) in
  let batch_loss := criterion (snd (module_call (grad_enabled w) (model w) x')) y' in
  exists a' w' s',
    train_unet_with_scheduler_batch criterion device (x, y) a w = (Ok a', w')
    /\ scheduler w' = Some s'
    /\ calls w' = calls w ++ scheduled_batch_calls (x', batch_loss)
    /\ train_loss a' = (train_loss a + item batch_loss)%float.
Proof.
  intros Hs. cbv zeta.
  unfold train_unet_with_scheduler_batch, bind, model_call.
  destruct (module_call (grad_enabled w) (model w) (tensor_to device (Some float32) x))
    as [m out].
  cbn [snd fst].
  unfold optimizer_zero_grad. cbn [optimizer model scheduler grad_enabled calls stdout
                                  set_model record_call].
  destruct (zero_grad (optimizer w) m) as [o1 m1].
  unfold loss_backward. cbn [optimizer model scheduler grad_enabled calls stdout
                             set_model record_call].
  unfold optimizer_do_step. cbn [optimizer model scheduler grad_enabled calls stdout
                                 set_model record_call].
  destruct (optimizer_step o1 _) as [o2 m2].
  unfold scheduler_notify. cbn [optimizer model scheduler grad_enabled calls stdout
                                set_model record_call].
  rewrite Hs.
  destruct (scheduler_step s _ o2) as [s' o3].
  cbn [optimizer model scheduler grad_enabled calls stdout set_model record_call].
  do 3 eexists. split; [reflexivity |].
  unfold record_call, scheduled_batch_calls.
  cbn [optimizer model scheduler grad_enabled calls stdout train_loss].
  split; [reflexivity |]. split; [| reflexivity].
  rewrite <- !app_assoc. reflexivity.
Qed.

(** *** The trace of a whole run *)

Lemma scheduled_app (cs1 cs2 : list Call) :
  scheduled cs1 -> scheduled cs2 -> scheduled (cs1 ++ cs2).
Proof.
  intros H1 H2. induction H1 as [| c cs Hc _ IH | step cs _ IH].
  - exact H2.
  - cbn [app]. apply scheduled_other; assumption.
  - rewrite <- app_assoc. apply scheduled_group, IH.
Qed.

Lemma scheduled_single (c : Call) :
  c = CallTrain \/ inference_call c = true -> scheduled [c].
Proof. intros H. apply scheduled_other; [exact H | apply scheduled_nil]. Qed.

Lemma scheduled_steps (steps : list (Tensor * Tensor)) :
  scheduled (flat_map scheduled_batch_calls steps).
Proof.
  induction steps as [| step rest IH]; cbn [flat_map].
  - apply scheduled_nil.
  - apply scheduled_group, IH.
Qed.

(** In a scheduled trace every scheduler step comes right after the
    optimizer step that follows the backward pass of some loss, and its
    metric is the value of that loss. *)
Lemma scheduled_notification (cs : list Call) :
  scheduled cs ->
  forall pre metric post,
    cs = pre ++ CallSchedulerStep metric :: post ->
    exists pre' loss,
      pre = pre' ++ [CallBackward loss; CallOptimizerStep] /\ metric = item loss.
Proof.
  intros H. induction H as [| c cs Hc _ IH | [x loss] cs _ IH];
    intros pre metric post E.
  - destruct pre; discriminate E.
  - destruct pre as [| c1 pre]; cbn [app] in E.
    + injection E as -> _. destruct Hc as [Hc | Hc]; discriminate Hc.
    + injection E as <- E. destruct (IH _ _ _ E) as (pre' & l & -> & ->).
      exists (c :: pre'), l. split; reflexivity.
  - cbn [scheduled_batch_calls app] in E.
    destruct pre as [| c1 pre]; [discriminate E |].
    destruct pre as [| c2 pre]; [discriminate E |].
    destruct pre as [| c3 pre]; [discriminate E |].
    destruct pre as [| c4 pre]; [discriminate E |].
    destruct pre as [| c5 pre]; cbn [app] in E.
    + injection E as <- <- <- <- <- _.
      exists [CallForward x; CallZeroGrad], loss. split; reflexivity.
    + injection E as <- <- <- <- <- E.
      destruct (IH _ _ _ E) as (pre' & l & -> & ->).
      exists (CallForward x :: CallZeroGrad :: CallBackward loss :: CallOptimizerStep
                :: CallSchedulerStep (item loss) :: pre'), l.
      split; reflexivity.
Qed.

(** In a scheduled trace every optimizer step is followed at once by a
    scheduler step. *)
Lemma scheduled_after_step (cs : list Call) :
  scheduled cs ->
  forall pre post,
    cs = pre ++ CallOptimizerStep :: post ->
    exists metric post', post = CallSchedulerStep metric :: post'.
Proof.
  intros H. induction H as [| c cs Hc _ IH | [x loss] cs _ IH]; intros pre post E.
  - destruct pre; discriminate E.
  - destruct pre as [| c1 pre]; cbn [app] in E.
    + injection E as -> _. destruct Hc as [Hc | Hc]; discriminate Hc.
    + injection E as <- E. exact (IH _ _ E).
  - cbn [scheduled_batch_calls app] in E.
    destruct pre as [| c1 pre]; [discriminate E |].
    destruct pre as [| c2 pre]; [discriminate E |].
    destruct pre as [| c3 pre]; [discriminate E |].
    destruct pre as [| c4 pre]; cbn [app] in E.
    + injection E as <- <- <- <-. eexists _, _. reflexivity.
    + destruct pre as [| c5 pre]; [discriminate E |].
      cbn [app] in E. injection E as <- <- <- <- <- E. exact (IH _ _ E).
Qed.

(** A step that keeps the scheduler and appends a scheduled trace. *)
Lemma notifying_step (before : list Call) (w w' : World) (cs : list Call) :
  notifying before w ->
  scheduler w' = scheduler w -> calls w' = calls w ++ cs -> scheduled cs ->
  notifying before w'.
Proof.
  intros [[sc Hs] (cs0 & Hc & Hsched)] Hs' Hc' Hcs. split.
  - exists sc. congruence.
  - exists (cs0 ++ cs). split.
    + rewrite Hc', Hc, app_assoc. reflexivity.
    + apply scheduled_app; assumption.
Qed.

Lemma notifying_model_train (before : list Call) :
  preserves (notifying before) model_train.
Proof.
  intros w H. eapply notifying_step with (cs := [CallTrain]);
    [exact H | reflexivity | reflexivity |].
  apply scheduled_single. left. reflexivity.
Qed.

Lemma notifying_model_eval (before : list Call) :
  preserves (notifying before) model_eval.
Proof.
  intros w H. eapply notifying_step with (cs := [CallEval]);
    [exact H | reflexivity | reflexivity |].
  apply scheduled_single. right. reflexivity.
Qed.

Lemma notifying_model_to (before : list Call) (device : Device) :
  preserves (notifying before) (model_to device).
Proof.
  intros w H. eapply notifying_step with (cs := [CallTo device]);
    [exact H | reflexivity | reflexivity |].
  apply scheduled_single. right. reflexivity.
Qed.

Lemma notifying_model_call (before : list Call) (x : Tensor) :
  preserves (notifying before) (model_call x).
Proof.
  intros w H. unfold model_call.
  destruct (module_call (grad_enabled w) (model w) x) as [m out]. cbn [snd].
  eapply notifying_step with (cs := [CallForward x]);
    [exact H | reflexivity | reflexivity |].
  apply scheduled_single. right. reflexivity.
Qed.

Lemma notifying_print (before : list Call) (p : Printed) :
  preserves (notifying before) (print p).
Proof.
  intros w H. eapply notifying_step with (cs := []);
    [exact H | reflexivity | symmetry; apply app_nil_r | apply scheduled_nil].
Qed.

Lemma notifying_with_no_grad {A} (before : list Call) (body : M A) :
  preserves (notifying before) body -> preserves (notifying before) (with_no_grad body).
Proof.
  intros Hb w H. unfold with_no_grad.
  assert (H0 : notifying before (set_grad_enabled false w)) by exact H.
  specialize (Hb _ H0).
  destruct (body (set_grad_enabled false w)) as [r w1]. exact Hb.
Qed.

Lemma notifying_batch (before : list Call) (criterion : Tensor -> Tensor -> Tensor)
    (device : Device) (b : Tensor * Tensor) (a : UnetBatchLocals) :
  preserves (notifying before) (train_unet_with_scheduler_batch criterion device b a).
Proof.
  intros w H. destruct b as [x y].
  destruct H as [[sc Hs] Hcalls].
  destruct (scheduled_batch criterion device x y a w sc Hs)
    as (a' & w' & s' & Hrun & Hs' & Hc & _).
  rewrite Hrun. cbn [snd]. split; [exists s'; exact Hs' |].
  destruct Hcalls as (cs0 & Hc0 & Hsched).
  eexists. split.
  - rewrite Hc, Hc0, <- app_assoc. reflexivity.
  - apply scheduled_app; [exact Hsched |].
    rewrite <- (app_nil_r (scheduled_batch_calls _)).
    apply scheduled_group, scheduled_nil.
Qed.

Lemma notifying_evaluate_unet (before : list Call)
    (criterion : Tensor -> Tensor -> Tensor) (data_loader : DataLoader)
    (device : Device) :
  preserves (notifying before) (evaluate_unet criterion data_loader device).
Proof.
  unfold evaluate_unet.
  apply preserves_bind; [apply notifying_model_eval | intros _].
  apply preserves_bind; [apply notifying_model_to | intros _].
  apply preserves_bind.
  - apply notifying_with_no_grad, preserves_for_each.
    intros [x y] l. unfold evaluate_unet_body.
    apply preserves_bind; [apply notifying_model_call | intros out].
    apply preserves_ret.
  - intros l.
    apply preserves_bind; [apply preserves_py_div | intros loss].
    apply preserves_bind;
      [destruct (correct l); [apply preserves_ret | apply preserves_raise] | intros acc].
    apply preserves_bind;
      [destruct (dice l); [apply preserves_raise | apply preserves_ret] | intros d].
    apply preserves_ret.
Qed.

(** A whole run of [train_unet_with_scheduler] from a world that has a
    scheduler, with a logging callback that leaves the scheduler and the
    call log alone. *)
Lemma notifying_run (criterion : Tensor -> Tensor -> Tensor)
    (train_loader val_loader : DataLoader) (device : Device)
    (do_early_stopping : bool) (patience_ epochs : Z)
    (log_fn : option (Z -> float -> float -> f32 -> float -> M unit))
    (log_every : Z) (before : list Call) :
  match log_fn with
  | None => True
  | Some f => forall e a b c d, preserves (notifying before) (f e a b c d)
  end ->
  preserves (notifying before)
    (train_unet_with_scheduler criterion train_loader val_loader device
       do_early_stopping patience_ epochs log_fn log_every).
Proof.
  intros Hlog. unfold train_unet_with_scheduler, train_unet_with_scheduler_run.
  apply preserves_bind; [| intros l; apply preserves_ret].
  apply preserves_for_each_break. intros e l.
  unfold train_unet_with_scheduler_epoch.
  apply preserves_bind; [apply notifying_model_train | intros _].
  apply preserves_bind; [apply preserves_for_each; intros b a; apply notifying_batch |].
  intros a. unfold train_unet_epoch_end.
  apply preserves_bind; [apply preserves_py_div | intros tl].
  apply preserves_bind; [apply notifying_evaluate_unet | intros [[vl acc] d]].
  apply preserves_bind.
  { destruct do_early_stopping; [| apply preserves_ret].
    destruct (EarlyStoppingForUnet.call_print (u_early_stopping l) d) as [es out].
    apply preserves_bind; [apply notifying_print | intros _; apply preserves_ret]. }
  intros es.
  apply preserves_bind.
  { destruct log_fn as [f |]; [| apply preserves_ret].
    apply preserves_bind; [apply preserves_py_mod | intros r].
    destruct (r =? 0); [apply Hlog | apply preserves_ret]. }
  intros _.
  match goal with
  | |- preserves _ (if ?c then _ else _) => destruct c
  end.
  - apply preserves_bind; [apply notifying_print | intros _; apply preserves_ret].
  - apply preserves_ret.
Qed.


(** *** The notifications of a whole run *)

Lemma notified_app (s : Scheduler) (n1 n2 : list (float * Optimizer)) :
  notified s (n1 ++ n2) = notified (notified s n1) n2.
Proof. apply fold_left_app. Qed.

(** One batch with a scheduler, with the scheduler it leaves. *)
Lemma notified_batch (criterion : Tensor -> Tensor -> Tensor) (device : Device)
    (x y : Tensor) (a : UnetBatchLocals) (w : World) (s : Scheduler) :
  scheduler w = Some s ->
  exists a' w' step note,
    train_unet_with_scheduler_batch criterion device (x, y) a w = (Ok a', w')
    /\ batch_step criterion device (x, y) step
    /\ notes_of [step] [note]
    /\ calls w' = calls w ++ scheduled_batch_calls step
    /\ scheduler w' = Some (notified s [note])
    /\ train_loss a' = (train_loss a + item (snd step))%float.
Proof.
  intros Hs.
  unfold train_unet_with_scheduler_batch, bind, model_call.
  destruct (module_call (grad_enabled w) (model w) (tensor_to device (Some float32) x))
    as [m out] eqn:Em.
  unfold optimizer_zero_grad. cbn [optimizer model scheduler grad_enabled calls stdout
                                  set_model record_call].
  destruct (zero_grad (optimizer w) m) as [o1 m1].
  unfold loss_backward. cbn [optimizer model scheduler grad_enabled calls stdout
                             set_model record_call].
  unfold optimizer_do_step. cbn [optimizer model scheduler grad_enabled calls stdout
                                 set_model record_call].
  match goal with
  | |- context [optimizer_step o1 ?mb] =>
      destruct (optimizer_step o1 mb) as [o2 m2] eqn:Eo
  end.
  unfold scheduler_notify. cbn [optimizer model scheduler grad_enabled calls stdout
                                set_model record_call].
  rewrite Hs.
  match goal with
  | |- context [scheduler_step s ?metric o2] =>
      destruct (scheduler_step s metric o2) as [s' o3] eqn:Es
  end.
  cbn [optimizer model scheduler grad_enabled calls stdout set_model record_call].
  do 2 eexists.
  exists (tensor_to device (Some float32) x,
          criterion out (squeeze 1 (tensor_to device (Some long) y))).
  exists (item (criterion out (squeeze 1 (tensor_to device (Some long) y))), o2).
  split; [reflexivity |].
  split.
  { split; [reflexivity |]. cbn [fst snd].
    exists (grad_enabled w), (model w). rewrite Em. reflexivity. }
  split.
  { constructor; [| constructor]. cbn [fst snd]. split; [reflexivity |].
    eexists _, _. rewrite Eo. reflexivity. }
  unfold record_call, scheduled_batch_calls, notified.
  cbn [optimizer model scheduler grad_enabled calls stdout train_loss fold_left fst snd].
  split; [rewrite <- !app_assoc; reflexivity |].
  split; [rewrite Es; reflexivity | reflexivity].
Qed.

(** The batch loop of an epoch with a scheduler. *)
Lemma notified_batch_loop (criterion : Tensor -> Tensor -> Tensor) (device : Device)
    (train_loader : DataLoader) (a : UnetBatchLocals) (w : World) (s : Scheduler) :
  scheduler w = Some s ->
  exists a' w' steps notes,
    for_each train_loader (train_unet_with_scheduler_batch criterion device) a w
    = (Ok a', w')
    /\ Forall2 (batch_step criterion device) train_loader steps
    /\ notes_of steps notes
    /\ calls w' = calls w ++ flat_map scheduled_batch_calls steps
    /\ scheduler w' = Some (notified s notes)
    /\ train_loss a'
       = fold_left (fun acc step => (acc + item (snd step))%float) steps (train_loss a).
Proof.
  revert a w s. induction train_loader as [| [x y] rest IH]; intros a w s Hs.
  - exists a, w, [], []. cbn. rewrite app_nil_r.
    split; [reflexivity |]. split; [constructor |]. split; [constructor |].
    split; [reflexivity |]. split; [exact Hs | reflexivity].
  - destruct (notified_batch criterion device x y a w s Hs)
      as (a1 & w1 & step & note & Hrun & Hstep & Hnote & Hc1 & Hs1 & Hl1).
    destruct (IH a1 w1 _ Hs1)
      as (a2 & w2 & steps & notes & Hrun2 & Hsteps & Hnotes & Hc2 & Hs2 & Hl2).
    exists a2, w2, (step :: steps), (note :: notes).
    cbn [for_each]. unfold bind. rewrite Hrun, Hrun2.
    split; [reflexivity |].
    split; [constructor; assumption |].
    split; [inversion Hnote; subst; constructor; assumption |].
    split; [rewrite Hc2, Hc1; cbn [flat_map]; rewrite <- app_assoc; reflexivity |].
    split; [exact Hs2 |].
    cbn [fold_left]. rewrite Hl2, Hl1. reflexivity.
Qed.

Lemma evaluate_unet_keeps_scheduler (criterion : Tensor -> Tensor -> Tensor)
    (data_loader : DataLoader) (device : Device) (w : World) :
  scheduler (snd (evaluate_unet criterion data_loader device w)) = scheduler w.
Proof.
  assert (H : preserves (fun w' => scheduler w' = scheduler w)
                (evaluate_unet criterion data_loader device)).
  { unfold evaluate_unet.
    apply preserves_bind; [intros w0 H0; exact H0 | intros _].
    apply preserves_bind; [intros w0 H0; exact H0 | intros _].
    apply preserves_bind.
    - intros w0 H0. unfold with_no_grad.
      pose proof (preserves_for_each (fun w' => scheduler w' = scheduler w) data_loader
                    (evaluate_unet_body criterion device)) as Hloop.
      match goal with
      | |- context [for_each data_loader ?body ?s0 ?wx] =>
          specialize (Hloop
                        ltac:(intros [x y] l w1 H1; unfold evaluate_unet_body, bind, model_call;
                              destruct (module_call _ _ _) as [m out]; exact H1)
                        s0 wx H0);
          destruct (for_each data_loader body s0 wx) as [r w1]
      end.
      exact Hloop.
    - intros l.
      apply preserves_bind; [apply preserves_py_div | intros loss].
      apply preserves_bind;
        [destruct (correct l); [apply preserves_ret | apply preserves_raise] | intros acc].
      apply preserves_bind;
        [destruct (dice l); [apply preserves_raise | apply preserves_ret] | intros d].
      apply preserves_ret. }
  apply H. reflexivity.
Qed.

(** What the end of an epoch does to the world and to the training history
    when it completes, with a logging callback that leaves the scheduler and
    the call log alone. *)
Lemma train_unet_epoch_end_world (criterion : Tensor -> Tensor -> Tensor)
    (train_loader val_loader : DataLoader) (device : Device)
    (do_early_stopping : bool)
    (log_fn : option (Z -> float -> float -> f32 -> float -> M unit))
    (log_every : Z) (epoch_ : Z) (l l' : UnetTrainLocals) (a : UnetBatchLocals)
    (b : bool) (w w' : World) :
  match log_fn with
  | None => True
  | Some f =>
      forall e tl vl acc d w0,
        scheduler (snd (f e tl vl acc d w0)) = scheduler w0
        /\ calls (snd (f e tl vl acc d w0)) = calls w0
  end ->
  train_unet_epoch_end criterion train_loader val_loader device do_early_stopping
                       log_fn log_every epoch_ l a w = (Ok (l', b), w') ->
  calls w'
  = calls w ++ CallEval :: CallTo device
      :: map (fun b => CallForward (tensor_to device (Some float32) (fst b))) val_loader
  /\ scheduler w' = scheduler w
  /\ u_epoch_train_errors l'
     = u_epoch_train_errors l
       ++ [(train_loss a / float_of_len (len train_loader))%float].
Proof.
  intros Hlog H. unfold train_unet_epoch_end in H.
  bind_inv H.
  unfold py_div in E. destruct (len train_loader =? 0); [discriminate E |].
  injection E as <- <-.
  bind_inv H. destruct a0 as [[val_loss accuracy] dice_].
  destruct (evaluate_unet_world criterion val_loader device w) as (r & w1 & Ev & Hc & _).
  pose proof (evaluate_unet_keeps_scheduler criterion val_loader device w) as Hsch.
  rewrite E in Ev. injection Ev as <- <-. rewrite E in Hsch. cbn [snd] in Hsch.
  bind_inv H.
  assert (Hes : calls w1 = calls w0 /\ scheduler w1 = scheduler w0).
  { destruct do_early_stopping.
    - destruct (EarlyStoppingForUnet.call_print (u_early_stopping l) dice_) as [es out].
      unfold bind, print, ret in E0. injection E0 as _ <-. split; reflexivity.
    - unfold ret in E0. injection E0 as _ <-. split; reflexivity. }
  destruct Hes as [Hc1 Hs1].
  bind_inv H.
  assert (Hlg : calls w2 = calls w1 /\ scheduler w2 = scheduler w1).
  { destruct log_fn as [f |].
    - bind_inv E1. unfold py_mod in E2. destruct (log_every =? 0); [discriminate E2 |].
      injection E2 as <- <-.
      match type of E1 with
      | (if ?c then _ else _) _ = _ => destruct c
      end.
      + destruct (Hlog epoch_ (train_loss a / float_of_len (len train_loader))%float
                    val_loss accuracy dice_ w1) as [H1 H2].
        rewrite E1 in H1, H2. cbn [snd] in H1, H2. split; assumption.
      + unfold ret in E1. injection E1 as _ <-. split; reflexivity.
    - unfold ret in E1. injection E1 as _ <-. split; reflexivity. }
  destruct Hlg as [Hc2 Hs2].
  match type of H with
  | (if ?c then _ else _) _ = _ => destruct c
  end.
  - bind_inv H. unfold print in E2. injection E2 as _ <-.
    unfold ret in H. injection H as <- _ <-.
    cbn [calls scheduler u_epoch_train_errors].
    rewrite Hc2, Hc1, Hs2, Hs1, Hc, Hsch. repeat split.
  - unfold ret in H. injection H as <- _ <-.
    cbn [calls scheduler u_epoch_train_errors].
    rewrite Hc2, Hc1, Hs2, Hs1, Hc, Hsch. repeat split.
Qed.

(** One completed epoch of [train_unet_with_scheduler] from a world that
    has a scheduler. *)
Lemma notified_epoch (criterion : Tensor -> Tensor -> Tensor)
    (train_loader val_loader : DataLoader) (device : Device)
    (do_early_stopping : bool)
    (log_fn : option (Z -> float -> float -> f32 -> float -> M unit))
    (log_every : Z) (epoch_ : Z) (l l' : UnetTrainLocals) (b : bool)
    (w w' : World) (s : Scheduler) :
  match log_fn with
  | None => True
  | Some f =>
      forall e tl vl acc d w0,
        scheduler (snd (f e tl vl acc d w0)) = scheduler w0
        /\ calls (snd (f e tl vl acc d w0)) = calls w0
  end ->
  scheduler w = Some s ->
  train_unet_with_scheduler_epoch criterion train_loader val_loader device
    do_early_stopping log_fn log_every epoch_ l w = (Ok (l', b), w') ->
  exists steps notes,
    Forall2 (batch_step criterion device) train_loader steps
    /\ notes_of steps notes
    /\ calls w' = calls w ++ scheduled_epoch_calls device val_loader steps
    /\ scheduler w' = Some (notified s notes)
    /\ u_epoch_train_errors l'
       = u_epoch_train_errors l ++ [epoch_mean_loss train_loader steps].
Proof.
  intros Hlog Hs H. unfold train_unet_with_scheduler_epoch in H.
  unfold bind at 1 in H. cbn [model_train] in H.
  set (wt := record_call CallTrain (set_model (module_train (model w)) w)) in H.
  bind_inv H.
  destruct (notified_batch_loop criterion device train_loader
              (mkUnetBatchLocals 0%float 0 0) wt s Hs)
    as (a1 & w1 & steps & notes & Hrun & Hsteps & Hnotes & Hc & Hsch & Hloss).
  rewrite E in Hrun. injection Hrun as <- <-.
  destruct (train_unet_epoch_end_world _ _ _ _ _ _ _ _ _ _ _ _ _ _ Hlog H)
    as (Hc' & Hsch' & Ht).
  exists steps, notes.
  split; [exact Hsteps |]. split; [exact Hnotes |].
  split.
  { rewrite Hc', Hc. unfold scheduled_epoch_calls. subst wt.
    cbn [calls record_call set_model]. rewrite <- !app_assoc. reflexivity. }
  split; [rewrite Hsch'; exact Hsch |].
  rewrite Ht, Hloss. reflexivity.
Qed.

(** A completed run of [train_unet_with_scheduler] from a world that has a
    scheduler: one list of batch steps per recorded epoch. *)
Lemma notified_run (criterion : Tensor -> Tensor -> Tensor)
    (train_loader val_loader : DataLoader) (device : Device)
    (do_early_stopping : bool) (patience_ epochs : Z)
    (log_fn : option (Z -> float -> float -> f32 -> float -> M unit))
    (log_every : Z) (l : UnetTrainLocals) (w w' : World) (s : Scheduler) :
  match log_fn with
  | None => True
  | Some f =>
      forall e tl vl acc d w0,
        scheduler (snd (f e tl vl acc d w0)) = scheduler w0
        /\ calls (snd (f e tl vl acc d w0)) = calls w0
  end ->
  scheduler w = Some s ->
  train_unet_with_scheduler_run criterion train_loader val_loader device
    do_early_stopping patience_ epochs log_fn log_every w = (Ok l, w') ->
  exists epochs_steps notes,
    u_epoch_train_errors l = map (epoch_mean_loss train_loader) epochs_steps
    /\ Forall (Forall2 (batch_step criterion device) train_loader) epochs_steps
    /\ calls w'
       = calls w ++ flat_map (scheduled_epoch_calls device val_loader) epochs_steps
    /\ notes_of (concat epochs_steps) notes
    /\ scheduler w' = Some (notified s notes).
Proof.
  intros Hlog Hs Hrun. unfold train_unet_with_scheduler_run in Hrun.
  pose (Inv := fun (l0 : UnetTrainLocals) (w0 : World) =>
                 exists epochs_steps notes,
                   u_epoch_train_errors l0
                   = map (epoch_mean_loss train_loader) epochs_steps
                   /\ Forall (Forall2 (batch_step criterion device) train_loader)
                             epochs_steps
                   /\ calls w0
                      = calls w
                        ++ flat_map (scheduled_epoch_calls device val_loader)
                                    epochs_steps
                   /\ notes_of (concat epochs_steps) notes
                   /\ scheduler w0 = Some (notified s notes)).
  assert (Hbody : forall e l0 w0 l1 stop w1,
             Inv l0 w0 ->
             train_unet_with_scheduler_epoch criterion train_loader val_loader device
               do_early_stopping log_fn log_every e l0 w0 = (Ok (l1, stop), w1) ->
             Inv l1 w1).
  { intros e l0 w0 l1 stop w1 (es & ns & Ht & Hall & Hc & Hn & Hsch) Hstep.
    destruct (notified_epoch _ _ _ _ _ _ _ _ _ _ _ _ _ _ Hlog Hsch Hstep)
      as (steps & notes & Hsteps & Hnotes & Hc1 & Hs1 & Ht1).
    exists (es ++ [steps]), (ns ++ notes).
    split; [rewrite Ht1, Ht, map_app; reflexivity |].
    split; [apply Forall_app; split; [exact Hall | constructor; [exact Hsteps | constructor]] |].
    split.
    { rewrite Hc1, Hc, flat_map_app. cbn [flat_map]. rewrite app_nil_r, <- app_assoc.
      reflexivity. }
    split.
    { rewrite concat_app. cbn [concat]. rewrite app_nil_r.
      apply Forall2_app; assumption. }
    rewrite Hs1, notified_app. reflexivity. }
  assert (H0 : Inv (unet_locals_init patience_) w).
  { exists [], []. cbn. rewrite app_nil_r.
    split; [reflexivity |]. split; [constructor |]. split; [reflexivity |].
    split; [constructor | exact Hs]. }
  exact (for_each_break_inv _ _ Inv Hbody _ _ _ _ H0 Hrun).
Qed.

(** With an epoch to run, loaders that hold a batch and a logging callback
    that returns, the run completes at least one epoch, and all of them
    when early stopping is off. *)
Lemma train_unet_with_scheduler_completes (criterion : Tensor -> Tensor -> Tensor)
    (train_loader val_loader : DataLoader) (device : Device)
    (do_early_stopping : bool) (patience_ epochs : Z)
    (log_fn : option (Z -> float -> float -> f32 -> float -> M unit))
    (log_every : Z) (w : World) :
  1 <= epochs -> train_loader <> [] -> val_loader <> [] ->
  match log_fn with
  | None => True
  | Some f => log_every <> 0 /\ forall e a b c d, returns (f e a b c d) (fun _ => True)
  end ->
  exists tr va dv w',
    train_unet_with_scheduler criterion train_loader val_loader device
      do_early_stopping patience_ epochs log_fn log_every w = (Ok (tr, va, dv), w')
    /\ 1 <= len tr <= epochs
    /\ (do_early_stopping = false -> len tr = epochs).
Proof.
  intros He Ht Hv Hlog.
  destruct (proj2 (train_unet_returns criterion train_loader val_loader device
                     do_early_stopping patience_ epochs log_fn log_every Ht Hv Hlog) w)
    as ([[tr va] dv] & w' & Hrun & _).
  exists tr, va, dv, w'. split; [exact Hrun |].
  unfold train_unet_with_scheduler in Hrun. bind_inv Hrun.
  cbn in Hrun. injection Hrun as <- <- <- <-.
  unfold train_unet_with_scheduler_run in E.
  destruct (unet_run_lengths _ do_early_stopping patience_ epochs _ _ _
              (fun k s s' b wa wb Hstep =>
                 train_unet_epoch_locals criterion train_loader val_loader device
                   do_early_stopping log_fn log_every k s s' b wa wb (or_intror Hstep))
              ltac:(lia) E)
    as (_ & Hfull & Hstop).
  destruct (do_early_stopping && early_stop (u_early_stopping a)) eqn:Eflag.
  - destruct (Hstop eq_refl) as (k & _ & Hk & Hlen).
    split; [lia |]. intros ->. discriminate Eflag.
  - specialize (Hfull eq_refl). split; [lia | intros _; exact Hfull].
Qed.

End SchedulerFacts.

(** C9: when a scheduler is supplied (and the logging callback leaves the
    scheduler and the call log alone), a run of [train_unet_with_scheduler]
    that returns has made, for each recorded epoch in turn, the call
    [model.train()], then for each batch of the training loader, in order,
    exactly the calls forward, zero_grad, backward, optimizer step, scheduler
    step, and then the calls of the evaluation pass.  The metric of each
    scheduler step is the value of the loss of its batch, the loss that has
    just been back-propagated and whose values make up the training loss
    recorded for the epoch; the scheduler left in the world is the supplied
    one after these notifications, one per batch, in order.  With an epoch to
    run, non-empty loaders and a logging callback that returns, the run does
    return, with at least one recorded epoch, and with [epochs] of them when
    early stopping is off.  Whether the run returns or raises, every
    optimizer step is followed at once by one scheduler step and every
    scheduler step directly follows the backward pass and the optimizer step
    of the loss whose value it receives. *)
Theorem scheduler_notified_once_per_batch {T : Torch}
    (criterion : Tensor -> Tensor -> Tensor) (device : Device)
    (train_loader val_loader : DataLoader)
    (do_early_stopping : bool) (patience_ epochs : Z)
    (log_fn : option (Z -> float -> float -> f32 -> float -> M unit))
    (log_every : Z) (w : World) (s : Scheduler) :
  scheduler w = Some s ->
  match log_fn with
  | None => True
  | Some f =>
      forall e tl vl acc d w0,
        scheduler (snd (f e tl vl acc d w0)) = scheduler w0
        /\ calls (snd (f e tl vl acc d w0)) = calls w0
  end ->
  (forall tr va dv w',
     train_unet_with_scheduler criterion train_loader val_loader device
       do_early_stopping patience_ epochs log_fn log_every w = (Ok (tr, va, dv), w') ->
     exists (epochs_steps : list (list (Tensor * Tensor)))
            (notes : list (float * Optimizer)),
       tr = map (epoch_mean_loss train_loader) epochs_steps
       /\ Forall (Forall2 (batch_step criterion device) train_loader) epochs_steps
       /\ calls w'
          = calls w ++ flat_map (scheduled_epoch_calls device val_loader) epochs_steps
       /\ notes_of (concat epochs_steps) notes
       /\ scheduler w' = Some (notified s notes))
  /\ (1 <= epochs -> train_loader <> [] -> val_loader <> [] ->
      match log_fn with
      | None => True
      | Some f =>
          log_every <> 0 /\ forall e a b c d, returns (f e a b c d) (fun _ => True)
      end ->
      exists tr va dv w',
        train_unet_with_scheduler criterion train_loader val_loader device
          do_early_stopping patience_ epochs log_fn log_every w = (Ok (tr, va, dv), w')
        /\ 1 <= len tr <= epochs
        /\ (do_early_stopping = false -> len tr = epochs))
  /\ (exists cs,
        calls (snd (train_unet_with_scheduler criterion train_loader val_loader
                      device do_early_stopping patience_ epochs log_fn log_every w))
        = calls w ++ cs
        /\ (forall pre post,
              cs = pre ++ CallOptimizerStep :: post ->
              exists metric post', post = CallSchedulerStep metric :: post')
        /\ (forall pre metric post,
              cs = pre ++ CallSchedulerStep metric :: post ->
              exists pre' loss,
                pre = pre' ++ [CallBackward loss; CallOptimizerStep]
                /\ metric = item loss)).
Proof.
  intros Hs Hlog. split; [| split].
  - intros tr va dv w' H. unfold train_unet_with_scheduler in H. bind_inv H.
    cbn in H. injection H as <- <- <- <-.
    destruct (notified_run _ _ _ _ _ _ _ _ _ _ _ _ _ Hlog Hs E)
      as (es & ns & Ht & Hall & Hc & Hn & Hsch).
    exists es, ns. repeat split; assumption.
  - apply train_unet_with_scheduler_completes.
  - assert (H0 : notifying (calls w) w).
    { split; [exists s; exact Hs |].
      exists []. split; [symmetry; apply app_nil_r | apply scheduled_nil]. }
    pose proof (notifying_run criterion train_loader val_loader device
                  do_early_stopping patience_ epochs log_fn log_every (calls w)) as Hrun.
    destruct (Hrun) with (w := w) as [_ (cs & Hc & Hsched)]; [| exact H0 |].
    + destruct log_fn as [f |]; [| exact I].
      intros e tl vl acc d w0 Hw0. destruct (Hlog e tl vl acc d w0) as [H1 H2].
      eapply notifying_step with (cs := []);
        [exact Hw0 | exact H1 | rewrite H2; symmetry; apply app_nil_r
        | apply scheduled_nil].
    + exists cs. split; [exact Hc |]. split.
      * apply scheduled_after_step, Hsched.
      * apply scheduled_notification, Hsched.
Qed.


(** Two training batches on the concrete framework, with a scheduler that
    records the metrics it receives, and a run of two epochs: the scheduler
    ends with the four batch losses, in order. *)
Lemma scheduler_notified_once_per_batch_witness :
  let run :=
    @train_unet_with_scheduler toy toy_abs_loss two_batches [toy_batch [3; 2] [1; 0]]
      tt true 5 2 (Some print_log_unet) 1 (toy_world (Some [])) in
  scheduler (toy_world (Some [])) = Some []
  /\ fst run = Ok ([4; 11]%float, [0; 4]%float, [1; 1]%float)
  /\ scheduler (snd run) = Some [4; 4; 10; 12]%float
  /\ (exists (epochs_steps : list (list (ToyTensor * ToyTensor)))
             (notes : list (float * Z)),
        [4; 11]%float = map (@epoch_mean_loss toy two_batches) epochs_steps
        /\ Forall (Forall2 (@batch_step toy toy_abs_loss tt) two_batches) epochs_steps
        /\ calls (snd run)
           = calls (toy_world (Some []))
             ++ flat_map (@scheduled_epoch_calls toy tt [toy_batch [3; 2] [1; 0]])
                         epochs_steps
        /\ @notes_of toy (concat epochs_steps) notes
        /\ scheduler (snd run) = Some (@notified toy [] notes))
  /\ (exists tr va dv w',
        run = (Ok (tr, va, dv), w')
        /\ 1 <= len tr <= 2
        /\ (true = false -> len tr = 2))
  /\ (exists cs : list (@Call toy),
        calls (snd run) = calls (toy_world (Some [])) ++ cs
        /\ (forall pre post : list (@Call toy),
              cs = pre ++ @CallOptimizerStep toy :: post ->
              exists metric post', post = @CallSchedulerStep toy metric :: post')
        /\ (forall (pre : list (@Call toy)) metric (post : list (@Call toy)),
              cs = pre ++ @CallSchedulerStep toy metric :: post ->
              exists (pre' : list (@Call toy)) (loss : ToyTensor),
                pre = pre' ++ [@CallBackward toy loss; @CallOptimizerStep toy]
                /\ metric = toy_item loss)).
Proof.
  cbv zeta. split; [reflexivity |].
  split; [vm_compute; reflexivity |].
  split; [vm_compute; reflexivity |].
  pose proof (@scheduler_notified_once_per_batch toy toy_abs_loss tt two_batches
                [toy_batch [3; 2] [1; 0]] true 5 2 (Some print_log_unet) 1
                (toy_world (Some [])) [] eq_refl
                (fun e tl vl acc d w0 => conj eq_refl eq_refl))
    as (Hrun & Hlive & Hsafe).
  split.
  { apply (Hrun [4; 11]%float [0; 4]%float [1; 1]%float). vm_compute. reflexivity. }
  split; [| exact Hsafe].
  apply Hlive.
  - lia.
  - discriminate.
  - discriminate.
  - split; [lia |]. intros e a b c d w0. do 2 eexists. split; [reflexivity | exact I].
Defined.

(** ** The mean training loss of an epoch *)

Section FloatFacts.



Lemma SFeqb_finite_refl (sg : bool) (m : positive) (e : Z) :
  SFeqb (S754_finite sg m e) (S754_finite sg m e) = true.
Proof.
  unfold SFeqb, SFcompare. rewrite Z.compare_refl.
  change (Pos.compare_cont Eq m m) with (Pos.compare m m). rewrite Pos.compare_refl.
  destruct sg; reflexivity.
Qed.







End FloatFacts.

Section MeanLossFacts.

Context {T : Torch}.

Variable criterion : Tensor -> Tensor -> Tensor.
Variable c : float.
Hypothesis uniform_loss : forall out y, item (criterion out y) = c.




End MeanLossFacts.




(** * Further properties of the module *)

(** ** The two stopping policies, beyond the first call *)

Section FloatOrderFacts.

Lemma SFcompare_refl_not_lt (x : spec_float) : SFltb x x = false.
Proof.
  unfold SFltb, SFcompare. destruct x as [sg | sg | | sg m e]; try reflexivity.
  - destruct sg; reflexivity.
  - rewrite Z.compare_refl.
    change (Pos.compare_cont Eq m m) with (Pos.compare m m). rewrite Pos.compare_refl.
    destruct sg; reflexivity.
Qed.

(** No float is below itself. *)
Lemma float_ltb_irrefl (x : float) : PrimFloat.ltb x x = false.
Proof. rewrite FloatAxioms.ltb_spec. apply SFcompare_refl_not_lt. Qed.

(** A float that differs from itself is NaN. *)
Lemma nan_spec (x : float) : PrimFloat.eqb x x = false -> Prim2SF x = S754_nan.
Proof.
  rewrite FloatAxioms.eqb_spec. destruct (Prim2SF x) as [sg | sg | | sg m e]; intros H.
  - discriminate H.
  - destruct sg; discriminate H.
  - reflexivity.
  - rewrite SFeqb_finite_refl in H. discriminate H.
Qed.

(** NaN is neither below nor above anything. *)
Lemma nan_not_below (x y : float) :
  PrimFloat.eqb x x = false -> PrimFloat.ltb x y = false /\ PrimFloat.ltb y x = false.
Proof.
  intros H. apply nan_spec in H. rewrite !FloatAxioms.ltb_spec, H.
  split; [reflexivity |].
  unfold SFltb, SFcompare. destruct (Prim2SF y); reflexivity.
Qed.

End FloatOrderFacts.

(** What the two [__call__] methods share: a comparison [worse score best]
    decides between the counting branch and the improvement branch. *)
Section PolicyFacts.

Variable worse : float -> float -> bool.
Variable call : EarlyStoppingState -> float -> EarlyStoppingState.

Hypothesis call_worse :
  forall self s, worse s (best_score self) = true ->
    call self s
    = if counter self + 1 >=? patience self
      then set_early_stop (set_counter self (counter self + 1)) true
      else set_counter self (counter self + 1).

Hypothesis call_improve :
  forall self s, worse s (best_score self) = false ->
    call self s = set_counter (set_best_score self s) 0.

Lemma policy_patience_kept (self : EarlyStoppingState) (s : float) :
  patience (call self s) = patience self.
Proof.
  destruct (worse s (best_score self)) eqn:E.
  - rewrite call_worse by exact E.
    destruct (counter self + 1 >=? patience self); reflexivity.
  - rewrite call_improve by exact E. reflexivity.
Qed.

Lemma policy_counter_step (self : EarlyStoppingState) (s : float) :
  counter_in_range self -> counter_in_range (call self s).
Proof.
  intros [H0 H1]. unfold counter_in_range.
  destruct (worse s (best_score self)) eqn:E.
  - rewrite call_worse by exact E.
    destruct (Z.geb_spec (counter self + 1) (patience self)) as [Hge | Hlt]; cbn.
    + split; [lia | discriminate].
    + split; [lia | intros _; lia].
  - rewrite call_improve by exact E. cbn. split; [lia | intros _; lia].
Qed.

Lemma policy_counter_feed (scores : list float) (self : EarlyStoppingState) :
  counter_in_range self -> counter_in_range (feed call self scores).
Proof.
  revert self. unfold feed.
  induction scores as [| s rest IH]; intros self H; cbn [fold_left].
  - exact H.
  - apply IH, policy_counter_step, H.
Qed.

(** Consecutive non-improving scores: the flag is set by the one that
    brings the counter up to the patience, and by none before. *)
Lemma policy_stops_when_counter_full (scores : list float) (self : EarlyStoppingState) :
  early_stop self = false ->
  scores <> [] ->
  counter self + Z.of_nat (length scores) = patience self ->
  0 <= counter self ->
  Forall (fun s => worse s (best_score self) = true) scores ->
  stop_flags call self scores = repeat false (length scores - 1) ++ [true].
Proof.
  revert self. induction scores as [| s rest IH]; intros self Hf Hne Hlen Hc Hall.
  - contradiction.
  - inversion Hall as [| s' rest' Hs Hrest]; subst.
    cbn [stop_flags]. rewrite call_worse by exact Hs.
    cbn [length] in Hlen.
    destruct rest as [| s2 rest2].
    + cbn [length] in *.
      destruct (Z.geb_spec (counter self + 1) (patience self)) as [_ | Hlt]; [| lia].
      cbn. reflexivity.
    + destruct (Z.geb_spec (counter self + 1) (patience self)) as [Hge | _];
        [cbn [length] in Hlen; lia |].
      cbn [early_stop set_counter]. rewrite Hf.
      rewrite IH.
      * cbn [length Nat.sub repeat app]. rewrite Nat.sub_0_r. reflexivity.
      * exact Hf.
      * discriminate.
      * cbn [counter patience set_counter] in *. lia.
      * cbn. lia.
      * exact Hrest.
Qed.

Lemma policy_low_patience_step (a b : EarlyStoppingState) (s : float) :
  patience a <= 1 -> patience b = 1 -> 0 <= counter a ->
  same_but_patience a b -> same_but_patience (call a s) (call b s).
Proof.
  intros Hpa Hpb Hc (Hcnt & Hbest & Hflag). unfold same_but_patience.
  destruct (worse s (best_score a)) eqn:E.
  - rewrite (call_worse a) by exact E.
    rewrite (call_worse b) by (rewrite <- Hbest; exact E).
    rewrite <- Hcnt, Hpb.
    destruct (Z.geb_spec (counter a + 1) (patience a)) as [_ | Hlt]; [| lia].
    destruct (Z.geb_spec (counter a + 1) 1) as [_ | Hlt]; [| lia].
    cbn. repeat split; congruence.
  - rewrite (call_improve a) by exact E.
    rewrite (call_improve b) by (rewrite <- Hbest; exact E).
    cbn. repeat split; congruence.
Qed.

Lemma policy_low_patience_flags (scores : list float) (a b : EarlyStoppingState) :
  patience a <= 1 -> patience b = 1 -> counter_in_range a ->
  same_but_patience a b ->
  stop_flags call a scores = stop_flags call b scores.
Proof.
  revert a b. induction scores as [| s rest IH]; intros a b Hpa Hpb Hr Hsame.
  - reflexivity.
  - cbn [stop_flags].
    pose proof (policy_low_patience_step a b s Hpa Hpb (proj1 Hr) Hsame) as Hstep.
    f_equal.
    + exact (proj2 (proj2 Hstep)).
    + apply IH.
      * rewrite policy_patience_kept. exact Hpa.
      * rewrite policy_patience_kept. exact Hpb.
      * apply policy_counter_step, Hr.
      * exact Hstep.
Qed.

(** With an irreflexive comparison the best score never gets worse. *)
Lemma policy_best_not_worse (self : EarlyStoppingState) (s : float) :
  (forall x, worse x x = false) ->
  worse (best_score (call self s)) (best_score self) = false.
Proof.
  intros Hirr. destruct (worse s (best_score self)) eqn:E.
  - rewrite call_worse by exact E.
    destruct (counter self + 1 >=? patience self); cbn; apply Hirr.
  - rewrite call_improve by exact E. cbn. exact E.
Qed.

End PolicyFacts.

Section PolicyInstances.

Lemma loss_call_worse (self : EarlyStoppingState) (s : float) :
  float_gt s (best_score self) = true ->
  EarlyStopping.call self s
  = if counter self + 1 >=? patience self
    then set_early_stop (set_counter self (counter self + 1)) true
    else set_counter self (counter self + 1).
Proof. intros H. unfold EarlyStopping.call. rewrite H. reflexivity. Qed.

Lemma loss_call_improve (self : EarlyStoppingState) (s : float) :
  float_gt s (best_score self) = false ->
  EarlyStopping.call self s = set_counter (set_best_score self s) 0.
Proof. intros H. unfold EarlyStopping.call. rewrite H. reflexivity. Qed.

Lemma dice_call_worse (self : EarlyStoppingState) (s : float) :
  float_lt s (best_score self) = true ->
  EarlyStoppingForUnet.call self s
  = if counter self + 1 >=? patience self
    then set_early_stop (set_counter self (counter self + 1)) true
    else set_counter self (counter self + 1).
Proof.
  intros H. unfold EarlyStoppingForUnet.call, EarlyStoppingForUnet.call_print.
  rewrite H. cbn [counter set_counter patience].
  destruct (counter self + 1 >=? patience self); reflexivity.
Qed.

Lemma dice_call_improve (self : EarlyStoppingState) (s : float) :
  float_lt s (best_score self) = false ->
  EarlyStoppingForUnet.call self s = set_counter (set_best_score self s) 0.
Proof.
  intros H. unfold EarlyStoppingForUnet.call, EarlyStoppingForUnet.call_print.
  rewrite H. reflexivity.
Qed.

End PolicyInstances.

Lemma policy_patience_feed (worse : float -> float -> bool)
    (call : EarlyStoppingState -> float -> EarlyStoppingState) :
  (forall self s, worse s (best_score self) = true ->
     call self s
     = if counter self + 1 >=? patience self
       then set_early_stop (set_counter self (counter self + 1)) true
       else set_counter self (counter self + 1)) ->
  (forall self s, worse s (best_score self) = false ->
     call self s = set_counter (set_best_score self s) 0) ->
  forall scores self, patience (feed call self scores) = patience self.
Proof.
  intros Hw Hi scores. unfold feed.
  induction scores as [| s rest IH]; intros self; cbn [fold_left].
  - reflexivity.
  - rewrite IH. apply (policy_patience_kept worse call Hw Hi).
Qed.

(** X1: a call never makes the recorded best score worse: after a call of
    the loss policy the best score is not above the previous one, and after
    a call of the Dice policy it is not below the previous one. *)
Theorem best_score_never_worsens (self : EarlyStoppingState) (s : float) :
  float_gt (best_score (EarlyStopping.call self s)) (best_score self) = false
  /\ float_lt (best_score (EarlyStoppingForUnet.call self s)) (best_score self) = false.
Proof.
  split.
  - apply (policy_best_not_worse float_gt EarlyStopping.call
             loss_call_worse loss_call_improve).
    intros x. apply float_ltb_irrefl.
  - apply (policy_best_not_worse float_lt EarlyStoppingForUnet.call
             dice_call_worse dice_call_improve).
    intros x. apply float_ltb_irrefl.
Qed.

(** X2: from a state with the flag unset and the counter at 0, a run of
    [patience] scores that are all strictly worse than the best score sets
    the flag at its last score and at none before, in both policies. *)
Theorem stop_after_patience_worse_scores (self : EarlyStoppingState)
    (scores : list float) :
  early_stop self = false ->
  counter self = 0 ->
  1 <= patience self ->
  Z.of_nat (length scores) = patience self ->
  (Forall (fun s => float_gt s (best_score self) = true) scores ->
   stop_flags EarlyStopping.call self scores
   = repeat false (length scores - 1) ++ [true])
  /\ (Forall (fun s => float_lt s (best_score self) = true) scores ->
      stop_flags EarlyStoppingForUnet.call self scores
      = repeat false (length scores - 1) ++ [true]).
Proof.
  intros Hf Hc Hp Hlen.
  assert (Hne : scores <> []) by (intros ->; cbn in Hlen; lia).
  split; intros Hall.
  - apply (policy_stops_when_counter_full float_gt EarlyStopping.call
             loss_call_worse); auto; lia.
  - apply (policy_stops_when_counter_full float_lt EarlyStoppingForUnet.call
             dice_call_worse); auto; lia.
Qed.

(** Patience 3, best score 1: three worse losses, and three worse Dice
    values. *)
Lemma stop_after_patience_worse_scores_witness :
  let self := EarlyStopping.call (EarlyStopping.init 3) 1%float in
  early_stop self = false /\ counter self = 0 /\ 1 <= patience self
  /\ stop_flags EarlyStopping.call self [2; 1.5; 7]%float = [false; false; true]
  /\ stop_flags EarlyStoppingForUnet.call self [0.5; 0.75; 0]%float
     = [false; false; true].
Proof.
  cbv zeta. split; [reflexivity |]. split; [reflexivity |]. split; [cbn; lia |].
  split.
  - apply (proj1 (stop_after_patience_worse_scores
                    (EarlyStopping.call (EarlyStopping.init 3) 1%float)
                    [2; 1.5; 7]%float eq_refl eq_refl ltac:(cbn; lia) eq_refl)).
    repeat constructor.
  - apply (proj2 (stop_after_patience_worse_scores
                    (EarlyStopping.call (EarlyStopping.init 3) 1%float)
                    [0.5; 0.75; 0]%float eq_refl eq_refl ltac:(cbn; lia) eq_refl)).
    repeat constructor.
Defined.

(** X3: a patience of 1 or less, zero and negative values included, stops
    at the same calls as patience 1, in both policies. *)
Theorem low_patience_is_patience_one (p : Z) (scores : list float) :
  p <= 1 ->
  stop_flags EarlyStopping.call (EarlyStopping.init p) scores
  = stop_flags EarlyStopping.call (EarlyStopping.init 1) scores
  /\ stop_flags EarlyStoppingForUnet.call (EarlyStoppingForUnet.init p) scores
     = stop_flags EarlyStoppingForUnet.call (EarlyStoppingForUnet.init 1) scores.
Proof.
  intros Hp. split.
  - apply (policy_low_patience_flags float_gt EarlyStopping.call
             loss_call_worse loss_call_improve); cbn; try lia.
    + split; cbn; [lia | intros _; lia].
    + repeat split.
  - apply (policy_low_patience_flags float_lt EarlyStoppingForUnet.call
             dice_call_worse dice_call_improve); cbn; try lia.
    + split; cbn; [lia | intros _; lia].
    + repeat split.
Qed.

Lemma low_patience_is_patience_one_witness :
  -3 <= 1
  /\ stop_flags EarlyStopping.call (EarlyStopping.init (-3)) [5; 4; 6; 3]%float
     = stop_flags EarlyStopping.call (EarlyStopping.init 1) [5; 4; 6; 3]%float
  /\ stop_flags EarlyStoppingForUnet.call (EarlyStoppingForUnet.init (-3))
                [5; 4; 6; 3]%float
     = stop_flags EarlyStoppingForUnet.call (EarlyStoppingForUnet.init 1)
                  [5; 4; 6; 3]%float.
Proof.
  split; [lia |].
  apply (low_patience_is_patience_one (-3) [5; 4; 6; 3]%float). lia.
Defined.

(** X4: a NaN score takes the improvement branch of both policies (it
    becomes the best score, the counter returns to 0 and the flag is left as
    it is), and so does whatever score comes next. *)
Theorem nan_score_counts_as_improvement (self : EarlyStoppingState) (s next : float) :
  PrimFloat.eqb s s = false ->
  (EarlyStopping.call self s = set_counter (set_best_score self s) 0
   /\ EarlyStopping.call (EarlyStopping.call self s) next
      = set_counter (set_best_score self next) 0)
  /\ (EarlyStoppingForUnet.call self s = set_counter (set_best_score self s) 0
      /\ EarlyStoppingForUnet.call (EarlyStoppingForUnet.call self s) next
         = set_counter (set_best_score self next) 0).
Proof.
  intros Hnan.
  destruct (nan_not_below s (best_score self) Hnan) as [H1 H2].
  destruct (nan_not_below s next Hnan) as [H3 H4].
  split; split.
  - apply loss_call_improve. exact H2.
  - rewrite (loss_call_improve self s) by exact H2.
    rewrite loss_call_improve by exact H3. reflexivity.
  - apply dice_call_improve. exact H1.
  - rewrite (dice_call_improve self s) by exact H1.
    rewrite dice_call_improve by exact H4. reflexivity.
Qed.

(** A policy one call short of stopping receives NaN and then a worse
    score: it starts counting afresh. *)
Lemma nan_score_counts_as_improvement_witness :
  let self := feed EarlyStopping.call (EarlyStopping.init 2) [1; 2]%float in
  PrimFloat.eqb nan nan = false
  /\ counter self = 1
  /\ (EarlyStopping.call self nan = set_counter (set_best_score self nan) 0
      /\ EarlyStopping.call (EarlyStopping.call self nan) 9%float
         = set_counter (set_best_score self 9%float) 0)
  /\ (EarlyStoppingForUnet.call self nan = set_counter (set_best_score self nan) 0
      /\ EarlyStoppingForUnet.call (EarlyStoppingForUnet.call self nan) 9%float
         = set_counter (set_best_score self 9%float) 0).
Proof.
  cbv zeta. split; [reflexivity |]. split; [reflexivity |].
  exact (nan_score_counts_as_improvement
           (feed EarlyStopping.call (EarlyStopping.init 2) [1; 2]%float)
           nan 9%float eq_refl).
Defined.

(** X5: on a policy fed any scores since its construction the counter is
    never negative, and as long as the flag is unset it is below the patience
    (below 1 for a patience that is not positive). *)
Theorem counter_stays_in_range (p : Z) (scores : list float) :
  (let e := feed EarlyStopping.call (EarlyStopping.init p) scores in
   0 <= counter e /\ (early_stop e = false -> counter e < Z.max p 1))
  /\ (let e := feed EarlyStoppingForUnet.call (EarlyStoppingForUnet.init p) scores in
      0 <= counter e /\ (early_stop e = false -> counter e < Z.max p 1)).
Proof.
  split; cbv zeta.
  - pose proof (policy_counter_feed float_gt EarlyStopping.call loss_call_worse
                  loss_call_improve scores (EarlyStopping.init p)) as H.
    unfold counter_in_range in H.
    rewrite (policy_patience_feed float_gt EarlyStopping.call loss_call_worse
               loss_call_improve) in H.
    apply H. cbn. split; [lia | intros _; lia].
  - pose proof (policy_counter_feed float_lt EarlyStoppingForUnet.call dice_call_worse
                  dice_call_improve scores (EarlyStoppingForUnet.init p)) as H.
    unfold counter_in_range in H.
    rewrite (policy_patience_feed float_lt EarlyStoppingForUnet.call dice_call_worse
               dice_call_improve) in H.
    apply H. cbn. split; [lia | intros _; lia].
Qed.

(** ** The evaluators: what they call and what they restore *)

(** X6: with framework operations that return (the forward pass, the
    criterion and the tensor operations are total in this embedding; a run
    of the program in which one of them raises at some batch stops there and
    is not covered), [evaluate] switches the model to evaluation mode once
    and then runs it exactly once on each batch, in the order of the loader,
    on the input as moved to the device; [evaluate_unet] does the same after
    also moving the model to the device, on the input converted to
    [float32].  These are all the calls of the kinds recorded in the call
    log (calls of the criterion and of tensor operations are not recorded),
    also when the final division raises [ZeroDivisionError] on an empty
    loader. *)
Theorem evaluators_run_each_batch_once {T : Torch}
    (criterion : Tensor -> Tensor -> Tensor) (data_loader : DataLoader)
    (device : Device) (w : World) :
  calls (snd (evaluate criterion data_loader device w))
  = calls w ++ CallEval
      :: map (fun b => CallForward (tensor_to device None (fst b))) data_loader
  /\ calls (snd (evaluate_unet criterion data_loader device w))
     = calls w ++ CallEval :: CallTo device
         :: map (fun b => CallForward (tensor_to device (Some float32) (fst b)))
                data_loader.
Proof.
  split.
  - destruct (evaluate_world criterion data_loader device w) as (r & w' & E & Hc & _).
    rewrite E. exact Hc.
  - destruct (evaluate_unet_world criterion data_loader device w)
      as (r & w' & E & Hc & _).
    rewrite E. exact Hc.
Qed.

(** X7: the gradient mode the caller had is in force again after
    [evaluate] and after [evaluate_unet], whether they return or raise, and
    neither the result nor the rest of the world depends on it: the forward
    passes always run with gradient tracking off. *)
Theorem evaluators_restore_grad_mode {T : Torch}
    (criterion : Tensor -> Tensor -> Tensor) (data_loader : DataLoader)
    (device : Device) (w : World) (g : bool) :
  (grad_enabled (snd (evaluate criterion data_loader device w)) = grad_enabled w
   /\ evaluate criterion data_loader device (set_grad_enabled g w)
      = (fst (evaluate criterion data_loader device w),
         set_grad_enabled g (snd (evaluate criterion data_loader device w))))
  /\ (grad_enabled (snd (evaluate_unet criterion data_loader device w)) = grad_enabled w
      /\ evaluate_unet criterion data_loader device (set_grad_enabled g w)
         = (fst (evaluate_unet criterion data_loader device w),
            set_grad_enabled g (snd (evaluate_unet criterion data_loader device w)))).
Proof.
  split; split.
  - destruct (evaluate_world criterion data_loader device w) as (r & w' & E & _ & Hg).
    rewrite E. exact Hg.
  - unfold evaluate, bind, with_no_grad, model_eval, set_grad_enabled, record_call,
      set_model.
    cbn [model optimizer scheduler grad_enabled calls stdout].
    match goal with
    | |- context [for_each data_loader ?body ?s0 ?wx] =>
        destruct (for_each data_loader body s0 wx) as [[s | e] w1]
    end; [| reflexivity].
    unfold py_div. destruct (len data_loader =? 0); reflexivity.
  - destruct (evaluate_unet_world criterion data_loader device w)
      as (r & w' & E & _ & Hg).
    rewrite E. exact Hg.
  - unfold evaluate_unet, bind, with_no_grad, model_eval, model_to, set_grad_enabled,
      record_call, set_model.
    cbn [model optimizer scheduler grad_enabled calls stdout].
    match goal with
    | |- context [for_each data_loader ?body ?s0 ?wx] =>
        destruct (for_each data_loader body s0 wx) as [[l | e] w1]
    end; [| reflexivity].
    unfold py_div. destruct (len data_loader =? 0); [reflexivity |].
    cbn [ret]. destruct (correct l); [| reflexivity].
    cbn [correct_over_total ret]. destruct (dice l); reflexivity.
Qed.

Section LastBatchFacts.

Context {T : Torch}.

(** [evaluate_unet] on a loader that ends with the batch [(x, y)]: the
    model state [m] is the one reached after the earlier batches. *)
Lemma evaluate_unet_last (criterion : Tensor -> Tensor -> Tensor)
    (front : DataLoader) (x y : Tensor) (device : Device) (w : World) :
  exists loss m w',
    (front = [] -> m = module_to device (module_eval (model w)))
    /\ evaluate_unet criterion (front ++ [(x, y)]) device w
       = (Ok (loss,
              batch_accuracy
                (snd (module_call false m (tensor_to device (Some float32) x)))
                (squeeze 1 (tensor_to device (Some long) y)),
              batch_dice
                (snd (module_call false m (tensor_to device (Some float32) x)))
                (squeeze 1 (tensor_to device (Some long) y))), w').
Proof.
  unfold evaluate_unet. unfold bind at 1. cbn [model_eval].
  set (w0 := record_call CallEval (set_model (module_eval (model w)) w)).
  unfold bind at 1. cbn [model_to].
  set (w1 := record_call (CallTo device) (set_model (module_to device (model w0)) w0)).
  unfold bind at 1. unfold with_no_grad.
  rewrite for_each_app. unfold bind at 1.
  pose (update := fun (b : Tensor * Tensor) (l : UnetLocals) (out : Tensor) =>
                    let y := squeeze 1 (tensor_to device (Some long) (snd b)) in
                    let predictions := argmax out 1 in
                    let intersection :=
                      long_add 0 (tensor_sum (tensor_mul predictions y)) in
                    let denom := long_add 0 (tensor_sum (tensor_add predictions y)) in
                    mkUnetLocals intersection denom (0 + numel predictions)
                      (DiceTensor
                         (f32_div (f32_of_long (long_mul 2 intersection))
                            (f32_add (f32_of_long denom) (f32_of_float 1e-8))))
                      (Some (long_add 0 (tensor_sum (tensor_eq predictions y))))
                      (total_loss l + item (criterion out y))%float).
  rewrite (for_each_ext front (evaluate_unet_body criterion device)
             (fun b l =>
                bind (model_call (tensor_to device (Some float32) (fst b)))
                     (fun out => ret (update b l out)))
             (fun b l w => match b with (x, y) => eq_refl end)).
  match goal with
  | |- context [for_each front ?body ?s0 ?wx] =>
      destruct (forward_loop_world
                  (fun b => tensor_to device (Some float32) (fst b))
                  update front s0 wx) as (l1 & w2 & Hrun & _ & Hg & _)
  end.
  rewrite Hrun. cbn [for_each]. unfold bind at 1. unfold bind at 1.
  unfold evaluate_unet_body at 1. unfold bind at 1. unfold model_call at 1.
  cbn [grad_enabled set_grad_enabled] in Hg. rewrite Hg.
  destruct (module_call false (model w2) (tensor_to device (Some float32) x))
    as [m2 out] eqn:Em.
  cbn [ret]. unfold bind at 1. unfold py_div.
  destruct (Z.eqb_spec (len (front ++ [(x, y)])) 0) as [E0 | _].
  { unfold len in E0. rewrite length_app in E0. cbn [length] in E0. lia. }
  cbn [ret total_loss correct total dice correct_over_total dice_item bind].
  unfold bind. cbn [ret correct_over_total dice_item].
  exists ((total_loss l1
           + item (criterion out (squeeze 1 (tensor_to device (Some long) y))))
          / float_of_len (len (front ++ [(x, y)])))%float, (model w2).
  eexists. split.
  - intros ->. cbn in Hrun. injection Hrun as _ <-. reflexivity.
  - rewrite Em. reflexivity.
Qed.

End LastBatchFacts.


(** X9: when the single batch of the loader has an empty predicted mask and
    an empty target mask (both sums are 0), the Dice coefficient returned by
    [evaluate_unet] is 0: the term 1e-8 keeps the division 0/0 from
    yielding NaN. *)
Theorem dice_of_empty_masks_is_zero {T : Torch}
    (criterion : Tensor -> Tensor -> Tensor)
    (x y : Tensor) (device : Device) (w : World) :
  let y' := squeeze 1 (tensor_to device (Some long) y) in
  let scores :=
    snd (module_call false (module_to device (module_eval (model w)))
           (tensor_to device (Some float32) x)) in
  tensor_sum (tensor_mul (argmax scores 1) y') = 0 ->
  tensor_sum (tensor_add (argmax scores 1) y') = 0 ->
  exists loss accuracy w',
    evaluate_unet criterion [(x, y)] device w = (Ok (loss, accuracy, 0%float), w').
Proof.
  cbv zeta. intros Hi Hd.
  destruct (evaluate_unet_last criterion [] x y device w) as (loss & m & w' & Hm & E).
  rewrite (Hm eq_refl) in E. cbn [app] in E.
  assert (Hdice :
            batch_dice
              (snd (module_call false (module_to device (module_eval (model w)))
                      (tensor_to device (Some float32) x)))
              (squeeze 1 (tensor_to device (Some long) y)) = 0%float).
  { unfold batch_dice. cbv zeta. rewrite Hi, Hd. vm_compute. reflexivity. }
  rewrite Hdice in E.
  exists loss. eexists. exists w'. exact E.
Qed.

(** Three background pixels predicted as background. *)
Lemma dice_of_empty_masks_is_zero_witness :
  @tensor_sum toy
    (@tensor_mul toy (Labels [0; 0; 0]) (Labels [0; 0; 0])) = 0
  /\ @tensor_sum toy
       (@tensor_add toy (Labels [0; 0; 0]) (Labels [0; 0; 0])) = 0
  /\ exists loss accuracy w',
       @evaluate_unet toy (toy_constant_loss 0.5) [toy_batch [0; 0; 0] [0; 0; 0]] tt
         (toy_world None)
       = (Ok (loss, accuracy, 0%float), w').
Proof.
  split; [reflexivity |]. split; [reflexivity |].
  exact (@dice_of_empty_masks_is_zero toy (toy_constant_loss 0.5)
           (Labels [0; 0; 0]) (Labels [0; 0; 0]) tt (toy_world None) eq_refl eq_refl).
Defined.

(** ** The training drivers at the edges of their domain *)

Section DriverEdgeFacts.

Context {T : Torch}.

Lemma range_nonpositive (n : Z) : n <= 0 -> range n = [].
Proof.
  intros H. unfold range. replace (Z.to_nat n) with 0%nat by lia. reflexivity.
Qed.

Lemma range_positive (n : Z) : 1 <= n -> exists rest, range n = 0 :: rest.
Proof.
  intros H. unfold range. destruct (Z.to_nat n) as [| k] eqn:E; [lia |].
  cbn [seq map]. eexists. reflexivity.
Qed.

Lemma raises_first {A B} (m : M A) (f : A -> M B) (e : PyError) (w : World) :
  fst (m w) = Raise e -> fst (bind m f w) = Raise e.
Proof.
  intros H. unfold bind. destruct (m w) as [[a | e'] w1]; cbn [fst] in *;
    [discriminate H | injection H as ->; reflexivity].
Qed.

Lemma raises_after {A B} (m : M A) (f : A -> M B) (e : PyError) :
  returns m (fun _ => True) -> (forall a w, fst (f a w) = Raise e) ->
  forall w, fst (bind m f w) = Raise e.
Proof.
  intros Hm Hf w. destruct (Hm w) as (a & w1 & E & _). unfold bind. rewrite E. apply Hf.
Qed.

Lemma raises_first_iteration {B S} (b : B) (rest : list B)
    (body : B -> S -> M (S * bool)) (s : S) (e : PyError) (w : World) :
  fst (body b s w) = Raise e -> fst (for_each_break (b :: rest) body s w) = Raise e.
Proof. intros H. cbn [for_each_break]. apply raises_first, H. Qed.

Lemma returns_train_batches (criterion : Tensor -> Tensor -> Tensor) (device : Device)
    (train_loader : DataLoader) (s : float) :
  returns (for_each train_loader (train_batch criterion device) s) (fun _ => True).
Proof.
  apply (returns_for_each train_loader _ (fun _ => True)); [| exact I].
  intros b s' _. apply returns_train_batch.
Qed.

Lemma returns_train_unet_batches (criterion : Tensor -> Tensor -> Tensor)
    (device : Device) (train_loader : DataLoader) (a : UnetBatchLocals) :
  returns (for_each train_loader (train_unet_batch criterion device) a) (fun _ => True)
  /\ returns (for_each train_loader (train_unet_with_scheduler_batch criterion device) a)
       (fun _ => True).
Proof.
  split; (apply (returns_for_each train_loader _ (fun _ => True)); [| exact I]);
    intros b s' _; apply returns_train_unet_batch.
Qed.

End DriverEdgeFacts.

(** X10: with [epochs <= 0] the three drivers return empty histories at
    once: no call is made on the model, nothing is printed, the world is as
    it was. *)
Theorem no_epochs_no_effect {T : Torch} (criterion : Tensor -> Tensor -> Tensor)
    (train_loader val_loader : DataLoader) (device : Device)
    (do_early_stopping : bool) (patience_ epochs : Z)
    (log_fn : option (Z -> float -> float -> M unit))
    (log_fn_unet : option (Z -> float -> float -> f32 -> float -> M unit))
    (log_every : Z) (w : World) :
  epochs <= 0 ->
  train criterion train_loader val_loader device do_early_stopping patience_ epochs
        log_fn log_every w = (Ok ([], []), w)
  /\ train_unet criterion train_loader val_loader device do_early_stopping patience_
       epochs log_fn_unet log_every w = (Ok ([], [], []), w)
  /\ train_unet_with_scheduler criterion train_loader val_loader device
       do_early_stopping patience_ epochs log_fn_unet log_every w
     = (Ok ([], [], []), w).
Proof.
  intros H.
  unfold train, train_run, train_unet, train_unet_run, train_unet_with_scheduler,
    train_unet_with_scheduler_run.
  rewrite (range_nonpositive _ H). repeat split.
Qed.

Lemma no_epochs_no_effect_witness :
  -2 <= 0
  /\ @train toy toy_abs_loss two_batches two_batches tt true 5 (-2) (Some print_log) 1
       (toy_world None) = (Ok ([], []), toy_world None)
  /\ @train_unet toy toy_abs_loss two_batches two_batches tt true 5 (-2)
       (Some print_log_unet) 1 (toy_world None) = (Ok ([], [], []), toy_world None)
  /\ @train_unet_with_scheduler toy toy_abs_loss two_batches two_batches tt true 5 (-2)
       (Some print_log_unet) 1 (toy_world None) = (Ok ([], [], []), toy_world None).
Proof.
  split; [lia |].
  apply (@no_epochs_no_effect toy toy_abs_loss two_batches two_batches tt true 5 (-2)
           (Some print_log) (Some print_log_unet) 1 (toy_world None)).
  lia.
Defined.

(** X11: with an epoch to run and a training loader that holds no batch,
    the three drivers raise [ZeroDivisionError] at the division of the
    epoch's training loss, having done nothing but switch the model to
    training mode (a call that returns, as every framework operation does
    here): no evaluation takes place and no history is returned. *)
Theorem empty_train_loader_raises {T : Torch} (criterion : Tensor -> Tensor -> Tensor)
    (val_loader : DataLoader) (device : Device)
    (do_early_stopping : bool) (patience_ epochs : Z)
    (log_fn : option (Z -> float -> float -> M unit))
    (log_fn_unet : option (Z -> float -> float -> f32 -> float -> M unit))
    (log_every : Z) (w : World) :
  1 <= epochs ->
  train criterion [] val_loader device do_early_stopping patience_ epochs
        log_fn log_every w = (Raise ZeroDivisionError, snd (model_train w))
  /\ train_unet criterion [] val_loader device do_early_stopping patience_
       epochs log_fn_unet log_every w = (Raise ZeroDivisionError, snd (model_train w))
  /\ train_unet_with_scheduler criterion [] val_loader device
       do_early_stopping patience_ epochs log_fn_unet log_every w
     = (Raise ZeroDivisionError, snd (model_train w)).
Proof.
  intros H. destruct (range_positive epochs H) as [rest E].
  unfold train, train_run, train_unet, train_unet_run, train_unet_with_scheduler,
    train_unet_with_scheduler_run.
  rewrite E. repeat split.
Qed.

Lemma empty_train_loader_raises_witness :
  1 <= 3
  /\ @train toy toy_abs_loss [] two_batches tt true 5 3 (Some print_log) 1
       (toy_world None)
     = (Raise ZeroDivisionError, snd (@model_train toy (toy_world None)))
  /\ @train_unet toy toy_abs_loss [] two_batches tt true 5 3
       (Some print_log_unet) 1 (toy_world None)
     = (Raise ZeroDivisionError, snd (@model_train toy (toy_world None)))
  /\ @train_unet_with_scheduler toy toy_abs_loss [] two_batches tt true 5 3
       (Some print_log_unet) 1 (toy_world None)
     = (Raise ZeroDivisionError, snd (@model_train toy (toy_world None))).
Proof.
  split; [lia |].
  apply (@empty_train_loader_raises toy toy_abs_loss two_batches tt true 5 3
           (Some print_log) (Some print_log_unet) 1 (toy_world None)).
  lia.
Defined.

(** X12: with an epoch to run, a training loader that holds a batch and a
    validation loader that holds none, the drivers raise
    [ZeroDivisionError] (the framework operations return), but only after the
    first epoch's batch loop has run in full on the training loader: the run
    consists of [model.train()], that batch loop, and the start of the
    evaluation pass ([model.eval()], and [model.to(device)] in the U-Net
    drivers), whose final division raises. *)
Theorem empty_val_loader_raises {T : Torch} (criterion : Tensor -> Tensor -> Tensor)
    (train_loader : DataLoader) (device : Device)
    (do_early_stopping : bool) (patience_ epochs : Z)
    (log_fn : option (Z -> float -> float -> M unit))
    (log_fn_unet : option (Z -> float -> float -> f32 -> float -> M unit))
    (log_every : Z) (w : World) :
  1 <= epochs -> train_loader <> [] ->
  (exists total w1,
     for_each train_loader (train_batch criterion device) 0%float (snd (model_train w))
     = (Ok total, w1)
     /\ train criterion train_loader [] device do_early_stopping patience_ epochs
              log_fn log_every w
        = (Raise ZeroDivisionError, snd (model_eval w1)))
  /\ (exists a w1,
        for_each train_loader (train_unet_batch criterion device)
          (mkUnetBatchLocals 0%float 0 0) (snd (model_train w)) = (Ok a, w1)
        /\ train_unet criterion train_loader [] device do_early_stopping patience_
             epochs log_fn_unet log_every w
           = (Raise ZeroDivisionError, snd (model_to device (snd (model_eval w1)))))
  /\ (exists a w1,
        for_each train_loader (train_unet_with_scheduler_batch criterion device)
          (mkUnetBatchLocals 0%float 0 0) (snd (model_train w)) = (Ok a, w1)
        /\ train_unet_with_scheduler criterion train_loader [] device
             do_early_stopping patience_ epochs log_fn_unet log_every w
           = (Raise ZeroDivisionError, snd (model_to device (snd (model_eval w1))))).
Proof.
  intros He Ht. destruct (range_positive epochs He) as [rest Er].
  pose proof (len_nonempty train_loader Ht) as Hlen.
  split; [| split].
  - destruct (returns_train_batches criterion device train_loader 0%float
                (snd (model_train w))) as (total & w1 & E & _).
    exists total, w1. split; [exact E |].
    unfold train, train_run. rewrite Er. cbn [for_each_break].
    unfold train_epoch. unfold bind at 1. unfold bind at 1. unfold bind at 1.
    change (model_train w) with (Ok tt, snd (model_train w)). cbv iota beta.
    unfold bind at 1. rewrite E. unfold bind at 1. unfold py_div at 1.
    destruct (Z.eqb_spec (len train_loader) 0) as [E0 | _]; [contradiction |].
    cbn [ret]. unfold bind at 1. reflexivity.
  - destruct (proj1 (returns_train_unet_batches criterion device train_loader
                       (mkUnetBatchLocals 0%float 0 0)) (snd (model_train w)))
      as (a & w1 & E & _).
    exists a, w1. split; [exact E |].
    unfold train_unet, train_unet_run. rewrite Er. cbn [for_each_break].
    unfold train_unet_epoch. unfold bind at 1. unfold bind at 1. unfold bind at 1.
    change (model_train w) with (Ok tt, snd (model_train w)). cbv iota beta.
    unfold bind at 1. rewrite E. unfold train_unet_epoch_end.
    unfold bind at 1. unfold py_div at 1.
    destruct (Z.eqb_spec (len train_loader) 0) as [E0 | _]; [contradiction |].
    cbn [ret]. unfold bind at 1. reflexivity.
  - destruct (proj2 (returns_train_unet_batches criterion device train_loader
                       (mkUnetBatchLocals 0%float 0 0)) (snd (model_train w)))
      as (a & w1 & E & _).
    exists a, w1. split; [exact E |].
    unfold train_unet_with_scheduler, train_unet_with_scheduler_run.
    rewrite Er. cbn [for_each_break].
    unfold train_unet_with_scheduler_epoch.
    unfold bind at 1. unfold bind at 1. unfold bind at 1.
    change (model_train w) with (Ok tt, snd (model_train w)). cbv iota beta.
    unfold bind at 1. rewrite E. unfold train_unet_epoch_end.
    unfold bind at 1. unfold py_div at 1.
    destruct (Z.eqb_spec (len train_loader) 0) as [E0 | _]; [contradiction |].
    cbn [ret]. unfold bind at 1. reflexivity.
Qed.

(** Two training batches and no validation batch on the concrete
    framework: the model's parameter has moved from 0 to -2 when the error is
    raised. *)
Lemma empty_val_loader_raises_witness :
  1 <= 3 /\ two_batches <> []
  /\ toy_parameters
       (model (snd (@train toy toy_abs_loss two_batches [] tt true 5 3
                      (Some print_log) 1 (toy_world None)))) = -2
  /\ (exists total w1,
        @for_each toy _ _ two_batches (@train_batch toy toy_abs_loss tt) 0%float
          (snd (@model_train toy (toy_world None))) = (Ok total, w1)
        /\ @train toy toy_abs_loss two_batches [] tt true 5 3 (Some print_log) 1
             (toy_world None)
           = (Raise ZeroDivisionError, snd (@model_eval toy w1)))
  /\ (exists a w1,
        @for_each toy _ _ two_batches (@train_unet_batch toy toy_abs_loss tt)
          (mkUnetBatchLocals 0%float 0 0) (snd (@model_train toy (toy_world None)))
        = (Ok a, w1)
        /\ @train_unet toy toy_abs_loss two_batches [] tt true 5 3
             (Some print_log_unet) 1 (toy_world None)
           = (Raise ZeroDivisionError,
              snd (@model_to toy tt (snd (@model_eval toy w1)))))
  /\ (exists a w1,
        @for_each toy _ _ two_batches
          (@train_unet_with_scheduler_batch toy toy_abs_loss tt)
          (mkUnetBatchLocals 0%float 0 0) (snd (@model_train toy (toy_world None)))
        = (Ok a, w1)
        /\ @train_unet_with_scheduler toy toy_abs_loss two_batches [] tt true 5 3
             (Some print_log_unet) 1 (toy_world None)
           = (Raise ZeroDivisionError,
              snd (@model_to toy tt (snd (@model_eval toy w1))))).
Proof.
  split; [lia |]. split; [discriminate |]. split; [vm_compute; reflexivity |].
  apply (@empty_val_loader_raises toy toy_abs_loss two_batches tt true 5 3
           (Some print_log) (Some print_log_unet) 1 (toy_world None));
    [lia | discriminate].
Defined.

Section LogIntervalFacts.

Context {T : Torch}.

Lemma train_epoch_zero_interval (criterion : Tensor -> Tensor -> Tensor)
    (train_loader val_loader : DataLoader) (device : Device)
    (do_early_stopping : bool) (f : Z -> float -> float -> M unit)
    (e : Z) (l : TrainLocals) :
  train_loader <> [] -> val_loader <> [] ->
  forall w,
    fst (train_epoch criterion train_loader val_loader device do_early_stopping
           (Some f) 0 e l w) = Raise ZeroDivisionError.
Proof.
  intros Ht Hv. unfold train_epoch.
  apply raises_after; [apply returns_model_train | intros _].
  apply raises_after; [apply returns_train_batches | intros total].
  apply raises_after; [apply returns_py_div, len_nonempty, Ht | intros tl].
  apply raises_after; [apply returns_evaluate, Hv | intros vl].
  intros w. apply raises_first, raises_first. reflexivity.
Qed.

Lemma train_unet_epoch_end_zero_interval (criterion : Tensor -> Tensor -> Tensor)
    (train_loader val_loader : DataLoader) (device : Device)
    (do_early_stopping : bool) (f : Z -> float -> float -> f32 -> float -> M unit)
    (e : Z) (l : UnetTrainLocals) (a : UnetBatchLocals) :
  train_loader <> [] -> val_loader <> [] ->
  forall w,
    fst (train_unet_epoch_end criterion train_loader val_loader device
           do_early_stopping (Some f) 0 e l a w) = Raise ZeroDivisionError.
Proof.
  intros Ht Hv. unfold train_unet_epoch_end.
  apply raises_after; [apply returns_py_div, len_nonempty, Ht | intros tl].
  apply raises_after; [apply returns_evaluate_unet, Hv | intros [[vl acc] d]].
  apply raises_after.
  { destruct do_early_stopping; [| apply returns_ret, I].
    destruct (EarlyStoppingForUnet.call_print (u_early_stopping l) d) as [es out].
    eapply returns_bind; [apply returns_print | intros _ _]. apply returns_ret, I. }
  intros es w. apply raises_first, raises_first. reflexivity.
Qed.

End LogIntervalFacts.

(** X13: with a logging callback and [log_every = 0], every run with an
    epoch to do on loaders that hold a batch raises [ZeroDivisionError] (the
    framework operations return), from [(epoch + 1) % log_every] at the end
    of the first epoch, whatever the callback is; no history is returned. *)
Theorem zero_log_interval_raises {T : Torch} (criterion : Tensor -> Tensor -> Tensor)
    (train_loader val_loader : DataLoader) (device : Device)
    (do_early_stopping : bool) (patience_ epochs : Z)
    (f : Z -> float -> float -> M unit)
    (f_unet : Z -> float -> float -> f32 -> float -> M unit) (w : World) :
  1 <= epochs -> train_loader <> [] -> val_loader <> [] ->
  fst (train criterion train_loader val_loader device do_early_stopping patience_
             epochs (Some f) 0 w) = Raise ZeroDivisionError
  /\ fst (train_unet criterion train_loader val_loader device do_early_stopping
            patience_ epochs (Some f_unet) 0 w) = Raise ZeroDivisionError
  /\ fst (train_unet_with_scheduler criterion train_loader val_loader device
            do_early_stopping patience_ epochs (Some f_unet) 0 w)
     = Raise ZeroDivisionError.
Proof.
  intros He Ht Hv. destruct (range_positive epochs He) as [rest Er].
  split; [| split].
  - unfold train. apply raises_first. unfold train_run. rewrite Er.
    apply raises_first_iteration, train_epoch_zero_interval; assumption.
  - unfold train_unet. apply raises_first. unfold train_unet_run. rewrite Er.
    apply raises_first_iteration. unfold train_unet_epoch. revert w.
    apply raises_after; [apply returns_model_train | intros _].
    apply raises_after; [apply returns_train_unet_batches | intros a].
    apply train_unet_epoch_end_zero_interval; assumption.
  - unfold train_unet_with_scheduler. apply raises_first.
    unfold train_unet_with_scheduler_run. rewrite Er.
    apply raises_first_iteration. unfold train_unet_with_scheduler_epoch. revert w.
    apply raises_after; [apply returns_model_train | intros _].
    apply raises_after; [apply returns_train_unet_batches | intros a].
    apply train_unet_epoch_end_zero_interval; assumption.
Qed.

Lemma zero_log_interval_raises_witness :
  1 <= 3 /\ two_batches <> []
  /\ fst (@train toy toy_abs_loss two_batches two_batches tt true 5 3
            (Some print_log) 0 (toy_world None)) = Raise ZeroDivisionError
  /\ fst (@train_unet toy toy_abs_loss two_batches two_batches tt true 5 3
            (Some print_log_unet) 0 (toy_world None)) = Raise ZeroDivisionError
  /\ fst (@train_unet_with_scheduler toy toy_abs_loss two_batches two_batches tt
            true 5 3 (Some print_log_unet) 0 (toy_world None))
     = Raise ZeroDivisionError.
Proof.
  split; [lia |]. split; [discriminate |].
  apply (@zero_log_interval_raises toy toy_abs_loss two_batches two_batches tt true 5 3
           print_log print_log_unet (toy_world None)); [lia | discriminate | discriminate].
Defined.

(** ** Early stopping inside the training drivers *)

Section FlagFacts.

Variable worse : float -> float -> bool.
Variable call : EarlyStoppingState -> float -> EarlyStoppingState.

Hypothesis call_worse :
  forall self s, worse s (best_score self) = true ->
    call self s
    = if counter self + 1 >=? patience self
      then set_early_stop (set_counter self (counter self + 1)) true
      else set_counter self (counter self + 1).

Hypothesis call_improve :
  forall self s, worse s (best_score self) = false ->
    call self s = set_counter (set_best_score self s) 0.

(** After [n] calls the counter is at most [n], and the flag can only be
    set once [n] has reached the patience (and 1). *)
Lemma policy_flag_step (n : Z) (self : EarlyStoppingState) (s : float) :
  0 <= n ->
  counter self <= n /\ (early_stop self = true -> Z.max (patience self) 1 <= n) ->
  counter (call self s) <= n + 1
  /\ (early_stop (call self s) = true -> Z.max (patience (call self s)) 1 <= n + 1).
Proof.
  intros Hn [Hc Hf].
  destruct (worse s (best_score self)) eqn:E.
  - rewrite call_worse by exact E.
    destruct (Z.geb_spec (counter self + 1) (patience self)) as [Hge | Hlt]; cbn.
    + split; [lia | intros _; lia].
    + split; [lia | intros H; specialize (Hf H); lia].
  - rewrite call_improve by exact E. cbn.
    split; [lia | intros H; specialize (Hf H); lia].
Qed.

Lemma policy_flag_feed (scores : list float) (n : Z) (self : EarlyStoppingState) :
  0 <= n ->
  counter self <= n /\ (early_stop self = true -> Z.max (patience self) 1 <= n) ->
  early_stop (feed call self scores) = true ->
  Z.max (patience self) 1 <= n + len scores.
Proof.
  revert n self. unfold feed, len.
  induction scores as [| s rest IH]; intros n self Hn HJ Hflag; cbn [fold_left length] in *.
  - destruct HJ as [_ Hf]. specialize (Hf Hflag). lia.
  - pose proof (policy_flag_step n self s Hn HJ) as HJ'.
    specialize (IH (n + 1) (call self s) ltac:(lia) HJ' Hflag).
    rewrite (policy_patience_kept worse call call_worse call_improve) in IH. lia.
Qed.

End FlagFacts.

Section DriverPolicyFacts.

Context {T : Torch}.

Lemma feed_app (call : EarlyStoppingState -> float -> EarlyStoppingState)
    (self : EarlyStoppingState) (l : list float) (x : float) :
  feed call self (l ++ [x]) = call (feed call self l) x.
Proof. unfold feed. rewrite fold_left_app. reflexivity. Qed.

Lemma stop_flags_app (call : EarlyStoppingState -> float -> EarlyStoppingState)
    (self : EarlyStoppingState) (l : list float) (x : float) :
  stop_flags call self (l ++ [x])
  = stop_flags call self l ++ [early_stop (feed call self (l ++ [x]))].
Proof.
  revert self. induction l as [| y l IH]; intros self; cbn [app stop_flags].
  - reflexivity.
  - rewrite IH. reflexivity.
Qed.

(** The first score of the loss policy is an improvement, so its flag needs
    one call more than that of the Dice policy. *)
Lemma loss_flag_needs_calls (p : Z) (scores : list float) :
  early_stop (feed EarlyStopping.call (EarlyStopping.init p) scores) = true ->
  Z.max p 1 + 1 <= len scores.
Proof.
  destruct scores as [| s rest]; intros H; [discriminate H |].
  unfold feed in H. cbn [fold_left] in H.
  rewrite (loss_call_improve (EarlyStopping.init p) s) in H
    by apply nothing_above_infinity.
  pose proof (policy_flag_feed float_gt EarlyStopping.call loss_call_worse
                loss_call_improve rest 0
                (set_counter (set_best_score (EarlyStopping.init p) s) 0)
                ltac:(lia)) as HF.
  cbn [counter patience early_stop set_counter set_best_score EarlyStopping.init] in HF.
  assert (HJ : 0 <= 0 /\ (false = true -> Z.max p 1 <= 0))
    by (split; [lia | discriminate]).
  specialize (HF HJ H).
  unfold len in *. cbn [length]. lia.
Qed.

Lemma dice_flag_needs_calls (p : Z) (scores : list float) :
  early_stop (feed EarlyStoppingForUnet.call (EarlyStoppingForUnet.init p) scores) = true ->
  Z.max p 1 <= len scores.
Proof.
  intros H.
  pose proof (policy_flag_feed float_lt EarlyStoppingForUnet.call dice_call_worse
                dice_call_improve scores 0 (EarlyStoppingForUnet.init p)
                ltac:(lia)) as HF.
  cbn [counter patience early_stop EarlyStoppingForUnet.init] in HF.
  assert (HJ : 0 <= 0 /\ (false = true -> Z.max p 1 <= 0))
    by (split; [lia | discriminate]).
  specialize (HF HJ H). lia.
Qed.

(** A loop over [range(epochs)] each of whose iterations appends one score,
    feeds it to the policy and breaks when the flag is set. *)
Lemma run_policy {S} (body : Z -> S -> M (S * bool)) (scores : S -> list float)
    (policy : S -> EarlyStoppingState)
    (call : EarlyStoppingState -> float -> EarlyStoppingState) :
  (forall e s s' b w w',
     body e s w = (Ok (s', b), w') ->
     exists v, scores s' = scores s ++ [v]
               /\ policy s' = call (policy s) v
               /\ b = early_stop (policy s')) ->
  forall epochs s0 s w w',
    scores s0 = [] ->
    for_each_break (range epochs) body s0 w = (Ok s, w') ->
    policy s = feed call (policy s0) (scores s)
    /\ ((stop_flags call (policy s0) (scores s) = repeat false (length (scores s))
         /\ len (scores s) = Z.max epochs 0)
        \/ (stop_flags call (policy s0) (scores s)
            = repeat false (length (scores s) - 1) ++ [true]
            /\ early_stop (policy s) = true
            /\ 1 <= len (scores s) <= epochs)).
Proof.
  intros Hbody epochs s0 s w w' H0 Hrun. unfold range in Hrun.
  pose (P := fun (k : nat) (s : S) =>
               length (scores s) = k
               /\ policy s = feed call (policy s0) (scores s)
               /\ stop_flags call (policy s0) (scores s) = repeat false k).
  pose (Q := fun (k : nat) (s : S) =>
               length (scores s) = Datatypes.S k
               /\ policy s = feed call (policy s0) (scores s)
               /\ stop_flags call (policy s0) (scores s) = repeat false k ++ [true]
               /\ early_stop (policy s) = true).
  assert (Hstep : forall k s1 w1 s2 b w2,
             P k s1 -> body (Z.of_nat k) s1 w1 = (Ok (s2, b), w2) ->
             if b then Q k s2 else P (Datatypes.S k) s2).
  { intros k s1 w1 s2 b w2 (Hl & Hp & Hf) E.
    destruct (Hbody _ _ _ _ _ _ E) as (v & Hs & Hp2 & Hb).
    assert (Hp' : policy s2 = feed call (policy s0) (scores s2)).
    { rewrite Hs, feed_app, <- Hp. exact Hp2. }
    assert (Hf' : stop_flags call (policy s0) (scores s2)
                  = repeat false k ++ [early_stop (policy s2)]).
    { rewrite Hp'. rewrite Hs at 1. rewrite stop_flags_app, Hf, <- Hs. reflexivity. }
    assert (Hl' : length (scores s2) = Datatypes.S k).
    { rewrite Hs, length_app, Hl. cbn [length]. lia. }
    destruct b; unfold P, Q.
    - rewrite Hf', <- Hb. repeat split; auto.
    - rewrite Hf', <- Hb. split; [exact Hl' |]. split; [exact Hp' |].
      symmetry. apply (repeat_cons k false). }
  assert (HP0 : P 0%nat s0).
  { unfold P. rewrite H0. repeat split. }
  destruct (for_each_break_seq _ P Q Hstep _ _ _ _ _ _ HP0 Hrun)
    as [(Hl & Hp & Hf) | (k & Hk & Hl & Hp & Hf & He)]; cbn [Nat.add] in *.
  - split; [exact Hp |]. left. rewrite Hl. split; [exact Hf |]. unfold len. lia.
  - split; [exact Hp |]. right. rewrite Hl.
    replace (Datatypes.S k - 1)%nat with k by lia.
    split; [exact Hf |]. split; [exact He |]. unfold len. lia.
Qed.

End DriverPolicyFacts.

Section DriverPolicyRuns.

Context {T : Torch}.

(** What an epoch of [train] does to the validation history and to the
    policy when it completes. *)
Lemma train_epoch_policy (criterion : Tensor -> Tensor -> Tensor)
    (train_loader val_loader : DataLoader) (device : Device)
    (do_early_stopping : bool)
    (log_fn : option (Z -> float -> float -> M unit)) (log_every : Z)
    (epoch_ : Z) (l l' : TrainLocals) (b : bool) (w w' : World) :
  train_epoch criterion train_loader val_loader device do_early_stopping
              log_fn log_every epoch_ l w = (Ok (l', b), w') ->
  exists v,
    epoch_val_errors l' = epoch_val_errors l ++ [v]
    /\ early_stopping l'
       = (if do_early_stopping then EarlyStopping.call (early_stopping l) v
          else early_stopping l)
    /\ b = do_early_stopping && early_stop (early_stopping l').
Proof.
  intros H. unfold train_epoch in H.
  bind_inv H. bind_inv H. bind_inv H. bind_inv H. bind_inv H.
  match type of H with
  | (if ?c then _ else _) _ = _ => destruct c eqn:Hc
  end.
  - bind_inv H. cbn in H. injection H as <- <- <-. cbn.
    eexists. repeat split; eauto.
  - cbn in H. injection H as <- <- <-. cbn.
    eexists. repeat split; eauto.
Qed.

Lemma train_unet_epoch_end_policy (criterion : Tensor -> Tensor -> Tensor)
    (train_loader val_loader : DataLoader) (device : Device)
    (do_early_stopping : bool)
    (log_fn : option (Z -> float -> float -> f32 -> float -> M unit))
    (log_every : Z) (epoch_ : Z) (l l' : UnetTrainLocals) (a : UnetBatchLocals)
    (b : bool) (w w' : World) :
  train_unet_epoch_end criterion train_loader val_loader device do_early_stopping
                       log_fn log_every epoch_ l a w = (Ok (l', b), w') ->
  exists v,
    u_epoch_dice_values l' = u_epoch_dice_values l ++ [v]
    /\ u_early_stopping l'
       = (if do_early_stopping then EarlyStoppingForUnet.call (u_early_stopping l) v
          else u_early_stopping l)
    /\ b = do_early_stopping && early_stop (u_early_stopping l').
Proof.
  intros H. unfold train_unet_epoch_end in H.
  bind_inv H. bind_inv H. destruct a1 as [[val_loss accuracy] dice_].
  bind_inv H.
  assert (Hes : a1 = if do_early_stopping
                     then EarlyStoppingForUnet.call (u_early_stopping l) dice_
                     else u_early_stopping l).
  { destruct do_early_stopping.
    - unfold EarlyStoppingForUnet.call.
      destruct (EarlyStoppingForUnet.call_print (u_early_stopping l) dice_) as [es out].
      unfold bind, print, ret in E1. injection E1 as <- _. reflexivity.
    - unfold ret in E1. injection E1 as <- _. reflexivity. }
  bind_inv H.
  match type of H with
  | (if ?c then _ else _) _ = _ => destruct c eqn:Hc
  end.
  - bind_inv H. cbn in H. injection H as <- <- <-. cbn.
    exists dice_. rewrite <- Hes. repeat split; auto.
  - cbn in H. injection H as <- <- <-. cbn.
    exists dice_. rewrite <- Hes. repeat split; auto.
Qed.

Lemma train_unet_epoch_policy (criterion : Tensor -> Tensor -> Tensor)
    (train_loader val_loader : DataLoader) (device : Device)
    (do_early_stopping : bool)
    (log_fn : option (Z -> float -> float -> f32 -> float -> M unit))
    (log_every : Z) (epoch_ : Z) (l l' : UnetTrainLocals)
    (b : bool) (w w' : World) :
  train_unet_epoch criterion train_loader val_loader device do_early_stopping
                   log_fn log_every epoch_ l w = (Ok (l', b), w')
  \/ train_unet_with_scheduler_epoch criterion train_loader val_loader device
       do_early_stopping log_fn log_every epoch_ l w = (Ok (l', b), w') ->
  exists v,
    u_epoch_dice_values l' = u_epoch_dice_values l ++ [v]
    /\ u_early_stopping l'
       = (if do_early_stopping then EarlyStoppingForUnet.call (u_early_stopping l) v
          else u_early_stopping l)
    /\ b = do_early_stopping && early_stop (u_early_stopping l').
Proof.
  intros [H | H].
  - unfold train_unet_epoch in H. bind_inv H. bind_inv H.
    eapply train_unet_epoch_end_policy, H.
  - unfold train_unet_with_scheduler_epoch in H. bind_inv H. bind_inv H.
    eapply train_unet_epoch_end_policy, H.
Qed.

(** [train] with early stopping: the policy has been fed the validation
    history, and the loop was left at the first flag. *)
Lemma train_run_policy (criterion : Tensor -> Tensor -> Tensor)
    (train_loader val_loader : DataLoader) (device : Device)
    (patience_ epochs : Z)
    (log_fn : option (Z -> float -> float -> M unit)) (log_every : Z)
    (l : TrainLocals) (w w' : World) :
  train_run criterion train_loader val_loader device true patience_ epochs
            log_fn log_every w = (Ok l, w') ->
  early_stopping l
  = feed EarlyStopping.call (EarlyStopping.init patience_) (epoch_val_errors l)
  /\ ((stop_flags EarlyStopping.call (EarlyStopping.init patience_) (epoch_val_errors l)
       = repeat false (length (epoch_val_errors l))
       /\ len (epoch_val_errors l) = Z.max epochs 0)
      \/ (stop_flags EarlyStopping.call (EarlyStopping.init patience_)
                     (epoch_val_errors l)
          = repeat false (length (epoch_val_errors l) - 1) ++ [true]
          /\ early_stop (early_stopping l) = true
          /\ 1 <= len (epoch_val_errors l) <= epochs)).
Proof.
  intros Hrun. unfold train_run in Hrun.
  apply (run_policy _ epoch_val_errors early_stopping EarlyStopping.call)
    with (3 := Hrun); [| reflexivity].
  intros e s s' b w0 w1 Hstep.
  destruct (train_epoch_policy _ _ _ _ _ _ _ _ _ _ _ _ _ Hstep) as (v & H1 & H2 & H3).
  exists v. repeat split; assumption.
Qed.

Lemma unet_run_policy (body : Z -> UnetTrainLocals -> M (UnetTrainLocals * bool))
    (patience_ epochs : Z) (l : UnetTrainLocals) (w w' : World) :
  (forall e s s' b w0 w1,
     body e s w0 = (Ok (s', b), w1) ->
     exists v,
       u_epoch_dice_values s' = u_epoch_dice_values s ++ [v]
       /\ u_early_stopping s' = EarlyStoppingForUnet.call (u_early_stopping s) v
       /\ b = early_stop (u_early_stopping s')) ->
  for_each_break (range epochs) body (unet_locals_init patience_) w = (Ok l, w') ->
  u_early_stopping l
  = feed EarlyStoppingForUnet.call (EarlyStoppingForUnet.init patience_)
         (u_epoch_dice_values l)
  /\ ((stop_flags EarlyStoppingForUnet.call (EarlyStoppingForUnet.init patience_)
                  (u_epoch_dice_values l)
       = repeat false (length (u_epoch_dice_values l))
       /\ len (u_epoch_dice_values l) = Z.max epochs 0)
      \/ (stop_flags EarlyStoppingForUnet.call (EarlyStoppingForUnet.init patience_)
                     (u_epoch_dice_values l)
          = repeat false (length (u_epoch_dice_values l) - 1) ++ [true]
          /\ early_stop (u_early_stopping l) = true
          /\ 1 <= len (u_epoch_dice_values l) <= epochs)).
Proof.
  intros Hbody Hrun.
  apply (run_policy _ u_epoch_dice_values u_early_stopping EarlyStoppingForUnet.call
           Hbody epochs (unet_locals_init patience_) l w w' eq_refl Hrun).
Qed.

End DriverPolicyRuns.

(** X14: with early stopping on, the history a run returns shows that the
    loop was left at the first epoch whose call set the flag.  Feeding a
    fresh policy the returned validation losses ([train]) or Dice values (the
    U-Net drivers) one call at a time, either no call sets the flag and all
    the epochs were run, or the flag is set by the call of the last recorded
    epoch and by none before. *)
Theorem training_stops_at_first_flag {T : Torch}
    (criterion : Tensor -> Tensor -> Tensor)
    (train_loader val_loader : DataLoader) (device : Device)
    (patience_ epochs : Z)
    (log_fn : option (Z -> float -> float -> M unit))
    (log_fn_unet : option (Z -> float -> float -> f32 -> float -> M unit))
    (log_every : Z) (w : World) :
  (forall tr va w',
     train criterion train_loader val_loader device true patience_ epochs
           log_fn log_every w = (Ok (tr, va), w') ->
     (stop_flags EarlyStopping.call (EarlyStopping.init patience_) va
      = repeat false (length va)
      /\ len va = Z.max epochs 0)
     \/ (stop_flags EarlyStopping.call (EarlyStopping.init patience_) va
         = repeat false (length va - 1) ++ [true]
         /\ 1 <= len va <= epochs))
  /\ (forall tr va dv w',
        train_unet criterion train_loader val_loader device true patience_ epochs
                   log_fn_unet log_every w = (Ok (tr, va, dv), w') ->
        (stop_flags EarlyStoppingForUnet.call (EarlyStoppingForUnet.init patience_) dv
         = repeat false (length dv)
         /\ len dv = Z.max epochs 0)
        \/ (stop_flags EarlyStoppingForUnet.call (EarlyStoppingForUnet.init patience_) dv
            = repeat false (length dv - 1) ++ [true]
            /\ 1 <= len dv <= epochs))
  /\ (forall tr va dv w',
        train_unet_with_scheduler criterion train_loader val_loader device true
          patience_ epochs log_fn_unet log_every w = (Ok (tr, va, dv), w') ->
        (stop_flags EarlyStoppingForUnet.call (EarlyStoppingForUnet.init patience_) dv
         = repeat false (length dv)
         /\ len dv = Z.max epochs 0)
        \/ (stop_flags EarlyStoppingForUnet.call (EarlyStoppingForUnet.init patience_) dv
            = repeat false (length dv - 1) ++ [true]
            /\ 1 <= len dv <= epochs)).
Proof.
  split; [| split].
  - intros tr va w' H. unfold train in H. bind_inv H.
    cbn in H. injection H as <- <- <-.
    destruct (train_run_policy _ _ _ _ _ _ _ _ _ _ _ E) as [_ [[H1 H2] | (H1 & _ & H2)]];
      [left | right]; split; assumption.
  - intros tr va dv w' H. unfold train_unet in H. bind_inv H.
    cbn in H. injection H as <- <- <- <-. unfold train_unet_run in E.
    destruct (unet_run_policy _ patience_ epochs _ _ _
                (fun e s s' b w0 w1 Hstep =>
                   train_unet_epoch_policy criterion train_loader val_loader device
                     true log_fn_unet log_every e s s' b w0 w1 (or_introl Hstep)) E)
      as [_ [[H1 H2] | (H1 & _ & H2)]]; [left | right]; split; assumption.
  - intros tr va dv w' H. unfold train_unet_with_scheduler in H. bind_inv H.
    cbn in H. injection H as <- <- <- <-. unfold train_unet_with_scheduler_run in E.
    destruct (unet_run_policy _ patience_ epochs _ _ _
                (fun e s s' b w0 w1 Hstep =>
                   train_unet_epoch_policy criterion train_loader val_loader device
                     true log_fn_unet log_every e s s' b w0 w1 (or_intror Hstep)) E)
      as [_ [[H1 H2] | (H1 & _ & H2)]]; [left | right]; split; assumption.
Qed.

(** Runs on the concrete framework with patience 1 and five epochs: the
    validation loss grows in the second epoch and the validation Dice drops,
    so both runs end there. *)
Lemma training_stops_at_first_flag_witness :
  let run :=
    @train toy toy_abs_loss [toy_batch [0] [0]] [toy_batch [0] [0]] tt true 1 5
      (Some print_log) 1 (toy_world None) in
  let run_unet :=
    @train_unet toy toy_abs_loss [toy_batch [2] [1]] [toy_batch [2; 2] [1; 1]] tt
      true 1 5 (Some print_log_unet) 1 (toy_world None) in
  fst run = Ok ([0; 1]%float, [1; 2]%float)
  /\ fst run_unet = Ok ([1; 0]%float, [0; 2]%float, [1; 0]%float)
  /\ stop_flags EarlyStopping.call (EarlyStopping.init 1) [1; 2]%float = [false; true]
  /\ stop_flags EarlyStoppingForUnet.call (EarlyStoppingForUnet.init 1) [1; 0]%float
     = [false; true]
  /\ ((stop_flags EarlyStopping.call (EarlyStopping.init 1) [1; 2]%float
       = repeat false (length [1; 2]%float)
       /\ len [1; 2]%float = Z.max 5 0)
      \/ (stop_flags EarlyStopping.call (EarlyStopping.init 1) [1; 2]%float
          = repeat false (length [1; 2]%float - 1) ++ [true]
          /\ 1 <= len [1; 2]%float <= 5))
  /\ ((stop_flags EarlyStoppingForUnet.call (EarlyStoppingForUnet.init 1) [1; 0]%float
       = repeat false (length [1; 0]%float)
       /\ len [1; 0]%float = Z.max 5 0)
      \/ (stop_flags EarlyStoppingForUnet.call (EarlyStoppingForUnet.init 1) [1; 0]%float
          = repeat false (length [1; 0]%float - 1) ++ [true]
          /\ 1 <= len [1; 0]%float <= 5)).
Proof.
  cbv zeta.
  split; [vm_compute; reflexivity |]. split; [vm_compute; reflexivity |].
  split; [vm_compute; reflexivity |]. split; [vm_compute; reflexivity |].
  split.
  - apply (proj1 (@training_stops_at_first_flag toy toy_abs_loss [toy_batch [0] [0]]
                    [toy_batch [0] [0]] tt 1 5 (Some print_log) (Some print_log_unet) 1
                    (toy_world None))
             [0; 1]%float [1; 2]%float
             (snd (@train toy toy_abs_loss [toy_batch [0] [0]] [toy_batch [0] [0]] tt
                     true 1 5 (Some print_log) 1 (toy_world None)))).
    vm_compute. reflexivity.
  - apply (proj1 (proj2 (@training_stops_at_first_flag toy toy_abs_loss
                           [toy_batch [2] [1]] [toy_batch [2; 2] [1; 1]] tt 1 5
                           (Some print_log) (Some print_log_unet) 1 (toy_world None)))
             [1; 0]%float [0; 2]%float [1; 0]%float
             (snd (@train_unet toy toy_abs_loss [toy_batch [2] [1]]
                     [toy_batch [2; 2] [1; 1]] tt true 1 5 (Some print_log_unet) 1
                     (toy_world None)))).
    vm_compute. reflexivity.
Defined.

(** X15: early stopping never ends a run before the patience has had time
    to run out.  A run of [train] that returns has recorded at least
    [max(patience, 1) + 1] epochs, or all [epochs] of them if that is less
    (the first validation loss always counts as an improvement); a run of
    the U-Net drivers has recorded at least [max(patience, 1)] epochs, or all
    of them. *)
Theorem early_stopping_waits_for_patience {T : Torch}
    (criterion : Tensor -> Tensor -> Tensor)
    (train_loader val_loader : DataLoader) (device : Device)
    (do_early_stopping : bool) (patience_ epochs : Z)
    (log_fn : option (Z -> float -> float -> M unit))
    (log_fn_unet : option (Z -> float -> float -> f32 -> float -> M unit))
    (log_every : Z) (w : World) :
  (forall tr va w',
     train criterion train_loader val_loader device do_early_stopping patience_ epochs
           log_fn log_every w = (Ok (tr, va), w') ->
     Z.min epochs (Z.max patience_ 1 + 1) <= len tr)
  /\ (forall tr va dv w',
        train_unet criterion train_loader val_loader device do_early_stopping
          patience_ epochs log_fn_unet log_every w = (Ok (tr, va, dv), w') ->
        Z.min epochs (Z.max patience_ 1) <= len tr)
  /\ (forall tr va dv w',
        train_unet_with_scheduler criterion train_loader val_loader device
          do_early_stopping patience_ epochs log_fn_unet log_every w
        = (Ok (tr, va, dv), w') ->
        Z.min epochs (Z.max patience_ 1) <= len tr).
Proof.
  assert (Hneg : forall (l : list float), epochs < 0 -> forall b, Z.min epochs b <= len l).
  { intros l H b. unfold len. lia. }
  split; [| split].
  - intros tr va w' H.
    destruct (Z.ltb_spec epochs 0) as [Hlt | Hge]; [apply Hneg, Hlt |].
    unfold train in H. bind_inv H. cbn in H. injection H as <- <- <-.
    destruct (train_run_lengths _ _ _ _ _ _ _ _ _ _ _ _ Hge E) as (Heq & Hfull & _).
    destruct do_early_stopping.
    + destruct (train_run_policy _ _ _ _ _ _ _ _ _ _ _ E)
        as [Hp [[_ Hl] | (_ & Hf & _)]].
      * rewrite Heq, Hl. lia.
      * rewrite Hp in Hf. apply loss_flag_needs_calls in Hf. rewrite Heq. lia.
    + rewrite (Hfull eq_refl). lia.
  - intros tr va dv w' H.
    destruct (Z.ltb_spec epochs 0) as [Hlt | Hge]; [apply Hneg, Hlt |].
    unfold train_unet in H. bind_inv H. cbn in H. injection H as <- <- <- <-.
    unfold train_unet_run in E.
    destruct (unet_run_lengths _ do_early_stopping patience_ epochs _ _ _
                (fun k s s' b wa wb Hstep =>
                   train_unet_epoch_locals criterion train_loader val_loader device
                     do_early_stopping log_fn_unet log_every k s s' b wa wb
                     (or_introl Hstep)) Hge E)
      as ([Heq1 Heq2] & Hfull & _).
    destruct do_early_stopping.
    + destruct (unet_run_policy _ patience_ epochs _ _ _
                  (fun e s s' b w0 w1 Hstep =>
                     train_unet_epoch_policy criterion train_loader val_loader device
                       true log_fn_unet log_every e s s' b w0 w1 (or_introl Hstep)) E)
        as [Hp [[_ Hl] | (_ & Hf & _)]].
      * rewrite Heq1, Heq2, Hl. lia.
      * rewrite Hp in Hf. apply dice_flag_needs_calls in Hf. rewrite Heq1, Heq2. lia.
    + rewrite (Hfull eq_refl). lia.
  - intros tr va dv w' H.
    destruct (Z.ltb_spec epochs 0) as [Hlt | Hge]; [apply Hneg, Hlt |].
    unfold train_unet_with_scheduler in H. bind_inv H.
    cbn in H. injection H as <- <- <- <-.
    unfold train_unet_with_scheduler_run in E.
    destruct (unet_run_lengths _ do_early_stopping patience_ epochs _ _ _
                (fun k s s' b wa wb Hstep =>
                   train_unet_epoch_locals criterion train_loader val_loader device
                     do_early_stopping log_fn_unet log_every k s s' b wa wb
                     (or_intror Hstep)) Hge E)
      as ([Heq1 Heq2] & Hfull & _).
    destruct do_early_stopping.
    + destruct (unet_run_policy _ patience_ epochs _ _ _
                  (fun e s s' b w0 w1 Hstep =>
                     train_unet_epoch_policy criterion train_loader val_loader device
                       true log_fn_unet log_every e s s' b w0 w1 (or_intror Hstep)) E)
        as [Hp [[_ Hl] | (_ & Hf & _)]].
      * rewrite Heq1, Heq2, Hl. lia.
      * rewrite Hp in Hf. apply dice_flag_needs_calls in Hf. rewrite Heq1, Heq2. lia.
    + rewrite (Hfull eq_refl). lia.
Qed.

(** Patience 1 and five epochs on the concrete framework: [train] stops
    after two epochs, the least the policy allows. *)
Lemma early_stopping_waits_for_patience_witness :
  fst (@train toy toy_abs_loss [toy_batch [0] [0]] [toy_batch [0] [0]] tt true 1 5
         (Some print_log) 1 (toy_world None))
  = Ok ([0; 1]%float, [1; 2]%float)
  /\ Z.min 5 (Z.max 1 1 + 1) = 2
  /\ Z.min 5 (Z.max 1 1 + 1) <= len [0; 1]%float.
Proof.
  split; [vm_compute; reflexivity |]. split; [reflexivity |].
  apply (proj1 (@early_stopping_waits_for_patience toy toy_abs_loss [toy_batch [0] [0]]
                  [toy_batch [0] [0]] tt true 1 5 (Some print_log)
                  (Some print_log_unet) 1 (toy_world None))
           [0; 1]%float [1; 2]%float
           (snd (@train toy toy_abs_loss [toy_batch [0] [0]] [toy_batch [0] [0]] tt
                   true 1 5 (Some print_log) 1 (toy_world None)))).
  vm_compute. reflexivity.
Defined.

(** ** [train_unet_with_scheduler] without a scheduler *)

Section NoSchedulerFacts.

Context {T : Torch}.

(** Two loop bodies that agree on the worlds an invariant describes. *)
Lemma for_each_agree {B S} (I : World -> Prop) (l : list B) (f g : B -> S -> M S) :
  (forall b s w, I w -> f b s w = g b s w) ->
  (forall b s, preserves I (g b s)) ->
  forall s w, I w -> for_each l f s w = for_each l g s w.
Proof.
  intros Hfg Hg. induction l as [| b rest IH]; intros s w Hw; cbn [for_each].
  - reflexivity.
  - unfold bind. rewrite Hfg by exact Hw.
    pose proof (Hg b s w Hw) as Hp.
    destruct (g b s w) as [[s' | e] w1]; cbn [snd] in Hp; [apply IH, Hp | reflexivity].
Qed.

Lemma for_each_break_agree {B S} (I : World -> Prop) (l : list B)
    (f g : B -> S -> M (S * bool)) :
  (forall b s w, I w -> f b s w = g b s w) ->
  (forall b s, preserves I (g b s)) ->
  forall s w, I w -> for_each_break l f s w = for_each_break l g s w.
Proof.
  intros Hfg Hg. induction l as [| b rest IH]; intros s w Hw; cbn [for_each_break].
  - reflexivity.
  - unfold bind. rewrite Hfg by exact Hw.
    pose proof (Hg b s w Hw) as Hp.
    destruct (g b s w) as [[[s' stop] | e] w1]; cbn [snd fst] in *; [| reflexivity].
    destruct stop; [reflexivity | apply IH, Hp].
Qed.

Lemma train_unet_batch_keeps_scheduler (sc : option Scheduler)
    (criterion : Tensor -> Tensor -> Tensor) (device : Device)
    (b : Tensor * Tensor) (a : UnetBatchLocals) :
  preserves (fun w => scheduler w = sc) (train_unet_batch criterion device b a).
Proof.
  intros w Hw. destruct b as [x y].
  unfold train_unet_batch, bind, model_call.
  destruct (module_call (grad_enabled w) (model w) (tensor_to device (Some float32) x))
    as [m out].
  unfold optimizer_zero_grad. cbn [optimizer model scheduler grad_enabled calls stdout
                                  set_model record_call].
  destruct (zero_grad (optimizer w) m) as [o1 m1].
  unfold loss_backward. cbn [optimizer model scheduler grad_enabled calls stdout
                             set_model record_call].
  unfold optimizer_do_step. cbn [optimizer model scheduler grad_enabled calls stdout
                                 set_model record_call].
  destruct (optimizer_step o1 _) as [o2 m2].
  cbn [snd ret scheduler record_call]. exact Hw.
Qed.

(** Without a scheduler the two batch bodies are the same computation. *)
Lemma no_scheduler_batch (criterion : Tensor -> Tensor -> Tensor) (device : Device)
    (b : Tensor * Tensor) (a : UnetBatchLocals) (w : World) :
  scheduler w = None ->
  train_unet_with_scheduler_batch criterion device b a w
  = train_unet_batch criterion device b a w.
Proof.
  intros Hw. destruct b as [x y].
  unfold train_unet_with_scheduler_batch, train_unet_batch, bind, model_call.
  destruct (module_call (grad_enabled w) (model w) (tensor_to device (Some float32) x))
    as [m out].
  unfold optimizer_zero_grad. cbn [optimizer model scheduler grad_enabled calls stdout
                                  set_model record_call].
  destruct (zero_grad (optimizer w) m) as [o1 m1].
  unfold loss_backward. cbn [optimizer model scheduler grad_enabled calls stdout
                             set_model record_call].
  unfold optimizer_do_step. cbn [optimizer model scheduler grad_enabled calls stdout
                                 set_model record_call].
  destruct (optimizer_step o1 _) as [o2 m2].
  unfold scheduler_notify. cbn [optimizer model scheduler grad_enabled calls stdout
                                set_model record_call].
  rewrite Hw. reflexivity.
Qed.

Lemma train_unet_epoch_keeps_scheduler (sc : option Scheduler)
    (criterion : Tensor -> Tensor -> Tensor)
    (train_loader val_loader : DataLoader) (device : Device)
    (do_early_stopping : bool)
    (log_fn : option (Z -> float -> float -> f32 -> float -> M unit))
    (log_every : Z) (e : Z) (l : UnetTrainLocals) :
  match log_fn with
  | None => True
  | Some f =>
      forall e tl vl acc d, preserves (fun w => scheduler w = sc) (f e tl vl acc d)
  end ->
  preserves (fun w => scheduler w = sc)
    (train_unet_epoch criterion train_loader val_loader device do_early_stopping
       log_fn log_every e l).
Proof.
  intros Hlog. unfold train_unet_epoch.
  apply preserves_bind; [intros w Hw; exact Hw | intros _].
  apply preserves_bind;
    [apply preserves_for_each; intros b a; apply train_unet_batch_keeps_scheduler |].
  intros a. unfold train_unet_epoch_end.
  apply preserves_bind; [apply preserves_py_div | intros tl].
  apply preserves_bind.
  { intros w Hw. rewrite evaluate_unet_keeps_scheduler. exact Hw. }
  intros [[vl acc] d].
  apply preserves_bind.
  { destruct do_early_stopping; [| apply preserves_ret].
    destruct (EarlyStoppingForUnet.call_print (u_early_stopping l) d) as [es out].
    apply preserves_bind; [intros w Hw; exact Hw | intros _; apply preserves_ret]. }
  intros es.
  apply preserves_bind.
  { destruct log_fn as [f |]; [| apply preserves_ret].
    apply preserves_bind; [apply preserves_py_mod | intros r].
    destruct (r =? 0); [apply Hlog | apply preserves_ret]. }
  intros _.
  match goal with
  | |- preserves _ (if ?c then _ else _) => destruct c
  end.
  - apply preserves_bind; [intros w Hw; exact Hw | intros _; apply preserves_ret].
  - apply preserves_ret.
Qed.

Lemma no_scheduler_epoch (criterion : Tensor -> Tensor -> Tensor)
    (train_loader val_loader : DataLoader) (device : Device)
    (do_early_stopping : bool)
    (log_fn : option (Z -> float -> float -> f32 -> float -> M unit))
    (log_every : Z) (e : Z) (l : UnetTrainLocals) (w : World) :
  scheduler w = None ->
  train_unet_with_scheduler_epoch criterion train_loader val_loader device
    do_early_stopping log_fn log_every e l w
  = train_unet_epoch criterion train_loader val_loader device do_early_stopping
      log_fn log_every e l w.
Proof.
  intros Hw. unfold train_unet_with_scheduler_epoch, train_unet_epoch.
  unfold bind. cbn [model_train].
  rewrite (for_each_agree (fun w => scheduler w = None) train_loader
             (train_unet_with_scheduler_batch criterion device)
             (train_unet_batch criterion device)
             (fun b s w0 H0 => no_scheduler_batch criterion device b s w0 H0)
             (fun b s => train_unet_batch_keeps_scheduler None criterion device b s))
    by exact Hw.
  reflexivity.
Qed.

End NoSchedulerFacts.

(** X16: called without a scheduler ([scheduler=None]),
    [train_unet_with_scheduler] is [train_unet]: same result, same effect on
    the model and the optimizer, same calls and same output, provided the
    logging callback does not install a scheduler. *)
Theorem no_scheduler_is_train_unet {T : Torch}
    (criterion : Tensor -> Tensor -> Tensor)
    (train_loader val_loader : DataLoader) (device : Device)
    (do_early_stopping : bool) (patience_ epochs : Z)
    (log_fn : option (Z -> float -> float -> f32 -> float -> M unit))
    (log_every : Z) (w : World) :
  scheduler w = None ->
  match log_fn with
  | None => True
  | Some f =>
      forall e tl vl acc d w0,
        scheduler w0 = None -> scheduler (snd (f e tl vl acc d w0)) = None
  end ->
  train_unet_with_scheduler criterion train_loader val_loader device
    do_early_stopping patience_ epochs log_fn log_every w
  = train_unet criterion train_loader val_loader device do_early_stopping patience_
      epochs log_fn log_every w.
Proof.
  intros Hw Hlog.
  unfold train_unet_with_scheduler, train_unet, train_unet_with_scheduler_run,
    train_unet_run.
  unfold bind.
  rewrite (for_each_break_agree (fun w => scheduler w = None) (range epochs)
             (train_unet_with_scheduler_epoch criterion train_loader val_loader device
                do_early_stopping log_fn log_every)
             (train_unet_epoch criterion train_loader val_loader device
                do_early_stopping log_fn log_every)).
  - reflexivity.
  - intros e l w0 H0. apply no_scheduler_epoch, H0.
  - intros e l. apply train_unet_epoch_keeps_scheduler.
    destruct log_fn as [f |]; [| exact I].
    intros e' tl vl acc d w0 H0. apply Hlog, H0.
  - exact Hw.
Qed.

Lemma no_scheduler_is_train_unet_witness :
  scheduler (toy_world None) = None
  /\ @train_unet_with_scheduler toy toy_abs_loss two_batches [toy_batch [3; 2] [1; 0]]
       tt true 5 2 (Some print_log_unet) 1 (toy_world None)
     = @train_unet toy toy_abs_loss two_batches [toy_batch [3; 2] [1; 0]]
         tt true 5 2 (Some print_log_unet) 1 (toy_world None)
  /\ fst (@train_unet toy toy_abs_loss two_batches [toy_batch [3; 2] [1; 0]]
            tt true 5 2 (Some print_log_unet) 1 (toy_world None))
     = Ok ([4; 11]%float, [0; 4]%float, [1; 1]%float).
Proof.
  split; [reflexivity |]. split; [| vm_compute; reflexivity].
  apply (@no_scheduler_is_train_unet toy toy_abs_loss two_batches
           [toy_batch [3; 2] [1; 0]] tt true 5 2 (Some print_log_unet) 1
           (toy_world None) eq_refl).
  intros e tl vl acc d w0 H0. exact H0.
Defined.

(** ** What [train] prints *)

Section LogFacts.

Context {T : Torch}.

(** [for_each_break_seq] with properties that also speak of the world. *)
Lemma for_each_break_seq_world {S} (body : Z -> S -> M (S * bool))
    (P : nat -> S -> World -> Prop) (Q : nat -> S -> World -> Prop) :
  (forall k s w s' b w',
     P k s w -> body (Z.of_nat k) s w = (Ok (s', b), w') ->
     if b then Q k s' w' else P (Datatypes.S k) s' w') ->
  forall n start s0 w s w',
    P start s0 w ->
    for_each_break (map Z.of_nat (seq start n)) body s0 w = (Ok s, w') ->
    P (start + n)%nat s w' \/ exists k, (start <= k < start + n)%nat /\ Q k s w'.
Proof.
  intros Hbody. induction n as [| n IH]; intros start s0 w s w' HP Hrun.
  - cbn in Hrun. injection Hrun as <- <-. left. rewrite Nat.add_0_r. exact HP.
  - cbn [seq map for_each_break] in Hrun.
    unfold bind in Hrun.
    destruct (body (Z.of_nat start) s0 w) as [[[s1 b] | e] w1] eqn:E;
      [| discriminate Hrun].
    pose proof (Hbody _ _ _ _ _ _ HP E) as Hstep.
    cbn [fst snd] in Hrun. destruct b.
    + injection Hrun as <- <-. right. exists start. split; [lia | exact Hstep].
    + destruct (IH _ _ _ _ _ Hstep Hrun) as [HP' | (k & Hk & HQ)].
      * left. replace (start + Datatypes.S n)%nat with (Datatypes.S start + n)%nat by lia.
        exact HP'.
      * right. exists k. split; [lia | exact HQ].
Qed.

Lemma log_lines_app (log_every : Z) (entries : list (float * float)) (epoch : Z)
    (t v : float) :
  log_lines log_every epoch (entries ++ [(t, v)])
  = log_lines log_every epoch entries
    ++ (if (epoch + len entries + 1) mod log_every =? 0
        then [PrintLog (epoch + len entries) t v] else []).
Proof.
  revert epoch. unfold len.
  induction entries as [| [t0 v0] rest IH]; intros epoch; cbn [app log_lines length].
  - rewrite app_nil_r. replace (epoch + Z.of_nat 0) with epoch by lia. reflexivity.
  - rewrite IH, <- app_assoc.
    replace (epoch + 1 + Z.of_nat (length rest))
      with (epoch + Z.of_nat (Datatypes.S (length rest))) by lia.
    reflexivity.
Qed.

Lemma combine_snoc {A B} (l1 : list A) (l2 : list B) (a : A) (b : B) :
  length l1 = length l2 ->
  combine (l1 ++ [a]) (l2 ++ [b]) = combine l1 l2 ++ [(a, b)].
Proof.
  revert l2. induction l1 as [| x l1 IH]; intros [| y l2] H; cbn in *;
    try discriminate H; [reflexivity |].
  rewrite IH by (injection H as H; exact H). reflexivity.
Qed.

Lemma train_batch_keeps_stdout (out : list Printed)
    (criterion : Tensor -> Tensor -> Tensor) (device : Device)
    (b : Tensor * Tensor) (s : float) :
  preserves (fun w => stdout w = out) (train_batch criterion device b s).
Proof.
  intros w Hw. destruct b as [x y].
  unfold train_batch, bind.
  unfold optimizer_zero_grad.
  destruct (zero_grad (optimizer w) (model w)) as [o1 m1].
  unfold model_call. cbn [optimizer model scheduler grad_enabled calls stdout
                          set_model record_call].
  destruct (module_call (grad_enabled w) m1 (tensor_to device None x)) as [m out'].
  unfold loss_backward. cbn [optimizer model scheduler grad_enabled calls stdout
                             set_model record_call].
  unfold optimizer_do_step. cbn [optimizer model scheduler grad_enabled calls stdout
                                 set_model record_call].
  destruct (optimizer_step o1 _) as [o2 m2].
  cbn [snd ret stdout record_call]. exact Hw.
Qed.

Lemma evaluate_keeps_stdout (out : list Printed)
    (criterion : Tensor -> Tensor -> Tensor) (data_loader : DataLoader)
    (device : Device) :
  preserves (fun w => stdout w = out) (evaluate criterion data_loader device).
Proof.
  unfold evaluate.
  apply preserves_bind; [intros w Hw; exact Hw | intros _].
  apply preserves_bind; [| intros total; apply preserves_py_div].
  intros w Hw. unfold with_no_grad.
  match goal with
  | |- context [for_each data_loader ?body ?s0 ?wx] =>
      pose proof (preserves_for_each (fun w' => stdout w' = out) data_loader body
                    ltac:(intros [x y] s w1 H1; unfold bind, model_call;
                          destruct (module_call _ _ _) as [m o]; exact H1)
                    s0 wx Hw) as Hloop;
      destruct (for_each data_loader body s0 wx) as [r w1]
  end.
  exact Hloop.
Qed.

(** What a completed epoch of [train] with the default callback prints. *)
Lemma train_epoch_output (criterion : Tensor -> Tensor -> Tensor)
    (train_loader val_loader : DataLoader) (device : Device)
    (do_early_stopping : bool) (log_every : Z)
    (epoch_ : Z) (l l' : TrainLocals) (b : bool) (w w' : World) :
  train_epoch criterion train_loader val_loader device do_early_stopping
              (Some print_log) log_every epoch_ l w = (Ok (l', b), w') ->
  exists tl vl,
    epoch_train_errors l' = epoch_train_errors l ++ [tl]
    /\ epoch_val_errors l' = epoch_val_errors l ++ [vl]
    /\ stdout w'
       = stdout w
         ++ (if (epoch_ + 1) mod log_every =? 0 then [PrintLog epoch_ tl vl] else [])
         ++ (if b then [PrintStop epoch_ (best_score (early_stopping l'))] else []).
Proof.
  intros H. unfold train_epoch in H.
  bind_inv H. unfold model_train in E. injection E as _ <-.
  bind_inv H.
  match type of E with
  | for_each _ _ _ ?wx = _ =>
      pose proof (preserves_for_each (fun w0 => stdout w0 = stdout w) train_loader
                    (train_batch criterion device)
                    (fun b0 s => train_batch_keeps_stdout (stdout w) criterion device b0 s)
                    0%float wx eq_refl) as H1
  end.
  rewrite E in H1. cbn [snd] in H1.
  bind_inv H. unfold py_div in E0. destruct (len train_loader =? 0); [discriminate E0 |].
  injection E0 as <- <-.
  bind_inv H.
  pose proof (evaluate_keeps_stdout (stdout w) criterion val_loader device _ H1) as H2.
  rewrite E0 in H2. cbn [snd] in H2.
  exists (a0 / float_of_len (len train_loader))%float, a1.
  unfold py_mod in H. destruct (log_every =? 0); [discriminate H |].
  unfold ret at 1 in H. cbv beta iota in H.
  destruct ((epoch_ + 1) mod log_every =? 0).
  - unfold print_log, print in H. cbv beta iota in H.
    match type of H with
    | (if ?c then _ else _) _ = _ => destruct c
    end.
    + unfold print, ret in H. injection H as <- <- <-.
      cbn [epoch_train_errors epoch_val_errors early_stopping stdout].
      split; [reflexivity |]. split; [reflexivity |].
      rewrite H2, <- app_assoc. reflexivity.
    + unfold ret in H. injection H as <- <- <-.
      cbn [epoch_train_errors epoch_val_errors early_stopping stdout].
      split; [reflexivity |]. split; [reflexivity |].
      rewrite H2, app_nil_r. reflexivity.
  - unfold ret at 1 in H. cbv beta iota in H.
    match type of H with
    | (if ?c then _ else _) _ = _ => destruct c
    end.
    + unfold print, ret in H. injection H as <- <- <-.
      cbn [epoch_train_errors epoch_val_errors early_stopping stdout].
      split; [reflexivity |]. split; [reflexivity |].
      rewrite H2. reflexivity.
    + unfold ret in H. injection H as <- <- <-.
      cbn [epoch_train_errors epoch_val_errors early_stopping stdout].
      split; [reflexivity |]. split; [reflexivity |].
      rewrite H2, app_nil_r. reflexivity.
Qed.

End LogFacts.

Section LogRunFacts.

Context {T : Torch}.

(** The output of [train] with the default callback at its [return]
    statement. *)
Lemma train_run_output (criterion : Tensor -> Tensor -> Tensor)
    (train_loader val_loader : DataLoader) (device : Device)
    (do_early_stopping : bool) (patience_ epochs : Z) (log_every : Z)
    (l : TrainLocals) (w w' : World) :
  train_run criterion train_loader val_loader device do_early_stopping
            patience_ epochs (Some print_log) log_every w = (Ok l, w') ->
  stdout w'
  = stdout w
    ++ log_lines log_every 0 (combine (epoch_train_errors l) (epoch_val_errors l))
    ++ (if do_early_stopping && early_stop (early_stopping l)
        then [PrintStop (len (epoch_train_errors l) - 1) (best_score (early_stopping l))]
        else []).
Proof.
  intros Hrun. unfold train_run, range in Hrun.
  pose (P := fun (k : nat) (s : TrainLocals) (wk : World) =>
               length (epoch_train_errors s) = k
               /\ length (epoch_val_errors s) = k
               /\ do_early_stopping && early_stop (early_stopping s) = false
               /\ stdout wk
                  = stdout w
                    ++ log_lines log_every 0
                         (combine (epoch_train_errors s) (epoch_val_errors s))).
  pose (Q := fun (k : nat) (s : TrainLocals) (wk : World) =>
               length (epoch_train_errors s) = Datatypes.S k
               /\ length (epoch_val_errors s) = Datatypes.S k
               /\ do_early_stopping && early_stop (early_stopping s) = true
               /\ stdout wk
                  = stdout w
                    ++ log_lines log_every 0
                         (combine (epoch_train_errors s) (epoch_val_errors s))
                    ++ [PrintStop (Z.of_nat k) (best_score (early_stopping s))]).
  assert (Hbody : forall k s w0 s' b w0',
             P k s w0 ->
             train_epoch criterion train_loader val_loader device do_early_stopping
                         (Some print_log) log_every (Z.of_nat k) s w0
             = (Ok (s', b), w0') ->
             if b then Q k s' w0' else P (Datatypes.S k) s' w0').
  { intros k s w0 s' b w0' (Ht & Hv & _ & Hout) Hstep.
    destruct (train_epoch_output _ _ _ _ _ _ _ _ _ _ _ _ Hstep)
      as (tl & vl & Htl & Hvl & Hout').
    apply train_epoch_locals in Hstep. destruct Hstep as (_ & _ & _ & Hb).
    assert (Hlines : log_lines log_every 0
                       (combine (epoch_train_errors s') (epoch_val_errors s'))
                     = log_lines log_every 0
                         (combine (epoch_train_errors s) (epoch_val_errors s))
                       ++ (if (Z.of_nat k + 1) mod log_every =? 0
                           then [PrintLog (Z.of_nat k) tl vl] else [])).
    { rewrite Htl, Hvl, combine_snoc by congruence.
      rewrite log_lines_app. unfold len. rewrite length_combine, Ht, Hv, Nat.min_id.
      reflexivity. }
    assert (Hl1 : length (epoch_train_errors s') = Datatypes.S k)
      by (rewrite Htl, length_app, Ht; cbn [length]; lia).
    assert (Hl2 : length (epoch_val_errors s') = Datatypes.S k)
      by (rewrite Hvl, length_app, Hv; cbn [length]; lia).
    destruct b; unfold P, Q.
    - split; [exact Hl1 |]. split; [exact Hl2 |]. split; [symmetry; exact Hb |].
      rewrite Hout', Hout, Hlines, <- !app_assoc. reflexivity.
    - split; [exact Hl1 |]. split; [exact Hl2 |]. split; [symmetry; exact Hb |].
      rewrite Hout', Hout, Hlines, app_nil_r, <- !app_assoc. reflexivity. }
  assert (HP0 : P 0%nat (mkTrainLocals [] [] (EarlyStopping.init patience_) None) w).
  { unfold P. cbn. rewrite app_nil_r. repeat split. apply andb_false_r. }
  destruct (for_each_break_seq_world _ P Q Hbody _ _ _ _ _ _ HP0 Hrun)
    as [(_ & _ & Hf & Hout) | (k & _ & Ht & _ & Hf & Hout)].
  - rewrite Hf, app_nil_r. exact Hout.
  - rewrite Hf. unfold len. rewrite Ht.
    replace (Z.of_nat (Datatypes.S k) - 1) with (Z.of_nat k) by lia. exact Hout.
Qed.

End LogRunFacts.

(** X17: what a run of [train] that returns has printed with the default
    callback [print_log]: one line for each recorded epoch whose number,
    counted from 1, is a multiple of [log_every], in the order of the epochs
    and carrying the epoch index and that epoch's entries of the two
    returned histories; then, when early stopping ended the run, one last
    line with the index of the last epoch and the best validation loss seen.
    Nothing else is printed. *)
Theorem train_log_output {T : Torch} (criterion : Tensor -> Tensor -> Tensor)
    (train_loader val_loader : DataLoader) (device : Device)
    (do_early_stopping : bool) (patience_ epochs : Z) (log_every : Z)
    (w w' : World) (tr va : list float) :
  train criterion train_loader val_loader device do_early_stopping patience_ epochs
        (Some print_log) log_every w = (Ok (tr, va), w') ->
  let policy := feed EarlyStopping.call (EarlyStopping.init patience_) va in
  stdout w'
  = stdout w
    ++ log_lines log_every 0 (combine tr va)
    ++ (if do_early_stopping && early_stop policy
        then [PrintStop (len tr - 1) (best_score policy)] else []).
Proof.
  intros H. cbv zeta. unfold train in H. bind_inv H.
  cbn in H. injection H as <- <- <-.
  rewrite (train_run_output _ _ _ _ _ _ _ _ _ _ _ E).
  destruct do_early_stopping; [| reflexivity].
  destruct (train_run_policy _ _ _ _ _ _ _ _ _ _ _ E) as [Hp _].
  rewrite Hp. reflexivity.
Qed.

(** Patience 1, five epochs and a line every epoch on the concrete
    framework: two log lines, then the line of the early stop. *)
Lemma train_log_output_witness :
  let run :=
    @train toy toy_abs_loss [toy_batch [0] [0]] [toy_batch [0] [0]] tt true 1 5
      (Some print_log) 1 (toy_world None) in
  fst run = Ok ([0; 1]%float, [1; 2]%float)
  /\ stdout (snd run)
     = [PrintLog 0 0%float 1%float; PrintLog 1 1%float 2%float; PrintStop 1 1%float]
  /\ stdout (snd run)
     = stdout (toy_world None)
       ++ log_lines 1 0 (combine [0; 1]%float [1; 2]%float)
       ++ (if true && early_stop (feed EarlyStopping.call (EarlyStopping.init 1)
                                       [1; 2]%float)
           then [PrintStop (len [0; 1]%float - 1)
                   (best_score (feed EarlyStopping.call (EarlyStopping.init 1)
                                     [1; 2]%float))]
           else []).
Proof.
  cbv zeta. split; [vm_compute; reflexivity |]. split; [vm_compute; reflexivity |].
  apply (@train_log_output toy toy_abs_loss [toy_batch [0] [0]] [toy_batch [0] [0]] tt
           true 1 5 1 (toy_world None)).
  vm_compute. reflexivity.
Defined.
